(** * Trajectory analysis scripts: canonical action keys, repetition
      counting and episode classification

    A shallow embedding of the Python scripts of the repository
    (repeated_actions.py, summary.py, count_episodes.py,
    find_short_losses.py, check_all_early_terminations.py,
    investigate_end_condition.py, analyze_jsonl.py, json_to_csv.py) and
    the properties of their specification.  Each script has a module of its name holding its
    functions; the properties follow the modules.

    Conventions of the embedding:
    - a Python [int] is a [Z]; a finite Python [float] is the rational
      number it denotes (a [Q]); comparisons between numbers are exact in
      Python and are exact here.  The non-finite floats that Python's
      decoder accepts as an extension (NaN, Infinity) are not JSON and are
      outside the model;
    - a Python [str] is a [string], one [ascii] per character, ordered by
      character code as Python orders by code point;
    - a Python [dict] is the list of its items in insertion order; its keys
      are unique ([dict_wf]);
    - an expression that can raise returns a [result]; a statement runs
      in the monad [M], which threads the script's variables and the
      printed output and keeps both when an exception is raised;
    - a path is a string in the form pathlib prints it; the file system
      is a partial map from paths to files, a file being its lines as
      [json.loads] reads them.  The input is the one of the
      specification: a path that exists names a readable UTF-8 text
      file.  A directory, or a file that cannot be read or decoded, on
      which [open] or the iteration over the lines raises another error
      than FileNotFoundError, is outside the model; so is a line on which
      [json.loads] raises another error than JSONDecodeError (ValueError
      for an integer of more than 4300 digits, RecursionError for values
      nested beyond the interpreter's limit). *)

From Stdlib Require Import List Bool Arith ZArith QArith Lia.
From Stdlib Require Import Ascii String.
From Stdlib Require Import Permutation Sorted.
Import ListNotations.

#[local] Set Warnings "-register-all".

Local Open Scope string_scope.
Local Open Scope list_scope.
Local Open Scope Z_scope.

(** ** Python values *)

Module Py.

(** [None], [bool], [int], [float] and [str]: the values json.loads
    produces for null, true/false, numbers and strings. *)
Inductive prim : Type :=
| PNone
| PBool (b : bool)
| PInt (z : Z)
| PFloat (q : Q)
| PStr (s : string).

(** A parsed JSON value: a primitive, a [list], or a [dict] given by its
    items in insertion order. *)
Inductive json : Type :=
| JPrim (p : prim)
| JList (items : list json)
| JDict (items : list (string * json)).

(** A hashable Python value as make_hashable builds them: a primitive or
    a [tuple]. *)
Inductive key : Type :=
| KPrim (p : prim)
| KTuple (items : list key).

Definition JNone : json := JPrim PNone.
Definition JBool (b : bool) : json := JPrim (PBool b).
Definition JInt (z : Z) : json := JPrim (PInt z).
Definition JFloat (q : Q) : json := JPrim (PFloat q).
Definition JStr (s : string) : json := JPrim (PStr s).

(** The numeric value of a number; [bool] is a subclass of [int] with
    [True == 1] and [False == 0]. *)
Definition num_val (p : prim) : option Q :=
  match p with
  | PBool b => Some (if b then 1%Q else 0%Q)
  | PInt z => Some (inject_Z z)
  | PFloat q => Some q
  | PNone | PStr _ => None
  end.

(** Python's [==] on primitives: numbers compare by value across [bool],
    [int] and [float]; [None] equals only [None]; strings compare by
    content. *)
Definition prim_eq (p1 p2 : prim) : bool :=
  match num_val p1, num_val p2 with
  | Some a, Some b => Qeq_bool a b
  | None, None =>
      match p1, p2 with
      | PNone, PNone => true
      | PStr s, PStr t => String.eqb s t
      | _, _ => false
      end
  | _, _ => false
  end.

(** Python's [==] on hashable values; tuples are equal when they have the
    same length and equal elements.  Two keys that are [==] also hash
    alike, so this is the equality a [dict] or [Counter] looks keys up
    with. *)
Fixpoint py_eq (k1 k2 : key) : bool :=
  match k1, k2 with
  | KPrim p1, KPrim p2 => prim_eq p1 p2
  | KTuple l1, KTuple l2 =>
      (fix tuple_eq (l1 l2 : list key) : bool :=
         match l1, l2 with
         | [], [] => true
         | x :: r1, y :: r2 => py_eq x y && tuple_eq r1 r2
         | _, _ => false
         end) l1 l2
  | _, _ => false
  end.

(** Element-wise comparison of two tuples, as [py_eq] unfolds it. *)
Fixpoint tuple_eq (l1 l2 : list key) : bool :=
  match l1, l2 with
  | [], [] => true
  | x :: r1, y :: r2 => py_eq x y && tuple_eq r1 r2
  | _, _ => false
  end.

(** [d.get(k)] on the items of a dict: the value stored under [k]. *)
Fixpoint dict_get (k : string) (items : list (string * json)) : option json :=
  match items with
  | [] => None
  | (k', v) :: rest => if String.eqb k' k then Some v else dict_get k rest
  end.

(** Keys of a dict are unique, at every depth. *)
Definition dict_wf {A : Type} (items : list (string * A)) : Prop :=
  NoDup (map fst items).

Fixpoint json_wf (v : json) : Prop :=
  match v with
  | JPrim _ => True
  | JList l => fold_right (fun x rest => json_wf x /\ rest) True l
  | JDict d =>
      dict_wf d /\
      fold_right (fun kv rest => json_wf (snd kv) /\ rest) True d
  end.

(** Python's [==] on parsed JSON values.  Lists are equal when they have
    the same length and equal elements in order; dicts are equal when they
    have the same number of keys and every key of the first is a key of
    the second with an equal value (insertion order plays no part); a list
    never equals a dict. *)
Fixpoint json_eq (a b : json) : bool :=
  match a, b with
  | JPrim p1, JPrim p2 => prim_eq p1 p2
  | JList l1, JList l2 =>
      (fix list_eq (l1 l2 : list json) : bool :=
         match l1, l2 with
         | [], [] => true
         | x :: r1, y :: r2 => json_eq x y && list_eq r1 r2
         | _, _ => false
         end) l1 l2
  | JDict d1, JDict d2 =>
      Nat.eqb (List.length d1) (List.length d2) &&
      forallb (fun kv => match dict_get (fst kv) d2 with
                         | Some v' => json_eq (snd kv) v'
                         | None => false
                         end) d1
  | _, _ => false
  end.

(** Whether two values agree, wherever both have a container at the same
    position, on that container being a list or being a dict. *)
Fixpoint same_kind (a b : json) : bool :=
  match a, b with
  | JList l1, JList l2 =>
      (fix list_kind (l1 l2 : list json) : bool :=
         match l1, l2 with
         | x :: r1, y :: r2 => same_kind x y && list_kind r1 r2
         | _, _ => true
         end) l1 l2
  | JDict d1, JDict d2 =>
      forallb (fun kv => match dict_get (fst kv) d2 with
                         | Some v' => same_kind (snd kv) v'
                         | None => true
                         end) d1
  | JList _, JDict _ => false
  | JDict _, JList _ => false
  | _, _ => true
  end.

End Py.

(** ** Python statements: exceptions, state and output *)

Module Run.
Import Py.

Inductive exn : Type :=
| AttributeError
| TypeError
| KeyError
| IndexError
| JSONDecodeError (msg : string)
| FileNotFoundError (path : string).

Inductive result (A : Type) : Type :=
| Ok (a : A)
| Raise (e : exn).
Arguments Ok {A} a.
Arguments Raise {A} e.

(** A number whose value depends on floating-point rounding is kept as
    the expression that computes it. *)
Inductive num : Type :=
| NInt (z : Z)
| NSum (addends : list prim)
| NAdd (a b : num)
| NDiv (a b : num)
| NMul (a b : num).

Definition rbind {A B : Type} (r : result A) (k : A -> result B) : result B :=
  match r with
  | Ok a => k a
  | Raise e => Raise e
  end.

(** What a [print] call writes: the f-string as in the source, and the
    values of its fields in order. *)
Inductive arg : Type :=
| AInt (z : Z)
| AStr (s : string)
| AJson (v : json)
| ANum (n : num)
| AExn (e : exn).

Record output : Type := Printed { template : string; args : list arg }.

(** A statement runs in a state [S] and an output stream; both keep what
    was done before an exception was raised. *)
Definition M (S A : Type) : Type :=
  S * list output -> (S * list output) * result A.

Definition ret {S A : Type} (a : A) : M S A := fun w => (w, Ok a).

Definition bind {S A B : Type} (c : M S A) (k : A -> M S B) : M S B :=
  fun w => match c w with
           | (w', Ok a) => k a w'
           | (w', Raise e) => (w', Raise e)
           end.

Definition lift {S A : Type} (r : result A) : M S A := fun w => (w, r).

Definition raise {S A : Type} (e : exn) : M S A := fun w => (w, Raise e).

Definition get {S : Type} : M S S := fun w => (w, Ok (fst w)).

Definition modify {S : Type} (f : S -> S) : M S unit :=
  fun w => ((f (fst w), snd w), Ok tt).

Definition print {S : Type} (t : string) (a : list arg) : M S unit :=
  fun w => ((fst w, snd w ++ [Printed t a]), Ok tt).

(** [try: body except Exception as e: handler(e)]. *)
Definition try_except {S : Type} (body : M S unit) (handler : exn -> M S unit)
  : M S unit :=
  fun w => match body w with
           | (w', Ok a) => (w', Ok a)
           | (w', Raise e) => handler e w'
           end.

(** [for x in l: body(x)]; an exception leaves the loop. *)
Fixpoint for_each {S A : Type} (l : list A) (body : A -> M S unit) : M S unit :=
  match l with
  | [] => ret tt
  | x :: rest => bind (body x) (fun _ => for_each rest body)
  end.

Fixpoint enumerate {A : Type} (start : Z) (l : list A) : list (Z * A) :=
  match l with
  | [] => []
  | x :: rest => (start, x) :: enumerate (start + 1) rest
  end.

(** Running a whole function from an initial state. *)
Definition run {S A : Type} (c : M S A) (s : S)
  : (S * list output) * result A := c (s, []).

(** *** Files *)

(** A line of a JSONL file as the loop body meets it: empty after
    [line.strip()], rejected by [json.loads] with JSONDecodeError and a
    message, or parsed.  The lines on which [json.loads] raises another
    error are not among them. *)
Inductive line : Type :=
| Blank
| Malformed (msg : string)
| Parsed (v : json).

Record text_file : Type := mk_file { st_size : Z; lines : list line }.

(** The files that exist, by path; each is a text file that can be
    read. *)
Definition filesystem : Type := string -> option text_file.

(** [json.loads(line)] on the lines of the model. *)
Definition json_loads (l : line) : result json :=
  match l with
  | Parsed v => Ok v
  | Malformed msg => Raise (JSONDecodeError msg)
  | Blank => Raise (JSONDecodeError "Expecting value")
  end.

(** [open(filepath, 'r')] on the paths of the model: a path that names
    no file raises FileNotFoundError. *)
Definition open {S : Type} (fs : filesystem) (filepath : string)
  : M S text_file :=
  match fs filepath with
  | Some f => ret f
  | None => raise (FileNotFoundError filepath)
  end.

(** *** Operations on parsed values *)

Definition is_number (p : prim) : bool :=
  match p with
  | PBool _ | PInt _ | PFloat _ => true
  | PNone | PStr _ => false
  end.

Fixpoint chars (s : string) : list json :=
  match s with
  | EmptyString => []
  | String c rest => JStr (String c EmptyString) :: chars rest
  end.

(** [obj.get(k, default)]; only a dict has [get]. *)
Definition py_get (obj : json) (k : string) (default : json) : result json :=
  match obj with
  | JDict items =>
      Ok (match dict_get k items with Some v => v | None => default end)
  | _ => Raise AttributeError
  end.

(** [len(obj)]. *)
Definition py_len (obj : json) : result Z :=
  match obj with
  | JList l => Ok (Z.of_nat (List.length l))
  | JDict d => Ok (Z.of_nat (List.length d))
  | JPrim (PStr s) => Ok (Z.of_nat (String.length s))
  | JPrim _ => Raise TypeError
  end.

(** The truth value of [obj] in a condition. *)
Definition py_truthy (obj : json) : bool :=
  match obj with
  | JList l => negb (Nat.eqb (List.length l) 0)
  | JDict d => negb (Nat.eqb (List.length d) 0)
  | JPrim PNone => false
  | JPrim (PBool b) => b
  | JPrim (PInt z) => negb (z =? 0)
  | JPrim (PFloat q) => negb (Qeq_bool q 0)
  | JPrim (PStr s) => negb (Nat.eqb (String.length s) 0)
  end.

(** [for x in obj]: the elements of a list, the characters of a str, the
    keys of a dict. *)
Definition py_iter (obj : json) : result (list json) :=
  match obj with
  | JList l => Ok l
  | JDict d => Ok (map (fun kv => JStr (fst kv)) d)
  | JPrim (PStr s) => Ok (chars s)
  | JPrim _ => Raise TypeError
  end.

(** [obj[i]] for an integer [i]; a negative index counts from the end.
    The keys of a parsed dict are strings, so an integer is never one. *)
Definition py_index (obj : json) (i : Z) : result json :=
  let at_index (l : list json) :=
    let n := Z.of_nat (List.length l) in
    let j := if i <? 0 then i + n else i in
    if (0 <=? j) && (j <? n)
    then match nth_error l (Z.to_nat j) with
         | Some v => Ok v
         | None => Raise IndexError
         end
    else Raise IndexError in
  match obj with
  | JList l => at_index l
  | JPrim (PStr s) => at_index (chars s)
  | JDict _ => Raise KeyError
  | JPrim _ => Raise TypeError
  end.

(** [obj[-n:]] for [n > 0]: the last [n] elements.  A dict cannot be
    sliced. *)
Definition py_last_slice (obj : json) (n : nat) : result (list json) :=
  let tail (l : list json) := skipn (List.length l - n) l in
  match obj with
  | JList l => Ok (tail l)
  | JPrim (PStr s) => Ok (tail (chars s))
  | JDict _ => Raise TypeError
  | JPrim _ => Raise TypeError
  end.

(** [obj >= n] and [obj < n] for an integer [n]: defined on numbers
    only. *)
Definition py_ge (obj : json) (n : Z) : result bool :=
  match obj with
  | JPrim p =>
      match num_val p with
      | Some q => Ok (Qle_bool (inject_Z n) q)
      | None => Raise TypeError
      end
  | _ => Raise TypeError
  end.

Definition py_lt (obj : json) (n : Z) : result bool :=
  match obj with
  | JPrim p =>
      match num_val p with
      | Some q => Ok (negb (Qle_bool (inject_Z n) q))
      | None => Raise TypeError
      end
  | _ => Raise TypeError
  end.

Definition as_number (v : json) : option prim :=
  match v with
  | JPrim p => if is_number p then Some p else None
  | _ => None
  end.

Fixpoint all_numbers (l : list json) : option (list prim) :=
  match l with
  | [] => Some []
  | v :: rest =>
      match as_number v, all_numbers rest with
      | Some p, Some ps => Some (p :: ps)
      | _, _ => None
      end
  end.

(** [sum(obj)]: adds the elements to 0; adding anything but a number
    raises. *)
Definition py_sum (obj : json) : result num :=
  match py_iter obj with
  | Ok items =>
      match all_numbers items with
      | Some ps => Ok (NSum ps)
      | None => Raise TypeError
      end
  | Raise e => Raise e
  end.

(** A value can be a dict key or a set element when it is hashable; a
    list or a dict is not. *)
Definition py_hashable (v : json) : result prim :=
  match v with
  | JPrim p => Ok p
  | _ => Raise TypeError
  end.

(** [d[k] += 1] on a [defaultdict(int)]. *)
Fixpoint dd_incr (k : prim) (d : list (prim * Z)) : list (prim * Z) :=
  match d with
  | [] => [(k, 1)]
  | (k', n) :: rest =>
      if prim_eq k' k then (k', n + 1) :: rest
      else (k', n) :: dd_incr k rest
  end.

(** [s.add(x)] on a set. *)
Definition set_add (x : prim) (s : list prim) : list prim :=
  if existsb (fun y => prim_eq y x) s then s else s ++ [x].

End Run.

Declare Scope py_scope.
Delimit Scope py_scope with py.
Notation "x <- c ;; k" := (Run.bind c (fun x => k))
  (at level 61, c at next level, right associativity) : py_scope.
Notation "c ;;; k" := (Run.bind c (fun _ => k))
  (at level 61, right associativity) : py_scope.
Notation "x <~ c ;; k" := (Run.rbind c (fun x => k))
  (at level 61, c at next level, right associativity) : py_scope.

(** ** repeated_actions.py *)

Module RepeatedActions.
Import Py Run.

(** The pair [(k, hashable_value)] built for a dict item, as a tuple. *)
Definition item_key (kv : string * key) : key :=
  KTuple [KPrim (PStr (fst kv)); snd kv].

(** [sorted] on the pairs [(k, make_hashable(v))] of one dict.  Python
    compares two tuples at their first differing position; the keys of a
    dict are pairwise distinct, so the comparison is decided by the keys,
    in code point order, and never reaches the values. *)
Fixpoint insert_sorted (kv : string * key) (l : list (string * key))
  : list (string * key) :=
  match l with
  | [] => [kv]
  | kv' :: rest =>
      if String.leb (fst kv) (fst kv') then kv :: l
      else kv' :: insert_sorted kv rest
  end.

Definition sorted (l : list (string * key)) : list (string * key) :=
  fold_right insert_sorted [] l.

(** The order [sorted] arranges the pairs in. *)
Definition key_le (p q : string * key) : Prop :=
  String.leb (fst p) (fst q) = true.

(** [make_hashable(obj)].  The final [else: return str(obj)] branch of
    the source is not reachable from a parsed JSON value, every one of
    which is a dict, a list or one of the listed primitives. *)
Fixpoint make_hashable (obj : json) : key :=
  match obj with
  | JDict items =>
      KTuple (map item_key
                (sorted (map (fun kv => (fst kv, make_hashable (snd kv))) items)))
  | JList items => KTuple (map make_hashable items)
  | JPrim p => KPrim p
  end.

(** The generator [(k, make_hashable(v)) for k, v in obj.items()]. *)
Definition hashed (d : list (string * json)) : list (string * key) :=
  map (fun kv => (fst kv, make_hashable (snd kv))) d.

Definition action_to_hashable (action : json) : key := make_hashable action.

(** A [Counter]: its items in insertion order. *)
Definition counter : Type := list (key * Z).

(** [action_counter[action_hash] += 1]: a missing key counts as 0 and is
    inserted at the end; a present key keeps its place. *)
Fixpoint counter_incr (k : key) (c : counter) : counter :=
  match c with
  | [] => [(k, 1)]
  | (k', n) :: rest =>
      if py_eq k' k then (k', n + 1) :: rest
      else (k', n) :: counter_incr k rest
  end.

(** The loop [for action in actions: ...] of lines 102-105. *)
Definition count_actions (actions : list json) : counter :=
  fold_left (fun c action => counter_incr (action_to_hashable action) c)
            actions [].

Definition counter_values (c : counter) : list Z := map snd c.

(** [sum(...)] over integers. *)
Definition zsum (l : list Z) : Z := fold_left Z.add l 0.

(** The counts of lines 107-124, for the elements the loop iterates
    over. *)
Record repetition_counts : Type := mk_counts {
  total_actions : Z;
  unique_actions : Z;
  num_repeated_actions : Z;
  total_repetitions : Z
}.

Definition count_repetitions (actions : list json) : repetition_counts :=
  let action_counter := count_actions actions in
  let num_repeated :=
    zsum (map (fun _ => 1) (filter (fun count => 1 <? count)
                                   (counter_values action_counter))) in
  let total_reps :=
    zsum (map (fun count => count - 1)
              (filter (fun count => 1 <? count)
                      (counter_values action_counter))) in
  {| total_actions := Z.of_nat (List.length actions);
     unique_actions := Z.of_nat (List.length action_counter);
     num_repeated_actions := num_repeated;
     total_repetitions := total_reps |}.

(** *** analyze_repeated_actions *)

Record episode_info : Type := mk_info {
  file : string;
  line_number : Z;
  counts : repetition_counts;
  repeat_percentage : num;
  is_win : json
}.

(** The lists the function returns. *)
Record results : Type := mk_results {
  all_episodes : list Z;
  win_episodes : list Z;
  loss_episodes : list Z;
  all_episodes_total_reps : list Z;
  win_episodes_total_reps : list Z;
  loss_episodes_total_reps : list Z;
  all_episodes_rep_rates : list num;
  win_episodes_rep_rates : list num;
  loss_episodes_rep_rates : list num;
  episode_details : list episode_info
}.

Definition empty_results : results :=
  mk_results [] [] [] [] [] [] [] [] [] [].

(** [name.append(x)], one definition per list. *)
Definition append_all_episodes (x : Z) (r : results) : results :=
  mk_results (all_episodes r ++ [x]) (win_episodes r) (loss_episodes r)
    (all_episodes_total_reps r) (win_episodes_total_reps r)
    (loss_episodes_total_reps r) (all_episodes_rep_rates r)
    (win_episodes_rep_rates r) (loss_episodes_rep_rates r)
    (episode_details r).

Definition append_win_episodes (x : Z) (r : results) : results :=
  mk_results (all_episodes r) (win_episodes r ++ [x]) (loss_episodes r)
    (all_episodes_total_reps r) (win_episodes_total_reps r)
    (loss_episodes_total_reps r) (all_episodes_rep_rates r)
    (win_episodes_rep_rates r) (loss_episodes_rep_rates r)
    (episode_details r).

Definition append_loss_episodes (x : Z) (r : results) : results :=
  mk_results (all_episodes r) (win_episodes r) (loss_episodes r ++ [x])
    (all_episodes_total_reps r) (win_episodes_total_reps r)
    (loss_episodes_total_reps r) (all_episodes_rep_rates r)
    (win_episodes_rep_rates r) (loss_episodes_rep_rates r)
    (episode_details r).

Definition append_all_episodes_total_reps (x : Z) (r : results) : results :=
  mk_results (all_episodes r) (win_episodes r) (loss_episodes r)
    (all_episodes_total_reps r ++ [x]) (win_episodes_total_reps r)
    (loss_episodes_total_reps r) (all_episodes_rep_rates r)
    (win_episodes_rep_rates r) (loss_episodes_rep_rates r)
    (episode_details r).

Definition append_win_episodes_total_reps (x : Z) (r : results) : results :=
  mk_results (all_episodes r) (win_episodes r) (loss_episodes r)
    (all_episodes_total_reps r) (win_episodes_total_reps r ++ [x])
    (loss_episodes_total_reps r) (all_episodes_rep_rates r)
    (win_episodes_rep_rates r) (loss_episodes_rep_rates r)
    (episode_details r).

Definition append_loss_episodes_total_reps (x : Z) (r : results) : results :=
  mk_results (all_episodes r) (win_episodes r) (loss_episodes r)
    (all_episodes_total_reps r) (win_episodes_total_reps r)
    (loss_episodes_total_reps r ++ [x]) (all_episodes_rep_rates r)
    (win_episodes_rep_rates r) (loss_episodes_rep_rates r)
    (episode_details r).

Definition append_all_episodes_rep_rates (x : num) (r : results) : results :=
  mk_results (all_episodes r) (win_episodes r) (loss_episodes r)
    (all_episodes_total_reps r) (win_episodes_total_reps r)
    (loss_episodes_total_reps r) (all_episodes_rep_rates r ++ [x])
    (win_episodes_rep_rates r) (loss_episodes_rep_rates r)
    (episode_details r).

Definition append_win_episodes_rep_rates (x : num) (r : results) : results :=
  mk_results (all_episodes r) (win_episodes r) (loss_episodes r)
    (all_episodes_total_reps r) (win_episodes_total_reps r)
    (loss_episodes_total_reps r) (all_episodes_rep_rates r)
    (win_episodes_rep_rates r ++ [x]) (loss_episodes_rep_rates r)
    (episode_details r).

Definition append_loss_episodes_rep_rates (x : num) (r : results) : results :=
  mk_results (all_episodes r) (win_episodes r) (loss_episodes r)
    (all_episodes_total_reps r) (win_episodes_total_reps r)
    (loss_episodes_total_reps r) (all_episodes_rep_rates r)
    (win_episodes_rep_rates r) (loss_episodes_rep_rates r ++ [x])
    (episode_details r).

Definition append_episode_details (x : episode_info) (r : results) : results :=
  mk_results (all_episodes r) (win_episodes r) (loss_episodes r)
    (all_episodes_total_reps r) (win_episodes_total_reps r)
    (loss_episodes_total_reps r) (all_episodes_rep_rates r)
    (win_episodes_rep_rates r) (loss_episodes_rep_rates r)
    (episode_details r ++ [x]).

(** [rewards and rewards[-1] >= 50] (line 118): the value of [rewards]
    itself when it is falsy, the result of the comparison otherwise. *)
Definition win_expression (rewards : json) : result json :=
  if py_truthy rewards then
    match py_index rewards (-1) with
    | Ok last =>
        match py_ge last 50 with
        | Ok b => Ok (JBool b)
        | Raise e => Raise e
        end
    | Raise e => Raise e
    end
  else Ok rewards.

(** The body of the [try] statement (lines 92-143) for one line.
    [len(actions)] is the number of elements the loop over [actions]
    visits. *)
Definition try_body (filepath : string) (line_num : Z) (l : line)
  : M results unit :=
  (episode <- lift (json_loads l) ;;
   trajectory <- lift (py_get episode "trajectory" (JDict [])) ;;
   actions <- lift (py_get trajectory "actions" (JList [])) ;;
   rewards <- lift (py_get trajectory "rewards" (JList [])) ;;
   n <- lift (py_len actions) ;;
   if n =? 0 then ret tt
   else
     items <- lift (py_iter actions) ;;
     let c := count_repetitions items in
     let num_repeated := num_repeated_actions c in
     let total_reps := total_repetitions c in
     let percentage :=
       if 0 <? total_actions c
       then NMul (NDiv (NInt total_reps) (NInt (total_actions c))) (NInt 100)
       else NInt 0 in
     win <- lift (win_expression rewards) ;;
     let info := mk_info filepath line_num c percentage win in
     modify (append_episode_details info) ;;;
     modify (append_all_episodes num_repeated) ;;;
     modify (append_all_episodes_total_reps total_reps) ;;;
     modify (append_all_episodes_rep_rates percentage) ;;;
     if py_truthy win then
       modify (append_win_episodes num_repeated) ;;;
       modify (append_win_episodes_total_reps total_reps) ;;;
       modify (append_win_episodes_rep_rates percentage)
     else
       modify (append_loss_episodes num_repeated) ;;;
       modify (append_loss_episodes_total_reps total_reps) ;;;
       modify (append_loss_episodes_rep_rates percentage))%py.

(** The two [except] clauses (lines 145-148). *)
Definition handler (filepath : string) (line_num : Z) (e : exn)
  : M results unit :=
  match e with
  | JSONDecodeError _ =>
      print "Error parsing line {line_num} in {filepath}: {e}"
            [AInt line_num; AStr filepath; AExn e]
  | _ =>
      print "Error processing line {line_num} in {filepath}: {e}"
            [AInt line_num; AStr filepath; AExn e]
  end.

(** One iteration of [for line_num, line in enumerate(f, 1)]. *)
Definition process_line (filepath : string) (nl : Z * line) : M results unit :=
  match snd nl with
  | Blank => ret tt
  | l => try_except (try_body filepath (fst nl) l) (handler filepath (fst nl))
  end.

Definition analyze_repeated_actions (fs : filesystem) (filepaths : list string)
  : M results unit :=
  for_each filepaths (fun filepath =>
    (f <- open fs filepath ;;
     for_each (enumerate 1 (lines f)) (process_line filepath))%py).

End RepeatedActions.

(** ** summary.py *)

Module Summary.
Import Py Run.

(** The dict [episode_data]; [outcome] and [loss_type] are the keys set
    after the dict is built. *)
Record episode_data : Type := mk_episode {
  num_actions : Z;
  num_states : Z;
  total_reward : num;
  final_reward : json;
  final_action : json;
  agent_name : json;
  agent_role : json;
  outcome : option string;
  loss_type : option string
}.

Definition set_outcome (o : string) (d : episode_data) : episode_data :=
  mk_episode (num_actions d) (num_states d) (total_reward d) (final_reward d)
    (final_action d) (agent_name d) (agent_role d) (Some o) (loss_type d).

Definition set_loss_type (t : string) (d : episode_data) : episode_data :=
  mk_episode (num_actions d) (num_states d) (total_reward d) (final_reward d)
    (final_action d) (agent_name d) (agent_role d) (outcome d) (Some t).

(** The five lists hold references to the [episode_data] objects, which
    live in [objects]; a dict appended to several lists is one object. *)
Record state : Type := mk_state {
  objects : list episode_data;
  all_episodes : list nat;
  win_episodes : list nat;
  loss_episodes : list nat;
  loss_step_limit : list nat;
  loss_invalid_actions : list nat
}.

Definition empty_state : state := mk_state [] [] [] [] [] [].

(** Building the dict allocates a new object. *)
Definition new_object (d : episode_data) : M state nat :=
  fun w =>
    let s := fst w in
    ((mk_state (objects s ++ [d]) (all_episodes s) (win_episodes s)
        (loss_episodes s) (loss_step_limit s) (loss_invalid_actions s),
      snd w),
     Ok (List.length (objects s))).

Fixpoint update_nth (n : nat) (f : episode_data -> episode_data)
  (l : list episode_data) : list episode_data :=
  match l, n with
  | [], _ => []
  | d :: rest, O => f d :: rest
  | d :: rest, S n' => d :: update_nth n' f rest
  end.

(** [episode_data[key] = value] through the reference [r]. *)
Definition update_object (r : nat) (f : episode_data -> episode_data)
  : M state unit :=
  modify (fun s =>
    mk_state (update_nth r f (objects s)) (all_episodes s) (win_episodes s)
      (loss_episodes s) (loss_step_limit s) (loss_invalid_actions s)).

Definition append_all_episodes (r : nat) : M state unit :=
  modify (fun s =>
    mk_state (objects s) (all_episodes s ++ [r]) (win_episodes s)
      (loss_episodes s) (loss_step_limit s) (loss_invalid_actions s)).

Definition append_win_episodes (r : nat) : M state unit :=
  modify (fun s =>
    mk_state (objects s) (all_episodes s) (win_episodes s ++ [r])
      (loss_episodes s) (loss_step_limit s) (loss_invalid_actions s)).

Definition append_loss_episodes (r : nat) : M state unit :=
  modify (fun s =>
    mk_state (objects s) (all_episodes s) (win_episodes s)
      (loss_episodes s ++ [r]) (loss_step_limit s) (loss_invalid_actions s)).

Definition append_loss_step_limit (r : nat) : M state unit :=
  modify (fun s =>
    mk_state (objects s) (all_episodes s) (win_episodes s)
      (loss_episodes s) (loss_step_limit s ++ [r]) (loss_invalid_actions s)).

Definition append_loss_invalid_actions (r : nat) : M state unit :=
  modify (fun s =>
    mk_state (objects s) (all_episodes s) (win_episodes s)
      (loss_episodes s) (loss_step_limit s) (loss_invalid_actions s ++ [r])).

(** The condition [rewards and rewards[-1] >= 50] of line 59. *)
Definition is_win (rewards : json) : result bool :=
  if py_truthy rewards then
    match py_index rewards (-1) with
    | Ok last => py_ge last 50
    | Raise e => Raise e
    end
  else Ok false.

(** The body of the [try] statement (lines 38-74) for one line. *)
Definition try_body (step_limit_threshold : Z) (l : line) : M state unit :=
  (episode <- lift (json_loads l) ;;
   trajectory <- lift (py_get episode "trajectory" (JDict [])) ;;
   actions <- lift (py_get trajectory "actions" (JList [])) ;;
   rewards <- lift (py_get trajectory "rewards" (JList [])) ;;
   states <- lift (py_get trajectory "states" (JList [])) ;;
   n <- lift (py_len actions) ;;
   if n =? 0 then ret tt
   else
     n_actions <- lift (py_len actions) ;;
     n_states <- lift (py_len states) ;;
     total <- (if py_truthy rewards then lift (py_sum rewards)
               else ret (NInt 0)) ;;
     final_r <- (if py_truthy rewards then lift (py_index rewards (-1))
                 else ret JNone) ;;
     final_a <- (if py_truthy actions
                 then last <- lift (py_index actions (-1)) ;;
                      lift (py_get last "action_type" JNone)
                 else ret JNone) ;;
     name <- lift (py_get episode "agent_name" JNone) ;;
     role <- lift (py_get episode "agent_role" JNone) ;;
     r <- new_object (mk_episode n_actions n_states total final_r final_a
                        name role None None) ;;
     win <- lift (is_win rewards) ;;
     (if win then
        update_object r (set_outcome "win") ;;;
        append_win_episodes r
      else
        update_object r (set_outcome "loss") ;;;
        append_loss_episodes r ;;;
        len_actions <- lift (py_len actions) ;;
        if step_limit_threshold <=? len_actions then
          update_object r (set_loss_type "step_limit") ;;;
          append_loss_step_limit r
        else
          update_object r (set_loss_type "invalid_actions") ;;;
          append_loss_invalid_actions r) ;;;
     append_all_episodes r)%py.

(** The two [except] clauses (lines 76-79); the loop has no line
    counter. *)
Definition handler (filepath : string) (e : exn) : M state unit :=
  match e with
  | JSONDecodeError _ =>
      print "Error parsing line in {filepath}: {e}" [AStr filepath; AExn e]
  | _ =>
      print "Error processing line in {filepath}: {e}" [AStr filepath; AExn e]
  end.

(** One iteration of [for line in f]. *)
Definition process_line (step_limit_threshold : Z) (filepath : string)
  (l : line) : M state unit :=
  match l with
  | Blank => ret tt
  | _ => try_except (try_body step_limit_threshold l) (handler filepath)
  end.

Definition analyze_episodes (fs : filesystem) (filepaths : list string)
  (step_limit_threshold : Z) : M state unit :=
  for_each filepaths (fun filepath =>
    (f <- open fs filepath ;;
     for_each (lines f) (process_line step_limit_threshold filepath))%py).

End Summary.

(** ** count_episodes.py *)

Module CountEpisodes.
Import Py Run.

Record episode_stats : Type := mk_stats {
  num_states : Z;
  num_actions : Z;
  num_rewards : Z;
  total_reward : num;
  controlled_hosts : list prim;
  known_hosts : list prim;
  known_networks : list string;
  end_reason : json;
  agent_name : json;
  agent_role : json;
  outcome : string;
  final_reward : json;
  final_action : json
}.

(** Lines 47-56: the outcome and the final reward, from [rewards]
    alone. *)
Definition classify (rewards : json) : result (string * json) :=
  if py_truthy rewards then
    (last <~ py_index rewards (-1) ;;
     win <~ py_ge last 50 ;;
     Ok (if win then "win" else "loss", last))%py
  else Ok ("no_action", JNone).

(** [for host in hosts: s.add(host.get('ip'))]. *)
Fixpoint add_ips (hosts : list json) (s : list prim) : result (list prim) :=
  match hosts with
  | [] => Ok s
  | host :: rest =>
      (ip <~ py_get host "ip" JNone ;;
       x <~ py_hashable ip ;;
       add_ips rest (set_add x s))%py
  end.

Section Formatting.

(** [str(v)] as an f-string field renders it; the text of a float is
    outside the model. *)
Variable py_str : json -> string.

(** [for net in nets: s.add(f"{net.get('ip')}/{net.get('mask')}")]. *)
Fixpoint add_networks (nets : list json) (s : list prim)
  : result (list prim) :=
  match nets with
  | [] => Ok s
  | net :: rest =>
      (ip <~ py_get net "ip" JNone ;;
       mask <~ py_get net "mask" JNone ;;
       add_networks rest
         (set_add (PStr (py_str ip ++ "/" ++ py_str mask)) s))%py
  end.

Definition strings_of (s : list prim) : list string :=
  flat_map (fun p => match p with PStr t => [t] | _ => [] end) s.

Definition analyze_episode (episode_data : json) : result episode_stats :=
  (reason <~ py_get episode_data "end_reason" JNone ;;
   name <~ py_get episode_data "agent_name" JNone ;;
   role <~ py_get episode_data "agent_role" JNone ;;
   trajectory <~ py_get episode_data "trajectory" (JDict []) ;;
   states <~ py_get trajectory "states" (JList []) ;;
   n_states <~ py_len states ;;
   actions <~ py_get trajectory "actions" (JList []) ;;
   n_actions <~ py_len actions ;;
   rewards <~ py_get trajectory "rewards" (JList []) ;;
   n_rewards <~ py_len rewards ;;
   total <~ (if py_truthy rewards then py_sum rewards else Ok (NInt 0)) ;;
   verdict <~ classify rewards ;;
   final_a <~ (if py_truthy actions
               then (last <~ py_index actions (-1) ;;
                     py_get last "action_type" (JStr "unknown"))
               else Ok JNone) ;;
   sets <~ (if py_truthy states
            then (final_state <~ py_index states (-1) ;;
                  c <~ py_get final_state "controlled_hosts" (JList []) ;;
                  c_items <~ py_iter c ;;
                  controlled <~ add_ips c_items [] ;;
                  k <~ py_get final_state "known_hosts" (JList []) ;;
                  k_items <~ py_iter k ;;
                  known <~ add_ips k_items [] ;;
                  n <~ py_get final_state "known_networks" (JList []) ;;
                  n_items <~ py_iter n ;;
                  nets <~ add_networks n_items [] ;;
                  Ok (controlled, known, strings_of nets))
            else Ok ([], [], [])) ;;
   Ok (mk_stats n_states n_actions n_rewards total
         (fst (fst sets)) (snd (fst sets)) (snd sets)
         reason name role (fst verdict) (snd verdict) final_a))%py.

Record file_stats : Type := mk_file_stats {
  episodes : Z;
  total_actions : Z;
  total_states : Z;
  file_total_reward : num;
  size_bytes : Z
}.

(** An entry of [results['episode_details']]: the stats and the keys
    added in lines 141-145. *)
Record episode_detail : Type := mk_detail {
  stats : episode_stats;
  file_name : string;
  line_num : Z;
  num_controlled_hosts : Z;
  num_known_hosts : Z;
  num_known_networks : Z
}.

(** The dict [results], and the [file_stats] of the file being read. *)
Record state : Type := mk_state {
  total_episodes : Z;
  files : list (string * file_stats);
  by_agent : list (prim * Z);
  by_role : list (prim * Z);
  by_end_reason : list (prim * Z);
  by_outcome : list (prim * Z);
  by_final_action : list (prim * Z);
  episode_details : list episode_detail;
  current : file_stats
}.

Definition empty_state : state :=
  mk_state 0 [] [] [] [] [] [] [] (mk_file_stats 0 0 0 (NInt 0) 0).

Definition set_current (f : file_stats -> file_stats) (s : state) : state :=
  mk_state (total_episodes s) (files s) (by_agent s) (by_role s)
    (by_end_reason s) (by_outcome s) (by_final_action s) (episode_details s)
    (f (current s)).

Definition set_total_episodes (f : Z -> Z) (s : state) : state :=
  mk_state (f (total_episodes s)) (files s) (by_agent s) (by_role s)
    (by_end_reason s) (by_outcome s) (by_final_action s) (episode_details s)
    (current s).

Definition set_files (f : list (string * file_stats) -> list (string * file_stats))
  (s : state) : state :=
  mk_state (total_episodes s) (f (files s)) (by_agent s) (by_role s)
    (by_end_reason s) (by_outcome s) (by_final_action s) (episode_details s)
    (current s).

Definition set_by_agent (f : list (prim * Z) -> list (prim * Z)) (s : state)
  : state :=
  mk_state (total_episodes s) (files s) (f (by_agent s)) (by_role s)
    (by_end_reason s) (by_outcome s) (by_final_action s) (episode_details s)
    (current s).

Definition set_by_role (f : list (prim * Z) -> list (prim * Z)) (s : state)
  : state :=
  mk_state (total_episodes s) (files s) (by_agent s) (f (by_role s))
    (by_end_reason s) (by_outcome s) (by_final_action s) (episode_details s)
    (current s).

Definition set_by_end_reason (f : list (prim * Z) -> list (prim * Z))
  (s : state) : state :=
  mk_state (total_episodes s) (files s) (by_agent s) (by_role s)
    (f (by_end_reason s)) (by_outcome s) (by_final_action s)
    (episode_details s) (current s).

Definition set_by_outcome (f : list (prim * Z) -> list (prim * Z)) (s : state)
  : state :=
  mk_state (total_episodes s) (files s) (by_agent s) (by_role s)
    (by_end_reason s) (f (by_outcome s)) (by_final_action s)
    (episode_details s) (current s).

Definition set_by_final_action (f : list (prim * Z) -> list (prim * Z))
  (s : state) : state :=
  mk_state (total_episodes s) (files s) (by_agent s) (by_role s)
    (by_end_reason s) (by_outcome s) (f (by_final_action s))
    (episode_details s) (current s).

Definition append_episode_details (d : episode_detail) (s : state) : state :=
  mk_state (total_episodes s) (files s) (by_agent s) (by_role s)
    (by_end_reason s) (by_outcome s) (by_final_action s)
    (episode_details s ++ [d]) (current s).

Definition add_episode (f : file_stats) : file_stats :=
  mk_file_stats (episodes f + 1) (total_actions f) (total_states f)
    (file_total_reward f) (size_bytes f).

Definition add_totals (e : episode_stats) (f : file_stats) : file_stats :=
  mk_file_stats (episodes f) (total_actions f + num_actions e)
    (total_states f + num_states e)
    (NAdd (file_total_reward f) (total_reward e)) (size_bytes f).

(** [d[k] = v] on a dict with string keys. *)
Fixpoint dict_set (k : string) (v : file_stats)
  (d : list (string * file_stats)) : list (string * file_stats) :=
  match d with
  | [] => [(k, v)]
  | (k', v') :: rest =>
      if String.eqb k' k then (k', v) :: rest
      else (k', v') :: dict_set k v rest
  end.

(** [filepath.name]: the part of the path after the last slash. *)
Fixpoint path_name (p : string) : string :=
  match p with
  | EmptyString => EmptyString
  | String c rest =>
      if existsb (Ascii.eqb "/"%char) (list_ascii_of_string rest)
      then path_name rest
      else if Ascii.eqb c "/"%char then rest else p
  end.

(** The body of the [try] statement (lines 118-146) for one line. *)
Definition try_body (filepath : string) (n : Z) (l : line) : M state unit :=
  (episode_data <- lift (json_loads l) ;;
   modify (set_current add_episode) ;;;
   modify (set_total_episodes (fun t => t + 1)) ;;;
   e <- lift (analyze_episode episode_data) ;;
   modify (set_current (add_totals e)) ;;;
   agent <- lift (py_hashable (agent_name e)) ;;
   modify (set_by_agent (dd_incr agent)) ;;;
   role <- lift (py_hashable (agent_role e)) ;;
   modify (set_by_role (dd_incr role)) ;;;
   modify (set_by_end_reason (dd_incr (PStr (py_str (end_reason e))))) ;;;
   modify (set_by_outcome (dd_incr (PStr (outcome e)))) ;;;
   (if py_truthy (final_action e) then
      action <- lift (py_hashable (final_action e)) ;;
      modify (set_by_final_action (dd_incr action))
    else ret tt) ;;;
   modify (append_episode_details
             (mk_detail e (path_name filepath) n
                (Z.of_nat (List.length (controlled_hosts e)))
                (Z.of_nat (List.length (known_hosts e)))
                (Z.of_nat (List.length (known_networks e))))))%py.

(** The two [except] clauses (lines 148-151). *)
Definition handler (filepath : string) (n : Z) (e : exn) : M state unit :=
  match e with
  | JSONDecodeError _ =>
      print "Error parsing line {line_num} in {filepath}: {e}"
            [AInt n; AStr filepath; AExn e]
  | _ =>
      print "Error processing line {line_num} in {filepath}: {e}"
            [AInt n; AStr filepath; AExn e]
  end.

(** One iteration of [for line_num, line in enumerate(f, 1)]. *)
Definition process_line (filepath : string) (nl : Z * line) : M state unit :=
  match snd nl with
  | Blank => ret tt
  | l => try_except (try_body filepath (fst nl) l) (handler filepath (fst nl))
  end.

(** One iteration of [for filepath in filepaths] (lines 96-153), on the
    paths of the model: a path that exists names a text file that can be
    read. *)
Definition process_file (fs : filesystem) (filepath : string) : M state unit :=
  match fs filepath with
  | None => print "Warning: File not found: {filepath}" [AStr filepath]
  | Some f =>
      (modify (set_current
                 (fun _ => mk_file_stats 0 0 0 (NInt 0) (st_size f))) ;;;
       for_each (enumerate 1 (lines f)) (process_line filepath) ;;;
       s <- get ;;
       modify (set_files (dict_set filepath (current s))))%py
  end.

Definition analyze_jsonl_files (fs : filesystem) (filepaths : list string)
  : M state unit :=
  for_each filepaths (process_file fs).

End Formatting.

End CountEpisodes.

(** ** find_short_losses.py *)

Module FindShortLosses.
Import Py Run.

(** [final_reward is not None and final_reward < 50] (line 37). *)
Definition is_loss (final_reward : json) : result bool :=
  match final_reward with
  | JPrim PNone => Ok false
  | _ => py_lt final_reward 50
  end.

(** One line of the loop over the last five actions (lines 50-51). *)
Definition print_action (rewards : json) (ia : Z * json) : M unit unit :=
  (kind <- lift (py_get (snd ia) "action_type" JNone) ;;
   n_rewards <- lift (py_len rewards) ;;
   reward <- (if fst ia - 1 <? n_rewards
              then lift (py_index rewards (fst ia - 1))
              else ret (JStr "N/A")) ;;
   print "  {i}. {action.get('action_type')} - reward: {rewards[i-1] if i-1 < len(rewards) else 'N/A'}"
         [AInt (fst ia); AJson kind; AJson reward])%py.

(** The report of lines 41-57. *)
Definition print_report (filepath : string) (line_num : Z)
  (episode actions rewards states : json) (num_actions : Z)
  (final_reward : json) : M unit unit :=
  (print "\n{'='*80}" [] ;;;
   print "File: {filepath}" [AStr filepath] ;;;
   print "Line: {line_num}" [AInt line_num] ;;;
   print "{'='*80}" [] ;;;
   print "Number of actions: {num_actions}" [AInt num_actions] ;;;
   print "Final reward: {final_reward}" [AJson final_reward] ;;;
   total <- lift (py_sum rewards) ;;
   print "Total reward: {sum(rewards)}" [ANum total] ;;;
   reason <- lift (py_get episode "end_reason" JNone) ;;
   print "End reason: {episode.get('end_reason')}" [AJson reason] ;;;
   print "\nLast 5 actions:" [] ;;;
   last5 <- lift (py_last_slice actions 5) ;;
   n <- lift (py_len actions) ;;
   for_each (enumerate (n - 4) last5) (print_action rewards) ;;;
   print "\nFinal state info:" [] ;;;
   final_state <- (if py_truthy states then lift (py_index states (-1))
                   else ret (JDict [])) ;;
   c <- lift (py_get final_state "controlled_hosts" (JList [])) ;;
   n_c <- lift (py_len c) ;;
   print "  Controlled hosts: {len(final_state.get('controlled_hosts', []))}"
         [AInt n_c] ;;;
   k <- lift (py_get final_state "known_hosts" (JList [])) ;;
   n_k <- lift (py_len k) ;;
   print "  Known hosts: {len(final_state.get('known_hosts', []))}"
         [AInt n_k] ;;;
   d <- lift (py_get final_state "known_data" (JDict [])) ;;
   n_d <- lift (py_len d) ;;
   print "  Known data: {len(final_state.get('known_data', {}))}"
         [AInt n_d])%py.

(** The body of the [try] statement (lines 23-57) for one line. *)
Definition try_body (max_steps : Z) (filepath : string) (line_num : Z)
  (l : line) : M unit unit :=
  (episode <- lift (json_loads l) ;;
   trajectory <- lift (py_get episode "trajectory" (JDict [])) ;;
   actions <- lift (py_get trajectory "actions" (JList [])) ;;
   rewards <- lift (py_get trajectory "rewards" (JList [])) ;;
   states <- lift (py_get trajectory "states" (JList [])) ;;
   n <- lift (py_len actions) ;;
   if n =? 0 then ret tt
   else
     num_actions <- lift (py_len actions) ;;
     final_reward <- (if py_truthy rewards then lift (py_index rewards (-1))
                      else ret JNone) ;;
     loss <- lift (is_loss final_reward) ;;
     if loss && (num_actions <=? max_steps)
     then print_report filepath line_num episode actions rewards states
            num_actions final_reward
     else ret tt)%py.

(** The two [except] clauses (lines 59-62). *)
Definition handler (filepath : string) (n : Z) (e : exn) : M unit unit :=
  match e with
  | JSONDecodeError _ =>
      print "Error parsing line {line_num} in {filepath}: {e}"
            [AInt n; AStr filepath; AExn e]
  | _ =>
      print "Error processing line {line_num} in {filepath}: {e}"
            [AInt n; AStr filepath; AExn e]
  end.

Definition process_line (max_steps : Z) (filepath : string) (nl : Z * line)
  : M unit unit :=
  match snd nl with
  | Blank => ret tt
  | l => try_except (try_body max_steps filepath (fst nl) l)
                    (handler filepath (fst nl))
  end.

Definition find_short_losses (fs : filesystem) (filepaths : list string)
  (max_steps : Z) : M unit unit :=
  for_each filepaths (fun filepath =>
    (f <- open fs filepath ;;
     for_each (enumerate 1 (lines f)) (process_line max_steps filepath))%py).

End FindShortLosses.

(** ** check_all_early_terminations.py *)

Module CheckEarlyTerminations.
Import Py Run.

Record episode_info : Type := mk_info {
  file : string;
  line_number : Z;
  num_actions : Z;
  final_reward : json;
  total_reward : num;
  end_reason : json;
  final_action : json
}.

Record state : Type := mk_state {
  all_early : list episode_info;
  all_losses : list episode_info;
  all_wins : list episode_info
}.

Definition empty_state : state := mk_state [] [] [].

Definition append_all_early (x : episode_info) (s : state) : state :=
  mk_state (all_early s ++ [x]) (all_losses s) (all_wins s).

Definition append_all_losses (x : episode_info) (s : state) : state :=
  mk_state (all_early s) (all_losses s ++ [x]) (all_wins s).

Definition append_all_wins (x : episode_info) (s : state) : state :=
  mk_state (all_early s) (all_losses s) (all_wins s ++ [x]).

(** [final_reward is not None and final_reward >= 50] (line 44). *)
Definition is_win (final_reward : json) : result bool :=
  match final_reward with
  | JPrim PNone => Ok false
  | _ => py_ge final_reward 50
  end.

(** The body of the [try] statement (lines 30-62) for one line. *)
Definition try_body (step_threshold : Z) (filepath : string) (line_num : Z)
  (l : line) : M state unit :=
  (episode <- lift (json_loads l) ;;
   trajectory <- lift (py_get episode "trajectory" (JDict [])) ;;
   actions <- lift (py_get trajectory "actions" (JList [])) ;;
   rewards <- lift (py_get trajectory "rewards" (JList [])) ;;
   n <- lift (py_len actions) ;;
   if n =? 0 then ret tt
   else
     n_actions <- lift (py_len actions) ;;
     final_r <- (if py_truthy rewards then lift (py_index rewards (-1))
                 else ret JNone) ;;
     reason <- lift (py_get episode "end_reason" JNone) ;;
     win <- lift (is_win final_r) ;;
     let is_early_termination := negb win && (n_actions <? step_threshold) in
     total <- (if py_truthy rewards then lift (py_sum rewards)
               else ret (NInt 0)) ;;
     final_a <- (if py_truthy actions
                 then last <- lift (py_index actions (-1)) ;;
                      lift (py_get last "action_type" JNone)
                 else ret JNone) ;;
     let info := mk_info filepath line_num n_actions final_r total reason
                   final_a in
     if win then modify (append_all_wins info)
     else if is_early_termination then modify (append_all_early info)
     else modify (append_all_losses info))%py.

(** The two [except] clauses (lines 64-67); the messages name the line
    only. *)
Definition handler (n : Z) (e : exn) : M state unit :=
  match e with
  | JSONDecodeError _ =>
      print "Error parsing line {line_num}: {e}" [AInt n; AExn e]
  | _ =>
      print "Error processing line {line_num}: {e}" [AInt n; AExn e]
  end.

Definition process_line (step_threshold : Z) (filepath : string)
  (nl : Z * line) : M state unit :=
  match snd nl with
  | Blank => ret tt
  | l => try_except (try_body step_threshold filepath (fst nl) l)
                    (handler (fst nl))
  end.

(** The loop over the files (lines 18-67). *)
Definition read_files (fs : filesystem)
  (filepaths : list string) (step_threshold : Z) : M state unit :=
  for_each filepaths (fun filepath =>
    (print "\nAnalyzing: {filepath}" [AStr filepath] ;;;
     print "================================================================================" [] ;;;
     f <- open fs filepath ;;
     for_each (enumerate 1 (lines f))
              (process_line step_threshold filepath))%py).

(** [all_early.sort(key=lambda x: x['num_actions'])] (line 84).  The
    sort is stable, so that its result is the one of inserting each
    episode, in turn, after the episodes that have no more actions. *)
Fixpoint insert_by_actions (x : episode_info) (l : list episode_info)
  : list episode_info :=
  match l with
  | [] => [x]
  | y :: rest =>
      if num_actions x <? num_actions y then x :: l
      else y :: insert_by_actions x rest
  end.

Definition sort_by_actions (l : list episode_info) : list episode_info :=
  fold_left (fun acc x => insert_by_actions x acc) l [].

(** [for ep in all_early: d[ep[key]] += 1] on a [defaultdict(int)]
    (lines 105-107 and 114-116): a key that is a list or a dict cannot
    be hashed. *)
Fixpoint count_by (keys : list json) (d : list (prim * Z))
  : result (list (prim * Z)) :=
  match keys with
  | [] => Ok d
  | k :: rest => (p <~ py_hashable k ;; count_by rest (dd_incr p d))%py
  end.

(** [sorted(d.items(), key=lambda x: x[1], reverse=True)] (lines 110 and
    119): the larger counts first, equal counts in the order of the
    dict. *)
Fixpoint insert_by_count (x : prim * Z) (l : list (prim * Z))
  : list (prim * Z) :=
  match l with
  | [] => [x]
  | y :: rest =>
      if snd y <? snd x then x :: l else y :: insert_by_count x rest
  end.

Definition sort_by_count (l : list (prim * Z)) : list (prim * Z) :=
  fold_left (fun acc x => insert_by_count x acc) l [].

(** [min(l)] and [max(l)] of a list that has an element; the report
    takes them under [if all_early:] only. *)
Definition py_min (l : list Z) : Z :=
  match l with
  | [] => 0
  | x :: rest => fold_left Z.min rest x
  end.

Definition py_max (l : list Z) : Z :=
  match l with
  | [] => 0
  | x :: rest => fold_left Z.max rest x
  end.

(** The lines printed for one early termination (lines 87-92). *)
Definition print_details (ep : episode_info) : M state unit :=
  (print "\nFile: {ep['file']}, Line: {ep['line']}"
         [AStr (file ep); AInt (line_number ep)] ;;;
   print "  Actions: {ep['num_actions']}" [AInt (num_actions ep)] ;;;
   print "  Final reward: {ep['final_reward']}" [AJson (final_reward ep)] ;;;
   print "  Total reward: {ep['total_reward']}" [ANum (total_reward ep)] ;;;
   print "  End reason: {ep['end_reason']}" [AJson (end_reason ep)] ;;;
   print "  Final action: {ep['final_action']}" [AJson (final_action ep)])%py.

(** The loops of lines 110-111 and 119-120. *)
Definition print_distribution (template : string) (d : list (prim * Z))
  : M state unit :=
  for_each (sort_by_count d)
    (fun kv => print template [AJson (JPrim (fst kv)); AInt (snd kv)]).

(** The statements under [if all_early:] (lines 78-120). *)
Definition report_early : M state unit :=
  (print "\n{'='*80}" [] ;;;
   print "EARLY TERMINATIONS DETAILS" [] ;;;
   print "================================================================================" [] ;;;
   modify (fun s => mk_state (sort_by_actions (all_early s)) (all_losses s)
                      (all_wins s)) ;;;
   s <- get ;;
   for_each (all_early s) print_details ;;;
   print "\n{'='*80}" [] ;;;
   print "EARLY TERMINATION STATISTICS" [] ;;;
   print "================================================================================" [] ;;;
   let action_counts := map num_actions (all_early s) in
   print "  Count: {len(all_early)}"
         [AInt (Z.of_nat (List.length (all_early s)))] ;;;
   print "  Min actions: {min(action_counts)}"
         [AInt (py_min action_counts)] ;;;
   print "  Max actions: {max(action_counts)}"
         [AInt (py_max action_counts)] ;;;
   print "  Avg actions: {sum(action_counts)/len(action_counts):.1f}"
         [ANum (NDiv (NInt (RepeatedActions.zsum action_counts))
                     (NInt (Z.of_nat (List.length action_counts))))] ;;;
   end_reasons <- lift (count_by (map end_reason (all_early s)) []) ;;
   print "\n  End reason distribution:" [] ;;;
   print_distribution "    {reason}: {count}" end_reasons ;;;
   final_actions <- lift (count_by (map final_action (all_early s)) []) ;;
   print "\n  Final action distribution:" [] ;;;
   print_distribution "    {action}: {count}" final_actions)%py.

(** The report printed after the loop (lines 69-120). *)
Definition report (step_threshold : Z) : M state unit :=
  (print "\n================================================================================" [] ;;;
   print "SUMMARY" [] ;;;
   print "================================================================================" [] ;;;
   print "\nTotal episodes analyzed:" [] ;;;
   s <- get ;;
   print "  Wins: {len(all_wins)}"
         [AInt (Z.of_nat (List.length (all_wins s)))] ;;;
   print "  Normal losses (>= {step_threshold} steps): {len(all_losses)}"
         [AInt step_threshold; AInt (Z.of_nat (List.length (all_losses s)))] ;;;
   print "  Early terminations (< {step_threshold} steps, non-wins): {len(all_early)}"
         [AInt step_threshold; AInt (Z.of_nat (List.length (all_early s)))] ;;;
   if negb (Nat.eqb (List.length (all_early s)) 0) then report_early
   else ret tt)%py.

(** check_early_terminations (lines 11-120): the loop over the files,
    then the report. *)
Definition check_early_terminations (fs : filesystem)
  (filepaths : list string) (step_threshold : Z) : M state unit :=
  (read_files fs filepaths step_threshold ;;;
   report step_threshold)%py.

End CheckEarlyTerminations.

(** ** investigate_end_condition.py *)

Module InvestigateEndCondition.
Import Py Run.

(** One iteration of [for line in f] (lines 111-114): no [try]
    statement surrounds [json.loads]. *)
Definition read_line (l : line) : M (list json) unit :=
  match l with
  | Blank => ret tt
  | _ =>
      (episode <- lift (json_loads l) ;;
       modify (fun episodes => episodes ++ [episode]))%py
  end.

(** Lines 109-116 of [main]: read all episodes, then print their
    number. *)
Definition read_episodes (fs : filesystem) (path : string)
  : M (list json) unit :=
  (f <- open fs path ;;
   for_each (lines f) read_line ;;;
   episodes <- get ;;
   print "Total episodes in file: {len(episodes)}"
         [AInt (Z.of_nat (List.length episodes))])%py.

End InvestigateEndCondition.

(** ** analyze_jsonl.py *)

Module AnalyzeJsonl.
Import Py Run.

(** A set of strings, and [sorted] and [', '.join] on it. *)
Definition add_string (x : string) (s : list string) : list string :=
  if existsb (String.eqb x) s then s else s ++ [x].

Fixpoint insert_string (x : string) (l : list string) : list string :=
  match l with
  | [] => [x]
  | y :: rest =>
      if String.leb x y then x :: l else y :: insert_string x rest
  end.

Definition sorted_strings (l : list string) : list string :=
  fold_right insert_string [] l.

Fixpoint join (sep : string) (l : list string) : string :=
  match l with
  | [] => EmptyString
  | [x] => x
  | x :: rest => (x ++ sep ++ join sep rest)%string
  end.

Fixpoint get_type_info (value : json) : string :=
  match value with
  | JPrim PNone => "null"
  | JPrim (PBool _) => "bool"
  | JPrim (PInt _) => "int"
  | JPrim (PFloat _) => "float"
  | JPrim (PStr _) => "string"
  | JList [] => "list[empty]"
  | JList items =>
      let types :=
        (fix first (n : nat) (l : list json) {struct l} : list string :=
           match l, n with
           | x :: rest, S n' => add_string (get_type_info x) (first n' rest)
           | _, _ => []
           end) 5%nat items in
      match types with
      | [t] => ("list[" ++ t ++ "]")%string
      | _ => ("list[mixed: " ++ join ", " (sorted_strings types) ++ "]")%string
      end
  | JDict _ => "object"
  end.

(** A [defaultdict(set)] from paths to sets of type names. *)
Definition structure : Type := list (string * list string).

(** [structure[path].add(t)]. *)
Fixpoint structure_add (path t : string) (st : structure) : structure :=
  match st with
  | [] => [(path, [t])]
  | (p, types) :: rest =>
      if String.eqb p path then (p, add_string t types) :: rest
      else (p, types) :: structure_add path t rest
  end.

(** [for path, types in nested.items(): structure[path].update(types)]. *)
Definition structure_update (nested st : structure) : structure :=
  fold_left
    (fun acc entry =>
       fold_left (fun acc' t => structure_add (fst entry) t acc')
                 (snd entry) acc)
    nested st.

Definition is_dict (v : json) : bool :=
  match v with JDict _ => true | _ => false end.

(** [analyze_structure(obj, path)] for a dict [obj]. *)
Fixpoint analyze_structure (obj : json) (path : string) : structure :=
  match obj with
  | JDict items =>
      fold_left
        (fun st kv =>
           let current_path :=
             if Nat.eqb (String.length path) 0 then fst kv
             else (path ++ "." ++ fst kv)%string in
           let st1 := structure_add current_path (get_type_info (snd kv)) st in
           match snd kv with
           | JDict _ =>
               structure_update (analyze_structure (snd kv) current_path) st1
           | JList (first :: rest) =>
               if is_dict first then
                 (fix items3 (n : nat) (l : list json) (acc : structure)
                    {struct l} : structure :=
                    match l, n with
                    | item :: l', S n' =>
                        items3 n' l'
                          (if is_dict item
                           then structure_update
                                  (analyze_structure item current_path) acc
                           else acc)
                    | _, _ => acc
                    end) 3%nat (first :: rest) st1
               else st1
           | _ => st1
           end)
        items []
  | _ => []
  end.

(** [obj.items()] exists on a dict only. *)
Definition analyze (obj : json) : result structure :=
  match obj with
  | JDict _ => Ok (analyze_structure obj EmptyString)
  | _ => Raise AttributeError
  end.

Record state : Type := mk_state {
  file_structure : structure;
  line_count : Z;
  error_count : Z;
  sample_records : list json
}.

Definition empty_state : state := mk_state [] 0 0 [].

(** The body of the [try] statement (lines 99-109) for one line. *)
Definition try_body (l : line) : M state unit :=
  (obj <- lift (json_loads l) ;;
   modify (fun s => mk_state (file_structure s) (line_count s + 1)
                      (error_count s) (sample_records s)) ;;;
   s <- get ;;
   (if Z.of_nat (List.length (sample_records s)) <? 3
    then modify (fun s => mk_state (file_structure s) (line_count s)
                            (error_count s) (sample_records s ++ [obj]))
    else ret tt) ;;;
   obj_structure <- lift (analyze obj) ;;
   modify (fun s => mk_state (structure_update obj_structure (file_structure s))
                      (line_count s) (error_count s) (sample_records s)))%py.

(** The single [except json.JSONDecodeError] clause (lines 111-114);
    any other exception leaves the function. *)
Definition try_json (body : M state unit) (line_num : Z) : M state unit :=
  fun w =>
    match body w with
    | (w', Raise (JSONDecodeError msg)) =>
        (modify (fun s => mk_state (file_structure s) (line_count s)
                            (error_count s + 1) (sample_records s)) ;;;
         s <- get ;;
         if error_count s <=? 5
         then print "Error on line {line_num}: {e}"
                    [AInt line_num; AExn (JSONDecodeError msg)]
         else ret tt)%py w'
    | r => r
    end.

(** The loop of lines 90-114, with its [break]. *)
Fixpoint read_lines (max_lines : Z) (numbered : list (Z * line))
  : M state unit :=
  match numbered with
  | [] => ret tt
  | nl :: rest =>
      (s <- get ;;
       if max_lines <=? line_count s then ret tt
       else
         match snd nl with
         | Blank => ret tt
         | l => try_json (try_body l) (fst nl)
         end ;;;
         read_lines max_lines rest)%py
  end.

(** [analyze_jsonl_file] up to the end of the loop (lines 80-114); the
    report printed after it is not modelled. *)
Definition analyze_jsonl_file (fs : filesystem) (filepath : string)
  (max_lines : Z) : M state unit :=
  (print "\n{'='*80}" [] ;;;
   print "Analyzing: {filepath}" [AStr filepath] ;;;
   print "{'='*80}\n" [] ;;;
   modify (fun _ => empty_state) ;;;
   f <- open fs filepath ;;
   read_lines max_lines (enumerate 1 (lines f)))%py.

(** The loop of [main] (lines 166-172); the traceback goes to the error
    stream. *)
Definition main (fs : filesystem) (files : list string) (max_lines : Z)
  : M state unit :=
  for_each files (fun filepath =>
    try_except (analyze_jsonl_file fs filepath max_lines)
      (fun e => print "Error analyzing {filepath}: {e}"
                      [AStr filepath; AExn e])).

End AnalyzeJsonl.

(** ** A sample file *)

Module Samples.
Import Py Run.

(** A file of four lines: a win in three actions, a malformed line, a
    loss in two actions and an episode without actions. *)
Definition sample_file : text_file :=
  mk_file 0
    [Parsed (JDict [("trajectory",
       JDict [("actions", JList [JDict [("action_type", JStr "ScanNetwork")];
                                 JDict [("action_type", JStr "ScanNetwork")];
                                 JDict [("action_type", JStr "ExfiltrateData")]]);
              ("rewards", JList [JInt (-1); JInt (-1); JInt 100])])]);
     Malformed "Expecting value";
     Parsed (JDict [("trajectory",
       JDict [("actions", JList [JDict [("action_type", JStr "ScanNetwork")];
                                 JDict [("action_type", JStr "FindData")]]);
              ("rewards", JList [JInt (-1); JInt (-1)])])]);
     Parsed (JDict [("trajectory", JDict [("actions", JList [])])])].

End Samples.

(** ** The specification's reading of the repetition counts *)

Module Spec.
Import Py.

(** The distinct keys of a sequence, each at its first occurrence. *)
Fixpoint distinct (ks : list key) : list key :=
  match ks with
  | [] => []
  | k :: rest => k :: filter (fun x => negb (py_eq k x)) (distinct rest)
  end.

(** The number of occurrences of [k] in [ks]. *)
Fixpoint occurrences (k : key) (ks : list key) : Z :=
  match ks with
  | [] => 0
  | x :: rest => (if py_eq x k then 1 else 0) + occurrences k rest
  end.

(** The keys that occur more than once. *)
Definition repeated (ks : list key) : list key :=
  filter (fun k => 1 <? occurrences k ks) (distinct ks).

(** The repetitions of an episode are its actions beyond the first
    occurrence of each distinct one. *)
Definition counts_consistent (info : RepeatedActions.episode_info) : Prop :=
  RepeatedActions.total_repetitions (RepeatedActions.counts info)
  = RepeatedActions.total_actions (RepeatedActions.counts info)
    - RepeatedActions.unique_actions (RepeatedActions.counts info).

(** A loss of summary.py, by reference [x], carries exactly one of the
    two loss types, decided by its number of actions, and is in the list
    of that type and not in the other. *)
Definition classified_loss (limit : Z) (s : Summary.state) (x : nat) : Prop :=
  exists d,
    nth_error (Summary.objects s) x = Some d /\
    Summary.outcome d = Some "loss" /\
    ((Summary.loss_type d = Some "step_limit" /\
      limit <= Summary.num_actions d /\
      In x (Summary.loss_step_limit s) /\
      ~ In x (Summary.loss_invalid_actions s)) \/
     (Summary.loss_type d = Some "invalid_actions" /\
      Summary.num_actions d < limit /\
      In x (Summary.loss_invalid_actions s) /\
      ~ In x (Summary.loss_step_limit s))).

Definition losses_partitioned (limit : Z) (s : Summary.state) : Prop :=
  (forall x, In x (Summary.loss_episodes s) -> classified_loss limit s x) /\
  (forall x, In x (Summary.loss_step_limit s) \/
             In x (Summary.loss_invalid_actions s) ->
             In x (Summary.loss_episodes s)) /\
  List.length (Summary.loss_episodes s)
  = (List.length (Summary.loss_step_limit s)
     + List.length (Summary.loss_invalid_actions s))%nat.

(** What one line may do to the state: leave the three loss lists alone,
    or append one new loss to the loss list and to one of the two type
    lists. *)
Definition loss_step (limit : Z) (s s' : Summary.state) : Prop :=
  (forall x d, nth_error (Summary.objects s) x = Some d ->
               nth_error (Summary.objects s') x = Some d) /\
  ((Summary.loss_episodes s' = Summary.loss_episodes s /\
    Summary.loss_step_limit s' = Summary.loss_step_limit s /\
    Summary.loss_invalid_actions s' = Summary.loss_invalid_actions s) \/
   (exists d,
      let r := List.length (Summary.objects s) in
      nth_error (Summary.objects s') r = Some d /\
      Summary.outcome d = Some "loss" /\
      Summary.loss_episodes s' = Summary.loss_episodes s ++ [r] /\
      ((Summary.loss_type d = Some "step_limit" /\
        limit <= Summary.num_actions d /\
        Summary.loss_step_limit s' = Summary.loss_step_limit s ++ [r] /\
        Summary.loss_invalid_actions s' = Summary.loss_invalid_actions s) \/
       (Summary.loss_type d = Some "invalid_actions" /\
        Summary.num_actions d < limit /\
        Summary.loss_invalid_actions s'
        = Summary.loss_invalid_actions s ++ [r] /\
        Summary.loss_step_limit s' = Summary.loss_step_limit s)))).

End Spec.

(** ** Invariants of the results *)

Module Invariants.
Import Py Run.

(** repeated_actions.py: the nine lists are read off the episode
    details, the win lists from the episodes whose [is_win] is true and
    the loss lists from the others; every episode has an action, and its
    percentage is the one of its counts. *)
Definition aligned (r : RepeatedActions.results) : Prop :=
  let d := RepeatedActions.episode_details r in
  let repeated i :=
    RepeatedActions.num_repeated_actions (RepeatedActions.counts i) in
  let reps i :=
    RepeatedActions.total_repetitions (RepeatedActions.counts i) in
  let won i := py_truthy (RepeatedActions.is_win i) in
  let lost i := negb (py_truthy (RepeatedActions.is_win i)) in
  RepeatedActions.all_episodes r = map repeated d /\
  RepeatedActions.all_episodes_total_reps r = map reps d /\
  RepeatedActions.all_episodes_rep_rates r
  = map RepeatedActions.repeat_percentage d /\
  RepeatedActions.win_episodes r = map repeated (filter won d) /\
  RepeatedActions.win_episodes_total_reps r = map reps (filter won d) /\
  RepeatedActions.win_episodes_rep_rates r
  = map RepeatedActions.repeat_percentage (filter won d) /\
  RepeatedActions.loss_episodes r = map repeated (filter lost d) /\
  RepeatedActions.loss_episodes_total_reps r = map reps (filter lost d) /\
  RepeatedActions.loss_episodes_rep_rates r
  = map RepeatedActions.repeat_percentage (filter lost d) /\
  Forall
    (fun i =>
       1 <= RepeatedActions.total_actions (RepeatedActions.counts i) /\
       RepeatedActions.repeat_percentage i
       = NMul (NDiv (NInt (reps i))
                    (NInt (RepeatedActions.total_actions
                             (RepeatedActions.counts i))))
              (NInt 100))
    d.

End Invariants.

Module SummaryInvariants.
Import Py Run.

(** summary.py: an object recorded as a win or as a loss carries that
    outcome and has at least one action. *)
Definition recorded (o : string) (s : Summary.state) (x : nat) : Prop :=
  exists d,
    nth_error (Summary.objects s) x = Some d /\
    Summary.outcome d = Some o /\
    1 <= Summary.num_actions d.

(** The list of all episodes holds each recorded object once; each is a
    win or a loss, and not both. *)
Definition outcomes_partitioned (s : Summary.state) : Prop :=
  NoDup (Summary.all_episodes s) /\
  (forall x, In x (Summary.all_episodes s) <->
             In x (Summary.win_episodes s) \/
             In x (Summary.loss_episodes s)) /\
  (forall x, In x (Summary.win_episodes s) ->
             recorded "win" s x /\ ~ In x (Summary.loss_episodes s)) /\
  (forall x, In x (Summary.loss_episodes s) ->
             recorded "loss" s x /\ ~ In x (Summary.win_episodes s)) /\
  List.length (Summary.all_episodes s)
  = (List.length (Summary.win_episodes s)
     + List.length (Summary.loss_episodes s))%nat.

(** What one line may do to the three lists. *)
Definition outcome_step (s s' : Summary.state) : Prop :=
  (forall x d, nth_error (Summary.objects s) x = Some d ->
               nth_error (Summary.objects s') x = Some d) /\
  ((Summary.all_episodes s' = Summary.all_episodes s /\
    Summary.win_episodes s' = Summary.win_episodes s /\
    Summary.loss_episodes s' = Summary.loss_episodes s) \/
   (exists d,
      let r := List.length (Summary.objects s) in
      nth_error (Summary.objects s') r = Some d /\
      1 <= Summary.num_actions d /\
      Summary.all_episodes s' = Summary.all_episodes s ++ [r] /\
      ((Summary.outcome d = Some "win" /\
        Summary.win_episodes s' = Summary.win_episodes s ++ [r] /\
        Summary.loss_episodes s' = Summary.loss_episodes s) \/
       (Summary.outcome d = Some "loss" /\
        Summary.loss_episodes s' = Summary.loss_episodes s ++ [r] /\
        Summary.win_episodes s' = Summary.win_episodes s)))).

End SummaryInvariants.

Module CountInvariants.
Import Py Run.

(** The sum of the counts of a [defaultdict(int)]. *)
Definition tally (d : list (prim * Z)) : Z :=
  RepeatedActions.zsum (map snd d).

(** count_episodes.py: each counter is updated after the one before it
    in the loop body, so no counter is ahead of an earlier one. *)
Definition counters_ordered (s : CountEpisodes.state) : Prop :=
  Z.of_nat (List.length (CountEpisodes.episode_details s))
    <= tally (CountEpisodes.by_outcome s) /\
  tally (CountEpisodes.by_final_action s)
    <= tally (CountEpisodes.by_outcome s) /\
  tally (CountEpisodes.by_outcome s) = tally (CountEpisodes.by_end_reason s) /\
  tally (CountEpisodes.by_end_reason s) <= tally (CountEpisodes.by_role s) /\
  tally (CountEpisodes.by_role s) <= tally (CountEpisodes.by_agent s) /\
  tally (CountEpisodes.by_agent s) <= CountEpisodes.total_episodes s /\
  Forall (fun kv => In (fst kv) [PStr "win"; PStr "loss"; PStr "no_action"])
         (CountEpisodes.by_outcome s).

(** The number of lines of a file that [json.loads] accepts. *)
Definition parsed_lines (f : text_file) : Z :=
  Z.of_nat (List.length
              (filter (fun l => match l with Parsed _ => true | _ => false end)
                      (lines f))).

End CountInvariants.

Module EarlyInvariants.
Import Py Run.

(** check_all_early_terminations.py: what each of the three lists
    holds. *)
Definition sorted_out (step_threshold : Z)
  (s : CheckEarlyTerminations.state) : Prop :=
  Forall (fun i =>
            CheckEarlyTerminations.is_win
              (CheckEarlyTerminations.final_reward i) = Ok true /\
            1 <= CheckEarlyTerminations.num_actions i)
         (CheckEarlyTerminations.all_wins s) /\
  Forall (fun i =>
            CheckEarlyTerminations.is_win
              (CheckEarlyTerminations.final_reward i) = Ok false /\
            1 <= CheckEarlyTerminations.num_actions i < step_threshold)
         (CheckEarlyTerminations.all_early s) /\
  Forall (fun i =>
            CheckEarlyTerminations.is_win
              (CheckEarlyTerminations.final_reward i) = Ok false /\
            1 <= CheckEarlyTerminations.num_actions i /\
            step_threshold <= CheckEarlyTerminations.num_actions i)
         (CheckEarlyTerminations.all_losses s).


End EarlyInvariants.

Module SchemaInvariants.
Import Py Run AnalyzeJsonl.

(** [current_path] of analyze_structure (line 46). *)
Definition extend (path key : string) : string :=
  if Nat.eqb (String.length path) 0 then key
  else (path ++ "." ++ key)%string.

(** The loop over [value[:3]] of lines 56-60. *)
Definition items3 (current_path : string)
  : nat -> list json -> structure -> structure :=
  fix items3 (n : nat) (l : list json) (acc : structure) {struct l}
    : structure :=
    match l, n with
    | item :: l', S n' =>
        items3 n' l'
          (if is_dict item
           then structure_update (analyze_structure item current_path) acc
           else acc)
    | _, _ => acc
    end.

(** One iteration of the loop over [obj.items()] (lines 45-60). *)
Definition step (path : string) (st : structure) (kv : string * json)
  : structure :=
  let current_path := extend path (fst kv) in
  let st1 := structure_add current_path (get_type_info (snd kv)) st in
  match snd kv with
  | JDict _ => structure_update (analyze_structure (snd kv) current_path) st1
  | JList (first :: rest) =>
      if is_dict first then items3 current_path 3 (first :: rest) st1
      else st1
  | _ => st1
  end.

(** A structure lists a type under a path. *)
Definition listed (path t : string) (st : structure) : Prop :=
  exists types, In (path, types) st /\ In t types.

(** The values analyze_structure visits below an object, with the keys
    that lead to them: the values of the object, those of the objects
    among them, and those of the first three elements of a list whose
    first element is an object. *)
Inductive reach : json -> list string -> json -> Prop :=
| reach_key items k v :
    In (k, v) items -> reach (JDict items) [k] v
| reach_object items k inner ks v :
    In (k, JDict inner) items ->
    reach (JDict inner) ks v ->
    reach (JDict items) (k :: ks) v
| reach_list items k first rest i inner ks v :
    In (k, JList (first :: rest)) items ->
    is_dict first = true ->
    (i < 3)%nat ->
    nth_error (first :: rest) i = Some (JDict inner) ->
    reach (JDict inner) ks v ->
    reach (JDict items) (k :: ks) v.

(** The header of analyze_jsonl_file (lines 80-82). *)
Definition header (filepath : string) : list output :=
  [Printed "\n{'='*80}" [];
   Printed "Analyzing: {filepath}" [AStr filepath];
   Printed "{'='*80}\n" []].

(** What the loop of analyze_jsonl_file keeps true of its counters, of
    its samples and of the error messages it has printed. *)
Definition bounded (max_lines : Z) (s : state) (errors : list output)
  : Prop :=
  0 <= line_count s <= Z.max 0 max_lines /\
  Z.of_nat (List.length (sample_records s)) = Z.min 3 (line_count s) /\
  0 <= error_count s /\
  Z.of_nat (List.length errors) = Z.min 5 (error_count s) /\
  Forall (fun o => template o = "Error on line {line_num}: {e}") errors.

End SchemaInvariants.

Module InvestigateSelection.
Import Py Run.

(** The episodes read before the first line that [json.loads] rejects,
    and the message of that line. *)
Fixpoint parsed_before (ls : list line) : list json :=
  match ls with
  | [] => []
  | Blank :: rest => parsed_before rest
  | Parsed v :: rest => v :: parsed_before rest
  | Malformed _ :: _ => []
  end.

Fixpoint first_malformed (ls : list line) : option string :=
  match ls with
  | [] => None
  | Malformed msg :: _ => Some msg
  | _ :: rest => first_malformed rest
  end.

Section Selection.

(** [sum(rewards) > 0] and [sum(rewards) < 0], which are computed in
    floating point when a reward is a float. *)
Variable sum_positive sum_negative : num -> bool.

(** [rewards and sum(rewards) > 0] on the rewards of an episode (lines
    126-127), and the same with [<] (lines 133-134). *)
Definition rewards_test (sign : num -> bool) (ep : json) : result bool :=
  (trajectory <~ py_get ep "trajectory" (JDict []) ;;
   rewards <~ py_get trajectory "rewards" (JList []) ;;
   if py_truthy rewards
   then (total <~ py_sum rewards ;; Ok (sign total))
   else Ok false)%py.

(** [len(actions) == 0] on the actions of an episode (lines 140-141). *)
Definition no_actions (ep : json) : result bool :=
  (trajectory <~ py_get ep "trajectory" (JDict []) ;;
   actions <~ py_get trajectory "actions" (JList []) ;;
   n <~ py_len actions ;;
   Ok (n =? 0))%py.

(** [for i, ep in enumerate(episodes): if test(ep):
    episode_indices.append(i); break]. *)
Fixpoint first_index (test : json -> result bool) (i : Z)
  (episodes : list json) : result (list Z) :=
  match episodes with
  | [] => Ok []
  | ep :: rest =>
      (found <~ test ep ;;
       if found then Ok [i] else first_index test (i + 1) rest)%py
  end.

(** The indices [main] investigates (lines 119-143): all of them with
    [--all], those named by [--episodes] when it is given, and else the
    first episode of each of three kinds. *)
Definition episode_indices (all : bool) (numbers : list Z)
  (episodes : list json) : result (list Z) :=
  if all then Ok (map Z.of_nat (seq 0 (List.length episodes)))
  else
    match numbers with
    | _ :: _ =>
        Ok (map (fun i => i - 1)
                (filter (fun i => (1 <=? i)
                                  && (i <=? Z.of_nat (List.length episodes)))
                        numbers))
    | [] =>
        (positive <~ first_index (rewards_test sum_positive) 0 episodes ;;
         negative <~ first_index (rewards_test sum_negative) 0 episodes ;;
         empty <~ first_index no_actions 0 episodes ;;
         Ok (positive ++ negative ++ empty))%py
    end.

End Selection.

End InvestigateSelection.

Module CountEpisodesReport.

(** The loop of format_bytes (lines 160-164). The pair holds the two
    fields of the f-string, the number before it is rounded to two
    decimals; the division by 1024.0 is exact in floating point for a
    size below 2^53. *)
Fixpoint scale (bytes_val : Q) (units : list string) : Q * string :=
  match units with
  | [] => (bytes_val, "TB")
  | unit :: rest =>
      if negb (Qle_bool 1024 bytes_val) then (bytes_val, unit)
      else scale (bytes_val / 1024) rest
  end.

Definition format_bytes (bytes_val : Z) : Q * string :=
  scale (inject_Z bytes_val) ["B"; "KB"; "MB"; "GB"].

End CountEpisodesReport.

Module RepeatedActionsReport.
Import Py Run.

(** What the arithmetic of print_summary can raise. *)
Inductive failure : Type :=
| ZeroDivisionError
| ValueError.

(** A field of a line of the report; the smallest and the largest of a
    list of floats are kept as expressions, like the floats. *)
Inductive field : Type :=
| FInt (z : Z)
| FNum (n : num)
| FMin (l : list num)
| FMax (l : list num).

Definition report_line : Type := string * list field.

Definition fbind {A B : Type} (r : failure + A) (k : A -> failure + B)
  : failure + B :=
  match r with
  | inl e => inl e
  | inr a => k a
  end.

(** [total / len(l)]. *)
Definition div_len {A : Type} (total : num) (l : list A) : failure + num :=
  if Nat.eqb (List.length l) 0 then inl ZeroDivisionError
  else inr (NDiv total (NInt (Z.of_nat (List.length l)))).

(** [min(l)] and [max(l)]. *)
Definition min_ints (l : list Z) : failure + Z :=
  match l with
  | [] => inl ValueError
  | x :: rest => inr (fold_left Z.min rest x)
  end.

Definition max_ints (l : list Z) : failure + Z :=
  match l with
  | [] => inl ValueError
  | x :: rest => inr (fold_left Z.max rest x)
  end.

Definition min_nums (l : list num) : failure + field :=
  match l with
  | [] => inl ValueError
  | _ => inr (FMin l)
  end.

Definition max_nums (l : list num) : failure + field :=
  match l with
  | [] => inl ValueError
  | _ => inr (FMax l)
  end.

(** [sum(l)] on integers and on floats. *)
Definition sum_ints (l : list Z) : num := NInt (RepeatedActions.zsum l).

Definition sum_nums (l : list num) : num := fold_left NAdd l (NInt 0).

(** The statements under [if all_repeats:] (lines 194-217), which are
    repeated for the wins (lines 224-244) and for the losses (lines
    251-271).  The quotient of the last line is computed when that line
    is printed; it divides by the length the first average divides
    by. *)
Definition statistics (repeats total_reps : list Z) (rates : list num)
  : failure + list report_line :=
  fbind (div_len (sum_ints repeats) repeats) (fun avg_repeats =>
  fbind (min_ints repeats) (fun min_repeats =>
  fbind (max_ints repeats) (fun max_repeats =>
  fbind (div_len (sum_ints total_reps) total_reps) (fun avg_total_reps =>
  fbind (min_ints total_reps) (fun min_total_reps =>
  fbind (max_ints total_reps) (fun max_total_reps =>
  fbind (div_len (sum_nums rates) rates) (fun avg_rep_rate =>
  fbind (min_nums rates) (fun min_rep_rate =>
  fbind (max_nums rates) (fun max_rep_rate =>
  let no_repeats :=
    Z.of_nat (List.length (filter (fun x => x =? 0) repeats)) in
  fbind (div_len (NInt no_repeats) repeats) (fun share =>
  inr [("Avg Distinct Repeated Actions per Episode: {avg_repeats:.2f}",
        [FNum avg_repeats]);
       ("Avg Total Repetitions per Episode: {avg_total_reps:.2f}",
        [FNum avg_total_reps]);
       ("Avg Repetition Rate: {avg_rep_rate:.1f}%", [FNum avg_rep_rate]);
       ("Min Distinct Repeated Actions: {min_repeats}", [FInt min_repeats]);
       ("Max Distinct Repeated Actions: {max_repeats}", [FInt max_repeats]);
       ("Min Total Repetitions: {min_total_reps}", [FInt min_total_reps]);
       ("Max Total Repetitions: {max_total_reps}", [FInt max_total_reps]);
       ("Min Repetition Rate: {min_rep_rate:.1f}%", [min_rep_rate]);
       ("Max Repetition Rate: {max_rep_rate:.1f}%", [max_rep_rate]);
       ("Episodes with No Repeated Actions: {no_repeats} ({no_repeats/len(all_repeats)*100:.1f}%)",
        [FInt no_repeats; FNum (NMul share (NInt 100))])])))))))))).

Definition statistics_if (repeats total_reps : list Z) (rates : list num)
  : failure + list report_line :=
  if negb (Nat.eqb (List.length repeats) 0)
  then statistics repeats total_reps rates
  else inr [].

Definition heading (rule title : string) : list report_line :=
  [(("\n" ++ rule)%string, []); (title, []); ((rule ++ "\n")%string, [])].

(** The lines printed so far, and whether the function went on. *)
Definition W (A : Type) : Type := list report_line * (failure + A).

Definition emit (lines : list report_line) : W unit := (lines, inr tt).

Definition wbind {A B : Type} (c : W A) (k : A -> W B) : W B :=
  match snd c with
  | inr a => (fst c ++ fst (k a), snd (k a))
  | inl e => (fst c, inl e)
  end.

(** A block of statistics prints its lines once all of them are
    computed. *)
Definition block (r : failure + list report_line) : W unit :=
  match r with
  | inr lines => (lines, inr tt)
  | inl e => ([], inl e)
  end.

(** print_summary (lines 164-272). *)
Definition print_summary (r : RepeatedActions.results) : W unit :=
  wbind (emit (heading "================================================================================" "REPEATED ACTIONS ANALYSIS")) (fun _ =>
  wbind (emit [("Total Episodes Analyzed: {len(all_repeats)}",
                [FInt (Z.of_nat
                         (List.length (RepeatedActions.all_episodes r)))]);
               ("  Wins: {len(win_repeats)}",
                [FInt (Z.of_nat
                         (List.length (RepeatedActions.win_episodes r)))]);
               ("  Losses: {len(loss_repeats)}",
                [FInt (Z.of_nat
                         (List.length (RepeatedActions.loss_episodes r)))])])
        (fun _ =>
  wbind (emit (heading "--------------------------------------------------------------------------------" "OVERALL STATISTICS")) (fun _ =>
  wbind (block (statistics_if (RepeatedActions.all_episodes r)
                  (RepeatedActions.all_episodes_total_reps r)
                  (RepeatedActions.all_episodes_rep_rates r))) (fun _ =>
  wbind (emit (heading "--------------------------------------------------------------------------------" "WINNING EPISODES")) (fun _ =>
  wbind (block (statistics_if (RepeatedActions.win_episodes r)
                  (RepeatedActions.win_episodes_total_reps r)
                  (RepeatedActions.win_episodes_rep_rates r))) (fun _ =>
  wbind (emit (heading "--------------------------------------------------------------------------------" "LOSING EPISODES")) (fun _ =>
  wbind (block (statistics_if (RepeatedActions.loss_episodes r)
                  (RepeatedActions.loss_episodes_total_reps r)
                  (RepeatedActions.loss_episodes_rep_rates r))) (fun _ =>
  emit [("\n================================================================================\n", [])])))))))).

(** A row of the CSV file; the percentage is rounded to the given
    number of decimals. *)
Record row : Type := mk_row {
  episode : Z;
  outcome : string;
  total_actions : Z;
  unique_actions : Z;
  num_repeated_actions : Z;
  total_repetitions : Z;
  repeat_percentage : num * Z
}.

(** The rows export_csv writes after the header (lines 419-428). *)
Definition export_csv (r : RepeatedActions.results) : list row :=
  map (fun iep =>
         let ep := snd iep in
         let c := RepeatedActions.counts ep in
         mk_row (fst iep)
                (if py_truthy (RepeatedActions.is_win ep)
                 then "win" else "loss")
                (RepeatedActions.total_actions c)
                (RepeatedActions.unique_actions c)
                (RepeatedActions.num_repeated_actions c)
                (RepeatedActions.total_repetitions c)
                (RepeatedActions.repeat_percentage ep, 4))
      (enumerate 1 (RepeatedActions.episode_details r)).

End RepeatedActionsReport.

(** ** json_to_csv.py *)

Module JsonToCsv.
Import Py Run.

(** The files of the data directory by name: what [json.load] returns
    or raises on each. *)
Definition json_files : Type := string -> option (result json).

Definition FILE_PLAN : list (Z * string * Z) :=
  [(1, "episode_data_new_ips_1.json", 0);
   (2, "episode_data_new_ips_2.json", 0);
   (2, "episode_data_new_ips_2b.json", 100);
   (3, "episode_data_new_ips_3.json", 0);
   (4, "episode_data_new_ips_4.json", 0);
   (5, "episode_data_new_ips_5.json", 0);
   (5, "episode_data_new_ips_5b.json", 100)].

Definition outcome (end_reason : json) : string :=
  if json_eq end_reason (JStr "AgentStatus.Success") then "win" else "fail".

(** A row of the CSV file, with its three columns. *)
Record row : Type := mk_row {
  row_network : Z;
  row_episode : prim;
  row_outcome : string
}.

(** [obj[k]] for a string [k]: a dict has the key or raises KeyError;
    nothing else is indexed by a string. *)
Definition py_item (obj : json) (k : string) : result json :=
  match obj with
  | JDict d =>
      match dict_get k d with
      | Some v => Ok v
      | None => Raise KeyError
      end
  | _ => Raise TypeError
  end.

(** The key [(r['network'], r['episode'])] of the sort and [<] on it: the
    networks decide unless they are equal. *)
Definition episode_value (p : prim) : Q :=
  match num_val p with
  | Some q => q
  | None => 0%Q
  end.

Definition key_lt (a b : row) : bool :=
  if row_network a =? row_network b
  then negb (Qle_bool (episode_value (row_episode b))
                      (episode_value (row_episode a)))
  else row_network a <? row_network b.

(** [rows.sort(key=...)]: the sort is stable, so that its result is the
    one of inserting each row, in turn, after the rows that are not
    above it. *)
Fixpoint insert_row (x : row) (l : list row) : list row :=
  match l with
  | [] => [x]
  | y :: rest => if key_lt x y then x :: l else y :: insert_row x rest
  end.

Definition sort_rows (l : list row) : list row :=
  fold_left (fun acc x => insert_row x acc) l [].

Section FloatingPoint.

(** [x + offset] for a float [x] and an integer [offset], as floating
    point computes it. *)
Variable float_add : Q -> Z -> Q.

(** [v + offset]: defined on numbers only. *)
Definition py_add_int (v : json) (offset : Z) : result prim :=
  match v with
  | JPrim (PInt z) => Ok (PInt (z + offset))
  | JPrim (PBool b) => Ok (PInt ((if b then 1 else 0) + offset))
  | JPrim (PFloat q) => Ok (PFloat (float_add q offset))
  | _ => Raise TypeError
  end.

(** One iteration of [for ep in data] (lines 44-49). *)
Definition add_row (network offset : Z) (ep : json) : M (list row) unit :=
  (number <- lift (py_item ep "episode") ;;
   episode <- lift (py_add_int number offset) ;;
   reason <- lift (py_item ep "end_reason") ;;
   modify (fun rows => rows ++ [mk_row network episode (outcome reason)]))%py.

(** One iteration of the loop over FILE_PLAN (lines 37-50); the warning
    for a missing file goes to the error stream. *)
Definition load (fs : json_files) (plan : Z * string * Z)
  : M (list row) unit :=
  let network := fst (fst plan) in
  let filename := snd (fst plan) in
  let offset := snd plan in
  match fs filename with
  | None => ret tt
  | Some content =>
      (data <- lift content ;;
       items <- lift (py_iter data) ;;
       for_each items (add_row network offset) ;;;
       n <- lift (py_len data) ;;
       print "Loaded {len(data):>3} episodes from {filename} (network {network}, offset {offset})"
             [AInt n; AStr filename; AInt network; AInt offset])%py
  end.

(** [main] (lines 35-59); the state after it holds the rows written to
    the CSV file. *)
Definition main (fs : json_files) : M (list row) unit :=
  (modify (fun _ => []) ;;;
   for_each FILE_PLAN (load fs) ;;;
   modify sort_rows ;;;
   rows <- get ;;
   print "\nWrote {len(rows)} rows to {OUTPUT_CSV}"
         [AInt (Z.of_nat (List.length rows))])%py.

End FloatingPoint.

(** The number a line of the output reports. *)
Definition reported (o : output) : Z :=
  match args o with
  | AInt n :: _ => n
  | _ => 0
  end.

(** A row is not above another in the order of the sort. *)
Definition key_le (a b : row) : Prop := key_lt b a = false.

(** While the files are read, the numbers reported add up to the number
    of rows, and every row is a win or a fail. *)
Definition loaded (w : list row * list output) : Prop :=
  RepeatedActions.zsum (map reported (snd w))
  = Z.of_nat (List.length (fst w)) /\
  Forall (fun r => row_outcome r = "win" \/ row_outcome r = "fail") (fst w).

End JsonToCsv.

(** * Properties *)

(** ** Python equality is an equivalence on hashable values *)

Section KeyInduction.
Import Py.
Variable P : key -> Prop.
Hypothesis Hprim : forall p, P (KPrim p).
Hypothesis Htuple : forall l, Forall P l -> P (KTuple l).

Fixpoint key_rect_forall (k : key) : P k :=
  match k with
  | KPrim p => Hprim p
  | KTuple l =>
      Htuple l
        ((fix go (l : list key) : Forall P l :=
            match l with
            | [] => Forall_nil P
            | x :: r => Forall_cons x (key_rect_forall x) (go r)
            end) l)
  end.
End KeyInduction.

Section JsonInduction.
Import Py.
Variable P : json -> Prop.
Hypothesis Hprim : forall p, P (JPrim p).
Hypothesis Hlist : forall l, Forall P l -> P (JList l).
Hypothesis Hdict : forall d, Forall (fun kv => P (snd kv)) d -> P (JDict d).

Fixpoint json_rect_forall (v : json) : P v :=
  match v with
  | JPrim p => Hprim p
  | JList l =>
      Hlist l
        ((fix go (l : list json) : Forall P l :=
            match l with
            | [] => Forall_nil P
            | x :: r => Forall_cons x (json_rect_forall x) (go r)
            end) l)
  | JDict d =>
      Hdict d
        ((fix go (d : list (string * json))
            : Forall (fun kv => P (snd kv)) d :=
            match d with
            | [] => Forall_nil _
            | kv :: r =>
                Forall_cons kv (json_rect_forall (snd kv)) (go r)
            end) d)
  end.
End JsonInduction.

Section PyEquality.
Import Py.

Lemma prim_eq_refl p : prim_eq p p = true.
Proof.
  destruct p as [| b | z | q | s]; unfold prim_eq; simpl;
    auto using Qeq_bool_refl, String.eqb_refl.
Qed.

Lemma prim_eq_sym p1 p2 : prim_eq p1 p2 = prim_eq p2 p1.
Proof.
  unfold prim_eq.
  destruct (num_val p1) eqn:E1, (num_val p2) eqn:E2;
    auto using Qeq_bool_comm.
  destruct p1, p2; auto using String.eqb_sym.
Qed.

Lemma prim_eq_trans p1 p2 p3 :
  prim_eq p1 p2 = true -> prim_eq p2 p3 = true -> prim_eq p1 p3 = true.
Proof.
  unfold prim_eq.
  destruct (num_val p1) eqn:E1, (num_val p2) eqn:E2, (num_val p3) eqn:E3;
    try discriminate; eauto using Qeq_bool_trans.
  destruct p1, p2, p3; try discriminate; auto.
  intros H12 H23. apply String.eqb_eq in H12, H23. subst.
  apply String.eqb_refl.
Qed.

Lemma py_eq_tuple l1 l2 : py_eq (KTuple l1) (KTuple l2) = tuple_eq l1 l2.
Proof. reflexivity. Qed.

Lemma py_eq_refl k : py_eq k k = true.
Proof.
  induction k as [p | l IH] using key_rect_forall.
  - apply prim_eq_refl.
  - rewrite py_eq_tuple. induction IH as [| x r Hx _ IHr]; simpl; auto.
    now rewrite Hx, IHr.
Qed.

Lemma py_eq_sym k1 k2 : py_eq k1 k2 = py_eq k2 k1.
Proof.
  revert k2. induction k1 as [p | l IH] using key_rect_forall;
    intros [p2 | l2]; try reflexivity.
  - apply prim_eq_sym.
  - rewrite !py_eq_tuple. revert l2.
    induction IH as [| x r Hx _ IHr]; intros [| y r2]; simpl; auto.
    now rewrite Hx, IHr.
Qed.

Lemma py_eq_trans k1 k2 k3 :
  py_eq k1 k2 = true -> py_eq k2 k3 = true -> py_eq k1 k3 = true.
Proof.
  revert k2 k3. induction k1 as [p | l IH] using key_rect_forall;
    intros [p2 | l2] [p3 | l3]; try discriminate.
  - apply prim_eq_trans.
  - rewrite !py_eq_tuple. revert l2 l3.
    induction IH as [| x r Hx _ IHr]; intros [| y r2] [| z r3];
      simpl; try discriminate; auto.
    intros H12 H23.
    apply andb_true_iff in H12 as [Hxy Hr12].
    apply andb_true_iff in H23 as [Hyz Hr23].
    apply andb_true_iff; split; eauto.
Qed.

Lemma py_eq_false_l k1 k2 k3 :
  py_eq k1 k2 = true -> py_eq k1 k3 = false -> py_eq k2 k3 = false.
Proof.
  intros H12 H13. destruct (py_eq k2 k3) eqn:H23; auto.
  now rewrite (py_eq_trans _ _ _ H12 H23) in H13.
Qed.

Lemma tuple_eq_Forall2 l1 l2 :
  tuple_eq l1 l2 = true <-> Forall2 (fun x y => py_eq x y = true) l1 l2.
Proof.
  revert l2. induction l1 as [| x r IH]; intros [| y r2]; simpl;
    split; intros H; try discriminate; try constructor; try now inversion H.
  - apply andb_true_iff in H. tauto.
  - apply IH. apply andb_true_iff in H. tauto.
  - inversion H; subst. apply andb_true_iff. split; auto. now apply IH.
Qed.
End PyEquality.

(** ** The order on dict keys *)

Section KeyOrder.

Lemma string_leb_trans a b c :
  String.leb a b = true -> String.leb b c = true -> String.leb a c = true.
Proof.
  unfold String.leb. revert b c.
  induction a as [| x a IH]; intros [| y b] [| z c]; simpl;
    try discriminate; auto.
  unfold Ascii.compare.
  destruct (N.compare_spec (N_of_ascii x) (N_of_ascii y)),
           (N.compare_spec (N_of_ascii y) (N_of_ascii z)),
           (N.compare_spec (N_of_ascii x) (N_of_ascii z));
    try discriminate; try lia; auto.
  apply IH.
Qed.

Lemma string_leb_ltb a b :
  String.leb a b = true -> a <> b -> String.ltb a b = true.
Proof.
  unfold String.leb, String.ltb. intros Hle Hne.
  destruct (String.compare a b) eqn:E; auto; try discriminate.
  now apply String.compare_eq_iff in E.
Qed.

Lemma string_leb_false a b : String.leb a b = false -> String.leb b a = true.
Proof.
  intros H. destruct (String.leb_total a b) as [H' | H']; auto.
  now rewrite H in H'.
Qed.

End KeyOrder.

(** ** Sorting the items of a dict *)

Section Sorting.
Import Py RepeatedActions.

Lemma insert_sorted_perm kv l : Permutation (insert_sorted kv l) (kv :: l).
Proof.
  induction l as [| kv' r IH]; simpl; auto.
  destruct (String.leb (fst kv) (fst kv')); auto.
  rewrite IH. apply perm_swap.
Qed.

Lemma sorted_perm l : Permutation (sorted l) l.
Proof.
  induction l as [| kv r IH]; simpl; auto.
  rewrite insert_sorted_perm. now constructor.
Qed.

Lemma insert_sorted_ordered kv l :
  StronglySorted key_le l -> StronglySorted key_le (insert_sorted kv l).
Proof.
  induction 1 as [| kv' r Hr IH Hall]; simpl.
  - repeat constructor.
  - destruct (String.leb (fst kv) (fst kv')) eqn:E.
    + constructor; [now constructor |].
      constructor; [exact E |].
      eapply Forall_impl; [| exact Hall].
      intros q Hq. unfold key_le in *. eapply string_leb_trans; eauto.
    + constructor; [exact IH |].
      rewrite insert_sorted_perm.
      constructor; [| exact Hall]. now apply string_leb_false.
Qed.

Lemma sorted_ordered l : StronglySorted key_le (sorted l).
Proof.
  induction l as [| kv r IH]; simpl.
  - constructor.
  - now apply insert_sorted_ordered.
Qed.

Lemma same_key_same_item {A : Type} (l : list (string * A)) p q :
  dict_wf l -> In p l -> In q l -> fst p = fst q -> p = q.
Proof.
  unfold dict_wf. induction l as [| x r IH]; simpl; [tauto |].
  intros Hnd Hp Hq Hk. inversion Hnd as [| ? ? Hx Hr]; subst.
  destruct Hp as [-> | Hp], Hq as [-> | Hq]; auto.
  - exfalso. apply Hx. rewrite Hk. now apply in_map.
  - exfalso. apply Hx. rewrite <- Hk. now apply in_map.
Qed.

Lemma ordered_perm_unique (l1 l2 : list (string * key)) :
  dict_wf l1 -> StronglySorted key_le l1 -> StronglySorted key_le l2 ->
  Permutation l1 l2 -> l1 = l2.
Proof.
  revert l2. induction l1 as [| x r1 IH]; intros l2 Hwf H1 H2 Hp.
  - now apply Permutation_nil in Hp.
  - destruct l2 as [| y r2].
    { symmetry in Hp. now apply Permutation_nil in Hp. }
    assert (Hxy : x = y).
    { assert (Hx : In x (y :: r2))
        by (eapply Permutation_in; [exact Hp | now left]).
      assert (Hy : In y (x :: r1))
        by (eapply Permutation_in; [symmetry; exact Hp | now left]).
      destruct Hx as [Hx | Hx]; [now subst |].
      destruct Hy as [Hy | Hy]; [now subst |].
      apply StronglySorted_inv in H1 as [_ H1].
      apply StronglySorted_inv in H2 as [_ H2].
      rewrite Forall_forall in H1, H2.
      apply (same_key_same_item (x :: r1)); auto; [now left | now right |].
      apply String.leb_antisym; [now apply H1 | now apply H2]. }
    subst y. f_equal. apply IH.
    + unfold dict_wf in *. simpl in Hwf. now inversion Hwf.
    + now apply StronglySorted_inv in H1.
    + now apply StronglySorted_inv in H2.
    + now apply Permutation_cons_inv in Hp.
Qed.

Lemma sorted_perm_eq (l1 l2 : list (string * key)) :
  dict_wf l1 -> Permutation l1 l2 -> sorted l1 = sorted l2.
Proof.
  intros Hwf Hp. apply ordered_perm_unique.
  - unfold dict_wf. eapply Permutation_NoDup; [| exact Hwf].
    apply Permutation_map. symmetry. apply sorted_perm.
  - apply sorted_ordered.
  - apply sorted_ordered.
  - rewrite !sorted_perm. exact Hp.
Qed.

Lemma ordered_strict (l : list (string * key)) :
  dict_wf l -> StronglySorted key_le l ->
  StronglySorted (fun k k' => String.ltb k k' = true) (map fst l).
Proof.
  unfold dict_wf. induction l as [| x r IH]; simpl; intros Hnd Hs.
  - constructor.
  - inversion Hnd as [| ? ? Hx Hr]; subst.
    apply StronglySorted_inv in Hs as [Hs Hall].
    constructor; [now apply IH |].
    rewrite Forall_forall in *. intros k Hk.
    apply in_map_iff in Hk as [q [<- Hq]].
    apply string_leb_ltb; [now apply Hall |].
    intros Heq. apply Hx. rewrite Heq. now apply in_map.
Qed.

Lemma hashed_items_keys (d : list (string * json)) :
  map fst (map (fun kv => (fst kv, make_hashable (snd kv))) d) = map fst d.
Proof. rewrite map_map. reflexivity. Qed.

End Sorting.

(** ** Equality of JSON values and of their canonical keys *)

Section JsonEquality.
Import Py RepeatedActions.

Lemma json_wf_list l : json_wf (JList l) <-> Forall json_wf l.
Proof.
  induction l as [| x r IH]; simpl.
  - split; auto.
  - split.
    + intros [Hx Hr]. constructor; [exact Hx | now apply IH].
    + intros H. inversion H; subst. split; [assumption | now apply IH].
Qed.

Lemma json_wf_dict d :
  json_wf (JDict d) <-> dict_wf d /\ Forall (fun kv => json_wf (snd kv)) d.
Proof.
  simpl. apply and_iff_compat_l.
  induction d as [| kv r IH]; simpl.
  - split; auto.
  - split.
    + intros [Hx Hr]. constructor; [exact Hx | now apply IH].
    + intros H. inversion H; subst. split; [assumption | now apply IH].
Qed.

Lemma json_eq_list l1 l2 :
  json_eq (JList l1) (JList l2) = true <->
  Forall2 (fun x y => json_eq x y = true) l1 l2.
Proof.
  revert l2. induction l1 as [| x r IH]; intros [| y r2]; simpl;
    split; intros H; try discriminate; try constructor; try now inversion H.
  - apply andb_true_iff in H. tauto.
  - apply IH. apply andb_true_iff in H. tauto.
  - inversion H; subst. apply andb_true_iff. split; auto. now apply IH.
Qed.

Lemma same_kind_list l1 l2 x y :
  same_kind (JList (x :: l1)) (JList (y :: l2)) = true ->
  same_kind x y = true /\ same_kind (JList l1) (JList l2) = true.
Proof. simpl. intros H. now apply andb_true_iff in H. Qed.

Lemma dict_get_in k v (d : list (string * json)) :
  dict_get k d = Some v -> In (k, v) d.
Proof.
  induction d as [| [k' v'] r IH]; simpl; [discriminate |].
  destruct (String.eqb_spec k' k) as [-> | Hne].
  - intros [= ->]. now left.
  - intros H. right. now apply IH.
Qed.

Lemma in_dict_get k v (d : list (string * json)) :
  dict_wf d -> In (k, v) d -> dict_get k d = Some v.
Proof.
  unfold dict_wf. induction d as [| [k' v'] r IH]; simpl; [tauto |].
  intros Hnd Hin. inversion Hnd as [| ? ? Hk Hr]; subst.
  destruct Hin as [[= -> ->] | Hin].
  - now rewrite String.eqb_refl.
  - destruct (String.eqb_spec k' k) as [-> | Hne]; [| now apply IH].
    exfalso. apply Hk. change k with (fst (k, v)). now apply in_map.
Qed.

Lemma Forall2_in_l {A B : Type} (R : A -> B -> Prop) l1 l2 x :
  Forall2 R l1 l2 -> In x l1 -> exists y, In y l2 /\ R x y.
Proof.
  induction 1 as [| a b r1 r2 Hab _ IH]; simpl; [tauto |].
  intros [-> | Hin].
  - exists b. auto.
  - destruct (IH Hin) as [y [Hy Hxy]]. exists y. auto.
Qed.

(** Two key-sorted item lists of the same length, in which every item of
    the first has an item of the second with the same key related to it,
    are related position by position. *)
Lemma ordered_pointwise (R : string * key -> string * key -> Prop) :
  forall l1 l2 : list (string * key),
  dict_wf l1 -> dict_wf l2 ->
  StronglySorted key_le l1 -> StronglySorted key_le l2 ->
  List.length l1 = List.length l2 ->
  (forall p, In p l1 -> exists q, In q l2 /\ fst p = fst q /\ R p q) ->
  Forall2 (fun p q => fst p = fst q /\ R p q) l1 l2.
Proof.
  induction l1 as [| x r1 IH]; intros [| y r2] Hw1 Hw2 Hs1 Hs2 Hlen Hrel;
    try discriminate; [constructor |].
  assert (Hincl : incl (map fst (x :: r1)) (map fst (y :: r2))).
  { intros k Hk. apply in_map_iff in Hk as [p [<- Hp]].
    destruct (Hrel p Hp) as [q [Hq [-> _]]]. now apply in_map. }
  assert (Hback : incl (map fst (y :: r2)) (map fst (x :: r1))).
  { apply NoDup_length_incl; auto. rewrite !length_map.
    rewrite Hlen. apply Nat.le_refl. }
  assert (Hk : fst x = fst y).
  { destruct (Hrel x (or_introl eq_refl)) as [q [Hq [Hxq _]]].
    destruct Hq as [<- | Hq]; [exact Hxq |].
    assert (Hy : In (fst y) (map fst (x :: r1))).
    { apply Hback. simpl. now left. }
    simpl in Hy. destruct Hy as [Hy | Hy]; [exact Hy |].
    apply in_map_iff in Hy as [p [Hpy Hp]].
    apply StronglySorted_inv in Hs1 as [_ Hs1].
    apply StronglySorted_inv in Hs2 as [_ Hs2].
    rewrite Forall_forall in Hs1, Hs2.
    apply String.leb_antisym.
    - rewrite <- Hpy. now apply Hs1.
    - rewrite Hxq. now apply Hs2. }
  constructor.
  - split; [exact Hk |].
    destruct (Hrel x (or_introl eq_refl)) as [q [Hq [Hxq HR]]].
    assert (q = y); [| now subst].
    apply (same_key_same_item (y :: r2)); auto; [now left | congruence].
  - apply IH.
    + unfold dict_wf in *. simpl in Hw1. now inversion Hw1.
    + unfold dict_wf in *. simpl in Hw2. now inversion Hw2.
    + now apply StronglySorted_inv in Hs1.
    + now apply StronglySorted_inv in Hs2.
    + simpl in Hlen. congruence.
    + intros p Hp.
      destruct (Hrel p (or_intror Hp)) as [q [Hq [Hpq HR]]].
      exists q. split; [| auto].
      destruct Hq as [<- | Hq]; [| exact Hq].
      exfalso. unfold dict_wf in Hw1. simpl in Hw1.
      inversion Hw1 as [| ? ? Hx _]; subst. apply Hx.
      rewrite Hk, <- Hpq. now apply in_map.
Qed.

Lemma item_key_eq p q :
  py_eq (item_key p) (item_key q) = true <->
  fst p = fst q /\ py_eq (snd p) (snd q) = true.
Proof.
  unfold item_key. simpl. unfold prim_eq. simpl.
  rewrite andb_true_r, andb_true_iff, String.eqb_eq. reflexivity.
Qed.

Lemma item_keys_eq l1 l2 :
  py_eq (KTuple (map item_key l1)) (KTuple (map item_key l2)) = true <->
  Forall2 (fun p q => fst p = fst q /\ py_eq (snd p) (snd q) = true) l1 l2.
Proof.
  rewrite py_eq_tuple, tuple_eq_Forall2. split; intros H.
  - remember (map item_key l1) as m1 eqn:E1.
    remember (map item_key l2) as m2 eqn:E2.
    revert l1 l2 E1 E2.
    induction H as [| a b r1 r2 Hab _ IH]; intros [| p l1] [| q l2] E1 E2;
      try discriminate; constructor.
    + injection E1 as -> _. injection E2 as -> _. now apply item_key_eq.
    + injection E1 as _ E1. injection E2 as _ E2. now apply IH.
  - induction H as [| p q r1 r2 Hpq _ IH]; simpl; constructor; auto.
    now apply item_key_eq.
Qed.

Lemma make_hashable_dict d :
  make_hashable (JDict d) = KTuple (map item_key (sorted (hashed d))).
Proof. reflexivity. Qed.

Lemma hashed_wf d : dict_wf d -> dict_wf (sorted (hashed d)).
Proof.
  unfold dict_wf. intros H. eapply Permutation_NoDup.
  - apply Permutation_map. symmetry. apply sorted_perm.
  - unfold hashed. now rewrite hashed_items_keys.
Qed.

Lemma in_sorted_hashed p d :
  In p (sorted (hashed d)) <->
  exists kv, In kv d /\ p = (fst kv, make_hashable (snd kv)).
Proof.
  split.
  - intros H. apply (Permutation_in _ (sorted_perm _)) in H.
    apply in_map_iff in H as [kv [<- Hkv]]. eauto.
  - intros [kv [Hkv ->]].
    apply (Permutation_in _ (Permutation_sym (sorted_perm _))).
    unfold hashed. apply in_map_iff. eauto.
Qed.

Lemma sorted_hashed_length d :
  List.length (sorted (hashed d)) = List.length d.
Proof.
  rewrite (Permutation_length (sorted_perm _)). unfold hashed.
  apply length_map.
Qed.

Lemma json_eq_keys a : forall b,
  json_wf a -> json_wf b ->
  json_eq a b = true -> py_eq (make_hashable a) (make_hashable b) = true.
Proof.
  induction a as [p | l IH | d IH] using json_rect_forall;
    intros [p2 | l2 | d2] Ha Hb; try discriminate; try (simpl; tauto).
  - (* lists *)
    intros H. apply json_eq_list in H.
    apply json_wf_list in Ha, Hb.
    simpl make_hashable. rewrite py_eq_tuple. apply tuple_eq_Forall2.
    revert Ha Hb IH.
    induction H as [| x y r1 r2 Hxy _ IHr]; intros Ha Hb IH; simpl;
      constructor.
    + inversion IH; inversion Ha; inversion Hb; subst. auto.
    + inversion IH; inversion Ha; inversion Hb; subst. auto.
  - (* dicts *)
    intros H. simpl in H.
    apply andb_true_iff in H as [Hlen Hall].
    apply Nat.eqb_eq in Hlen. rewrite forallb_forall in Hall.
    apply json_wf_dict in Ha as [Hw1 Ha], Hb as [Hw2 Hb].
    rewrite Forall_forall in IH, Ha, Hb.
    rewrite !make_hashable_dict. apply item_keys_eq.
    apply ordered_pointwise; auto using hashed_wf, sorted_ordered.
    + now rewrite !sorted_hashed_length.
    + intros p Hp. apply in_sorted_hashed in Hp as [kv [Hkv ->]].
      specialize (Hall kv Hkv).
      destruct (dict_get (fst kv) d2) as [v' |] eqn:E; [| discriminate].
      apply dict_get_in in E.
      exists (fst kv, make_hashable v'). split; [| split; [reflexivity |]].
      * apply in_sorted_hashed. exists (fst kv, v'). auto.
      * simpl. apply IH; auto. apply (Hb (fst kv, v')). exact E.
Qed.

Lemma keys_json_eq a : forall b,
  json_wf a -> json_wf b -> same_kind a b = true ->
  py_eq (make_hashable a) (make_hashable b) = true -> json_eq a b = true.
Proof.
  induction a as [p | l IH | d IH] using json_rect_forall;
    intros [p2 | l2 | d2] Ha Hb Hk; try discriminate; try (simpl; tauto).
  - (* lists *)
    simpl make_hashable. rewrite py_eq_tuple, tuple_eq_Forall2.
    intros H. apply json_eq_list.
    apply json_wf_list in Ha, Hb.
    revert l2 Ha Hb Hk H.
    induction IH as [| x r1 Hx _ IHr]; intros [| y r2] Ha Hb Hk H;
      simpl in H; inversion H; subst; constructor.
    + apply same_kind_list in Hk as [Hk _].
      inversion Ha; inversion Hb; subst. auto.
    + apply same_kind_list in Hk as [_ Hk].
      inversion Ha; inversion Hb; subst. auto.
  - (* dicts *)
    rewrite !make_hashable_dict. intros H. apply item_keys_eq in H.
    simpl in Hk. rewrite forallb_forall in Hk.
    apply json_wf_dict in Ha as [Hw1 Ha], Hb as [Hw2 Hb].
    rewrite Forall_forall in IH, Ha, Hb.
    simpl. apply andb_true_iff. split.
    + apply Nat.eqb_eq. apply Forall2_length in H.
      now rewrite !sorted_hashed_length in H.
    + apply forallb_forall. intros kv Hkv.
      assert (Hp : In (fst kv, make_hashable (snd kv)) (sorted (hashed d)))
        by (apply in_sorted_hashed; eauto).
      destruct (Forall2_in_l _ _ _ _ H Hp) as [q [Hq [Hfst Heq]]].
      apply in_sorted_hashed in Hq as [kv' [Hkv' ->]]. simpl in Hfst, Heq.
      assert (E : dict_get (fst kv) d2 = Some (snd kv')).
      { apply in_dict_get; auto. rewrite Hfst. now destruct kv'. }
      specialize (Hk kv Hkv). rewrite E in Hk. rewrite E.
      apply IH; auto.
Qed.

End JsonEquality.

(** ** The canonical key of a JSON value *)

Section Canonical.
Import Py RepeatedActions.

(** C6: make_hashable maps a primitive to itself, a list to the tuple of
    the canonical keys of its elements in the same order, and a dict to
    the tuple of the two-element tuples (key, canonical(value)), one for
    each item of the dict, in strictly ascending key order. *)
Theorem make_hashable_contract
  (p : prim) (l : list json) (d : list (string * json)) (Hd : dict_wf d) :
  make_hashable (JPrim p) = KPrim p /\
  make_hashable (JList l) = KTuple (map make_hashable l) /\
  exists pairs : list (string * key),
    make_hashable (JDict d)
    = KTuple (map (fun kc => KTuple [KPrim (PStr (fst kc)); snd kc]) pairs) /\
    Permutation pairs (map (fun kv => (fst kv, make_hashable (snd kv))) d) /\
    StronglySorted (fun k k' => String.ltb k k' = true) (map fst pairs).
Proof.
  split; [reflexivity |]. split; [reflexivity |].
  exists (sorted (map (fun kv => (fst kv, make_hashable (snd kv))) d)).
  split; [reflexivity |]. split; [apply sorted_perm |].
  apply ordered_strict; [| apply sorted_ordered].
  unfold dict_wf in *. eapply Permutation_NoDup.
  - apply Permutation_map. symmetry. apply sorted_perm.
  - now rewrite hashed_items_keys.
Qed.

(** C2: two dicts holding the same items in different insertion orders
    have the same canonical key. *)
Theorem make_hashable_insertion_order
  (A B : list (string * json)) (HA : dict_wf A) (HAB : Permutation A B) :
  make_hashable (JDict A) = make_hashable (JDict B) /\
  py_eq (make_hashable (JDict A)) (make_hashable (JDict B)) = true.
Proof.
  assert (E : make_hashable (JDict A) = make_hashable (JDict B)).
  { simpl. do 2 f_equal. apply sorted_perm_eq.
    - unfold dict_wf in *. now rewrite hashed_items_keys.
    - now apply Permutation_map. }
  split; [exact E |]. rewrite E. apply py_eq_refl.
Qed.

(** C1, as the code has it: values that are equal have equal canonical
    keys; values with equal canonical keys are equal provided they agree,
    wherever both hold a container, on its being a list or a dict. *)
Theorem make_hashable_equal_keys
  (a b : json) (Ha : json_wf a) (Hb : json_wf b) :
  (json_eq a b = true ->
   py_eq (make_hashable a) (make_hashable b) = true) /\
  (same_kind a b = true ->
   py_eq (make_hashable a) (make_hashable b) = true ->
   json_eq a b = true).
Proof.
  split.
  - now apply json_eq_keys.
  - now apply keys_json_eq.
Qed.

(** C1 fails as stated: the dict {"a": 1} and the list [["a", 1]] are
    different JSON values with the same canonical key (("a", 1),). *)
Lemma make_hashable_dict_list_collision :
  json_wf (JDict [("a", JInt 1)]) /\
  json_wf (JList [JList [JStr "a"; JInt 1]]) /\
  json_eq (JDict [("a", JInt 1)]) (JList [JList [JStr "a"; JInt 1]]) = false /\
  py_eq (make_hashable (JDict [("a", JInt 1)]))
        (make_hashable (JList [JList [JStr "a"; JInt 1]])) = true.
Proof.
  repeat split; simpl; auto.
  unfold dict_wf. simpl. constructor; [intros [] | constructor].
Qed.

Lemma make_hashable_contract_witness :
  make_hashable (JPrim (PStr "ScanNetwork")) = KPrim (PStr "ScanNetwork") /\
  make_hashable (JList [JInt 2; JInt 1])
  = KTuple (map make_hashable [JInt 2; JInt 1]) /\
  exists pairs : list (string * key),
    make_hashable (JDict [("b", JInt 2); ("a", JInt 1)])
    = KTuple (map (fun kc => KTuple [KPrim (PStr (fst kc)); snd kc]) pairs) /\
    Permutation pairs
      (map (fun kv => (fst kv, make_hashable (snd kv)))
           [("b", JInt 2); ("a", JInt 1)]) /\
    StronglySorted (fun k k' => String.ltb k k' = true) (map fst pairs).
Proof.
  apply (make_hashable_contract (PStr "ScanNetwork") [JInt 2; JInt 1]
           [("b", JInt 2); ("a", JInt 1)]).
  unfold dict_wf. simpl. repeat constructor; simpl; intuition discriminate.
Defined.

Lemma make_hashable_insertion_order_witness :
  make_hashable (JDict [("a", JInt 1); ("b", JInt 2)])
  = make_hashable (JDict [("b", JInt 2); ("a", JInt 1)]) /\
  py_eq (make_hashable (JDict [("a", JInt 1); ("b", JInt 2)]))
        (make_hashable (JDict [("b", JInt 2); ("a", JInt 1)])) = true.
Proof.
  apply (make_hashable_insertion_order
           [("a", JInt 1); ("b", JInt 2)] [("b", JInt 2); ("a", JInt 1)]).
  - unfold dict_wf. simpl. repeat constructor; simpl; intuition discriminate.
  - apply perm_swap.
Defined.

Lemma make_hashable_equal_keys_witness :
  (json_eq (JDict [("a", JInt 1); ("b", JList [JBool true])])
           (JDict [("b", JList [JInt 1]); ("a", JFloat 1)]) = true ->
   py_eq (make_hashable (JDict [("a", JInt 1); ("b", JList [JBool true])]))
         (make_hashable (JDict [("b", JList [JInt 1]); ("a", JFloat 1)]))
   = true) /\
  (same_kind (JDict [("a", JInt 1); ("b", JList [JBool true])])
             (JDict [("b", JList [JInt 1]); ("a", JFloat 1)]) = true ->
   py_eq (make_hashable (JDict [("a", JInt 1); ("b", JList [JBool true])]))
         (make_hashable (JDict [("b", JList [JInt 1]); ("a", JFloat 1)]))
   = true ->
   json_eq (JDict [("a", JInt 1); ("b", JList [JBool true])])
           (JDict [("b", JList [JInt 1]); ("a", JFloat 1)]) = true).
Proof.
  apply (make_hashable_equal_keys
           (JDict [("a", JInt 1); ("b", JList [JBool true])])
           (JDict [("b", JList [JInt 1]); ("a", JFloat 1)]));
    simpl; unfold dict_wf; simpl; repeat split;
    repeat constructor; simpl; intuition discriminate.
Defined.

End Canonical.

(** ** Counting repeated actions *)

Section Counting.
Import Py RepeatedActions Spec.

(** [build ks] is the counter after the keys [ks] have been counted. *)
Lemma count_actions_keys actions :
  count_actions actions =
  fold_left (fun c k => counter_incr k c) (map make_hashable actions) [].
Proof.
  unfold count_actions, action_to_hashable.
  generalize (@nil (key * Z)).
  induction actions as [| a r IH]; intros c; simpl; auto.
Qed.

Lemma zsum_shift l a : fold_left Z.add l a = a + zsum l.
Proof.
  unfold zsum. revert a. induction l as [| x r IH]; intros a; simpl.
  - lia.
  - rewrite (IH (a + x)), (IH x). lia.
Qed.

Lemma zsum_cons x l : zsum (x :: l) = x + zsum l.
Proof. unfold zsum at 1. simpl. rewrite zsum_shift. lia. Qed.

Lemma zsum_app l1 l2 : zsum (l1 ++ l2) = zsum l1 + zsum l2.
Proof.
  induction l1 as [| x r IH]; simpl; [reflexivity |].
  rewrite !zsum_cons, IH. lia.
Qed.

Lemma zsum_ones {A : Type} (l : list A) :
  zsum (map (fun _ => 1) l) = Z.of_nat (List.length l).
Proof.
  induction l as [| x r IH]; [reflexivity |].
  simpl map. rewrite zsum_cons, IH. simpl List.length. lia.
Qed.

Lemma occurrences_snoc k ks x :
  occurrences k (ks ++ [x]) =
  occurrences k ks + (if py_eq x k then 1 else 0).
Proof.
  induction ks as [| y r IH]; simpl; [lia |]. rewrite IH. lia.
Qed.

Lemma occurrences_none k ks :
  existsb (fun x => py_eq x k) ks = false -> occurrences k ks = 0.
Proof.
  induction ks as [| y r IH]; simpl; auto.
  intros H. apply orb_false_iff in H as [-> H]. now rewrite IH.
Qed.

Lemma occurrences_nonneg k ks : 0 <= occurrences k ks.
Proof.
  induction ks as [| y r IH]; simpl; [lia |].
  destruct (py_eq y k); lia.
Qed.

Lemma distinct_snoc ks k :
  distinct (ks ++ [k]) =
  if existsb (fun x => py_eq x k) ks then distinct ks else distinct ks ++ [k].
Proof.
  induction ks as [| a r IH]; simpl; [reflexivity |].
  rewrite IH. destruct (existsb (fun x => py_eq x k) r).
  - now rewrite orb_true_r.
  - rewrite orb_false_r, filter_app. simpl.
    destruct (py_eq a k); simpl; [now rewrite app_nil_r | reflexivity].
Qed.

Lemma existsb_distinct ks k :
  existsb (fun x => py_eq x k) (distinct ks) =
  existsb (fun x => py_eq x k) ks.
Proof.
  induction ks as [| a r IH]; simpl; [reflexivity |].
  destruct (py_eq a k) eqn:Ea; simpl; [reflexivity |].
  rewrite <- IH. clear IH.
  induction (distinct r) as [| x d IHd]; simpl; [reflexivity |].
  destruct (py_eq a x) eqn:Eax; simpl.
  - rewrite IHd. now rewrite (py_eq_false_l _ _ _ Eax Ea).
  - now rewrite IHd.
Qed.

Lemma distinct_apart ks :
  ForallOrdPairs (fun x y => py_eq x y = false) (distinct ks).
Proof.
  induction ks as [| a r IH]; simpl; constructor.
  - apply Forall_forall. intros x Hx.
    apply filter_In in Hx as [_ Hx]. now apply negb_true_iff in Hx.
  - induction IH as [| x d Hx _ IHd]; simpl; [constructor |].
    destruct (negb (py_eq a x)); [| exact IHd].
    constructor; [| exact IHd].
    rewrite Forall_forall in *. intros y Hy.
    apply filter_In in Hy as [Hy _]. now apply Hx.
Qed.

Lemma counter_incr_new k (g : key -> Z) xs :
  existsb (fun x => py_eq x k) xs = false ->
  counter_incr k (map (fun x => (x, g x)) xs) =
  map (fun x => (x, g x)) xs ++ [(k, 1)].
Proof.
  induction xs as [| a r IH]; simpl; [reflexivity |].
  intros H. apply orb_false_iff in H as [-> H]. now rewrite IH.
Qed.

Lemma counter_incr_old k (g : key -> Z) xs :
  ForallOrdPairs (fun x y => py_eq x y = false) xs ->
  existsb (fun x => py_eq x k) xs = true ->
  counter_incr k (map (fun x => (x, g x)) xs) =
  map (fun x => (x, g x + (if py_eq x k then 1 else 0))) xs.
Proof.
  induction 1 as [| a r Ha _ IH]; simpl; [discriminate |].
  destruct (py_eq a k) eqn:Ea; simpl.
  - intros _. f_equal. apply map_ext_in. intros x Hx.
    rewrite Forall_forall in Ha.
    assert (E : py_eq x k = false).
    { destruct (py_eq x k) eqn:Ex; auto.
      rewrite py_eq_sym in Ex.
      specialize (Ha x Hx). now rewrite (py_eq_trans _ _ _ Ea Ex) in Ha. }
    rewrite E. f_equal. lia.
  - intros H. rewrite IH by exact H. f_equal. f_equal. lia.
Qed.

(** The counter built by the loop holds the distinct keys in order of
    first occurrence, each with its number of occurrences. *)
Lemma counter_contents ks :
  fold_left (fun c k => counter_incr k c) ks [] =
  map (fun k => (k, occurrences k ks)) (distinct ks).
Proof.
  induction ks as [| k ks IH] using rev_ind; [reflexivity |].
  rewrite fold_left_app. simpl. rewrite IH, distinct_snoc.
  destruct (existsb (fun x => py_eq x k) ks) eqn:E.
  - rewrite counter_incr_old.
    + apply map_ext. intros x. now rewrite occurrences_snoc, (py_eq_sym k x).
    + apply distinct_apart.
    + now rewrite existsb_distinct.
  - rewrite counter_incr_new by now rewrite existsb_distinct.
    rewrite map_app. simpl. f_equal.
    + apply map_ext_in. intros x Hx. rewrite occurrences_snoc.
      assert (Ex : py_eq x k = false).
      { rewrite <- existsb_distinct in E.
        destruct (py_eq x k) eqn:Ex; auto.
        assert (existsb (fun y => py_eq y k) (distinct ks) = true)
          by (apply existsb_exists; eauto).
        congruence. }
      rewrite py_eq_sym, Ex. f_equal. lia.
    + rewrite occurrences_snoc, py_eq_refl, occurrences_none by exact E.
      reflexivity.
Qed.

Lemma filter_map_comm {A B : Type} (f : A -> B) (p : B -> bool) l :
  filter p (map f l) = map f (filter (fun x => p (f x)) l).
Proof.
  induction l as [| x r IH]; simpl; [reflexivity |].
  destruct (p (f x)); simpl; now rewrite IH.
Qed.

Lemma counter_incr_total k c :
  zsum (counter_values (counter_incr k c)) = zsum (counter_values c) + 1.
Proof.
  unfold counter_values.
  induction c as [| [k' n] r IH]; simpl; [reflexivity |].
  destruct (py_eq k' k); simpl; rewrite !zsum_cons; simpl; [lia |].
  rewrite IH. lia.
Qed.

Lemma counter_incr_positive k c :
  Forall (fun n => 1 <= n) (counter_values c) ->
  Forall (fun n => 1 <= n) (counter_values (counter_incr k c)).
Proof.
  unfold counter_values.
  induction c as [| [k' n] r IH]; simpl; intros H.
  - repeat constructor. lia.
  - inversion H; subst. destruct (py_eq k' k); simpl; constructor; auto.
    simpl in *. lia.
Qed.

Lemma count_actions_invariant actions :
  zsum (counter_values (count_actions actions)) =
    Z.of_nat (List.length actions) /\
  Forall (fun n => 1 <= n) (counter_values (count_actions actions)).
Proof.
  unfold count_actions.
  induction actions as [| a r IH] using rev_ind; simpl.
  - split; [reflexivity | constructor].
  - rewrite fold_left_app. simpl. destruct IH as [IHs IHp].
    rewrite counter_incr_total, IHs, length_app. simpl. split; [lia |].
    now apply counter_incr_positive.
Qed.

Lemma extra_occurrences vs :
  Forall (fun n => 1 <= n) vs ->
  zsum (map (fun count => count - 1) (filter (fun count => 1 <? count) vs)) =
  zsum vs - Z.of_nat (List.length vs).
Proof.
  induction 1 as [| n r Hn _ IH]; [reflexivity |].
  simpl filter. simpl List.length. rewrite zsum_cons.
  destruct (Z.ltb_spec 1 n); simpl map; rewrite ?zsum_cons, IH; lia.
Qed.

(** C3: the repetition counter returns the length of the sequence, the
    number of distinct canonical keys, the number of keys occurring more
    than once and the sum of (occurrences - 1) over these; on the
    sequence [{"a":1,"b":2}, {"b":2,"a":1}] it returns 2, 1, 1, 1. *)
Theorem repetition_counter_counts (actions : list json) :
  let ks := map make_hashable actions in
  let r := count_repetitions actions in
  total_actions r = Z.of_nat (List.length actions) /\
  unique_actions r = Z.of_nat (List.length (distinct ks)) /\
  num_repeated_actions r = Z.of_nat (List.length (repeated ks)) /\
  total_repetitions r =
    zsum (map (fun k => occurrences k ks - 1) (repeated ks)) /\
  count_repetitions
    [JDict [("a", JInt 1); ("b", JInt 2)];
     JDict [("b", JInt 2); ("a", JInt 1)]] = mk_counts 2 1 1 1.
Proof.
  intros ks r. subst r. unfold count_repetitions, counter_values. simpl.
  rewrite count_actions_keys. fold ks. rewrite counter_contents.
  rewrite !map_map. simpl. rewrite length_map.
  rewrite (filter_map_comm (fun k => occurrences k ks)
             (fun count => 1 <? count)).
  rewrite !map_map, zsum_ones. unfold repeated. auto.
Qed.

End Counting.

(** ** Error handling of the line and file loops *)

Section ErrorHandling.
Import Py Run.

(** C7, as the code has it: count_episodes.py, repeated_actions.py and
    find_short_losses.py catch a malformed line, report it with its line
    number and file, leave the state as it was and go on with the next
    line; summary.py does the same but reports the file only;
    check_all_early_terminations.py reports the line number only, and so
    does analyze_jsonl.py, for the first five such lines of a file;
    investigate_end_condition.py does not catch the error, which ends the
    loop and the run. *)
Theorem malformed_line_handling
  (py_str : json -> string) (filepath msg : string) (n limit : Z)
  (rest : list (Z * line)) (rest' : list line) (out : list output) :
  let e := JSONDecodeError msg in
  let with_line_and_file :=
    Printed "Error parsing line {line_num} in {filepath}: {e}"
          [AInt n; AStr filepath; AExn e] in
  (forall s,
     for_each ((n, Malformed msg) :: rest)
       (CountEpisodes.process_line py_str filepath) (s, out) =
     for_each rest (CountEpisodes.process_line py_str filepath)
       (s, out ++ [with_line_and_file])) /\
  (forall s,
     for_each ((n, Malformed msg) :: rest)
       (RepeatedActions.process_line filepath) (s, out) =
     for_each rest (RepeatedActions.process_line filepath)
       (s, out ++ [with_line_and_file])) /\
  (forall s,
     for_each ((n, Malformed msg) :: rest)
       (FindShortLosses.process_line limit filepath) (s, out) =
     for_each rest (FindShortLosses.process_line limit filepath)
       (s, out ++ [with_line_and_file])) /\
  (forall s,
     for_each (Malformed msg :: rest')
       (Summary.process_line limit filepath) (s, out) =
     for_each rest' (Summary.process_line limit filepath)
       (s, out ++ [Printed "Error parsing line in {filepath}: {e}"
                         [AStr filepath; AExn e]])) /\
  (forall s,
     for_each ((n, Malformed msg) :: rest)
       (CheckEarlyTerminations.process_line limit filepath) (s, out) =
     for_each rest (CheckEarlyTerminations.process_line limit filepath)
       (s, out ++ [Printed "Error parsing line {line_num}: {e}"
                         [AInt n; AExn e]])) /\
  (forall s,
     (limit <=? AnalyzeJsonl.line_count s) = false ->
     AnalyzeJsonl.read_lines limit ((n, Malformed msg) :: rest) (s, out) =
     AnalyzeJsonl.read_lines limit rest
       (AnalyzeJsonl.mk_state (AnalyzeJsonl.file_structure s)
          (AnalyzeJsonl.line_count s) (AnalyzeJsonl.error_count s + 1)
          (AnalyzeJsonl.sample_records s),
        if AnalyzeJsonl.error_count s + 1 <=? 5
        then out ++ [Printed "Error on line {line_num}: {e}" [AInt n; AExn e]]
        else out)) /\
  (forall s,
     for_each (Malformed msg :: rest') InvestigateEndCondition.read_line
       (s, out) = ((s, out), Raise e)).
Proof.
  intros e m. repeat split; intros s; try reflexivity.
  intros Hmax. simpl. unfold bind, get, AnalyzeJsonl.try_json. simpl.
  rewrite Hmax. simpl. unfold bind, modify, get. simpl.
  destruct (AnalyzeJsonl.error_count s + 1 <=? 5); reflexivity.
Qed.

(** C7 fails as stated: in investigate_end_condition.py a malformed line
    ends the run with the exception; the lines after it are not read and
    nothing is reported. *)
Lemma investigate_malformed_line_fatal :
  run (InvestigateEndCondition.read_episodes
         (fun _ => Some (mk_file 0 [Parsed (JDict []);
                                    Malformed "Expecting value";
                                    Parsed (JDict [])]))
         "episodes.jsonl") [] =
  (([JDict []], []), Raise (JSONDecodeError "Expecting value")).
Proof. reflexivity. Qed.

(** C9, as the code has it: count_episodes.py reports a missing file as
    a warning and goes on with the next path; analyze_jsonl.py reports
    it as an error and goes on with the next path; summary.py,
    repeated_actions.py, find_short_losses.py and
    check_all_early_terminations.py open the path without a check, so the
    function ends there with FileNotFoundError and the paths after it are
    not read. *)
Theorem missing_file_handling
  (py_str : json -> string) (fs : filesystem) (filepath : string)
  (rest : list string) (limit : Z) (out : list output)
  (Hmissing : fs filepath = None) :
  (forall s,
     CountEpisodes.analyze_jsonl_files py_str fs (filepath :: rest) (s, out) =
     CountEpisodes.analyze_jsonl_files py_str fs rest
       (s, out ++ [Printed "Warning: File not found: {filepath}"
                         [AStr filepath]])) /\
  (forall s,
     Summary.analyze_episodes fs (filepath :: rest) limit (s, out) =
     ((s, out), Raise (FileNotFoundError filepath))) /\
  (forall s,
     RepeatedActions.analyze_repeated_actions fs (filepath :: rest) (s, out) =
     ((s, out), Raise (FileNotFoundError filepath))) /\
  (forall s,
     FindShortLosses.find_short_losses fs (filepath :: rest) limit (s, out) =
     ((s, out), Raise (FileNotFoundError filepath))) /\
  (forall s,
     CheckEarlyTerminations.check_early_terminations fs (filepath :: rest)
       limit (s, out) =
     ((s,
       out ++ [Printed "\nAnalyzing: {filepath}" [AStr filepath];
               Printed "================================================================================" []]),
      Raise (FileNotFoundError filepath))) /\
  (forall s,
     AnalyzeJsonl.main fs (filepath :: rest) limit (s, out) =
     AnalyzeJsonl.main fs rest limit
       (AnalyzeJsonl.empty_state,
        out ++ [Printed "\n{'='*80}" [];
                Printed "Analyzing: {filepath}" [AStr filepath];
                Printed "{'='*80}\n" [];
                Printed "Error analyzing {filepath}: {e}"
                      [AStr filepath; AExn (FileNotFoundError filepath)]])).
Proof.
  repeat split; intros s.
  - unfold CountEpisodes.analyze_jsonl_files. simpl.
    unfold CountEpisodes.process_file at 1. rewrite Hmissing. reflexivity.
  - unfold Summary.analyze_episodes. simpl. unfold bind, open.
    rewrite Hmissing. reflexivity.
  - unfold RepeatedActions.analyze_repeated_actions. simpl. unfold bind, open.
    rewrite Hmissing. reflexivity.
  - unfold FindShortLosses.find_short_losses. simpl. unfold bind, open.
    rewrite Hmissing. reflexivity.
  - unfold CheckEarlyTerminations.check_early_terminations,
      CheckEarlyTerminations.read_files. simpl.
    unfold bind, open, print. simpl. rewrite Hmissing. simpl.
    now rewrite <- app_assoc.
  - unfold AnalyzeJsonl.main. simpl.
    unfold bind at 1. unfold try_except, AnalyzeJsonl.analyze_jsonl_file.
    unfold bind, open, print, modify. simpl. rewrite Hmissing. simpl.
    now rewrite <- !app_assoc.
Qed.

Lemma missing_file_handling_witness :
  Summary.analyze_episodes (fun _ => None) ["missing.jsonl"; "b.jsonl"] 100
    (Summary.empty_state, []) =
  ((Summary.empty_state, []), Raise (FileNotFoundError "missing.jsonl")).
Proof.
  exact (proj1 (proj2 (missing_file_handling
                         (fun _ => "None") (fun _ => None) "missing.jsonl"
                         ["b.jsonl"] 100 [] eq_refl)) Summary.empty_state).
Defined.

(** C9 fails as stated: summary.py given a missing file and an existing
    one raises FileNotFoundError at the first, prints no warning, and
    never reads the second. *)
Lemma summary_missing_file_fatal :
  run (Summary.analyze_episodes
         (fun p => if String.eqb p "b.jsonl"
                   then Some (mk_file 0 [Parsed (JDict [])])
                   else None)
         ["a.jsonl"; "b.jsonl"] 100) Summary.empty_state =
  ((Summary.empty_state, []), Raise (FileNotFoundError "a.jsonl")).
Proof. reflexivity. Qed.

End ErrorHandling.

(** ** Classifying an episode *)

Section Classification.
Import Py Run.

Lemma py_index_last (init : list json) (x : json) :
  py_index (JList (init ++ [x])) (-1) = Ok x.
Proof.
  unfold py_index. rewrite length_app. simpl List.length.
  replace (-1 <? 0) with true by reflexivity.
  set (n := List.length init).
  replace (-1 + Z.of_nat (n + 1)) with (Z.of_nat n) by lia.
  replace (0 <=? Z.of_nat n) with true by (symmetry; apply Z.leb_le; lia).
  replace (Z.of_nat n <? Z.of_nat (n + 1)) with true
    by (symmetry; apply Z.ltb_lt; lia).
  simpl. rewrite Nat2Z.id. subst n.
  rewrite nth_error_app2 by apply Nat.le_refl.
  now rewrite Nat.sub_diag.
Qed.

Lemma py_truthy_nonempty (init : list json) (x : json) :
  py_truthy (JList (init ++ [x])) = true.
Proof.
  simpl. rewrite length_app, Nat.add_comm. reflexivity.
Qed.

End Classification.

(** ** Episodes without actions *)

Section EmptyActions.
Import Py Run.

(** C5, as the code has it: summary.py, repeated_actions.py,
    find_short_losses.py and check_all_early_terminations.py skip an
    episode whose action list is empty: the line changes neither the
    state nor the output.  count_episodes.py does not skip it: the line
    is counted as an episode, with zero actions, and is labelled from its
    rewards alone. *)
Theorem empty_actions_episode
  (py_str : json -> string) (e t : list (string * json))
  (filepath : string) (n limit : Z)
  (Htraj : dict_get "trajectory" e = Some (JDict t))
  (Hact : dict_get "actions" t = Some (JList [])) :
  let l := Parsed (JDict e) in
  let rewards :=
    match dict_get "rewards" t with Some v => v | None => JList [] end in
  (forall w, Summary.process_line limit filepath l w = (w, Ok tt)) /\
  (forall w, RepeatedActions.process_line filepath (n, l) w = (w, Ok tt)) /\
  (forall w,
     FindShortLosses.process_line limit filepath (n, l) w = (w, Ok tt)) /\
  (forall w,
     CheckEarlyTerminations.process_line limit filepath (n, l) w
     = (w, Ok tt)) /\
  (forall s out,
     CountEpisodes.total_episodes
       (fst (fst (CountEpisodes.process_line py_str filepath (n, l) (s, out))))
     = CountEpisodes.total_episodes s + 1) /\
  (forall st,
     CountEpisodes.analyze_episode py_str (JDict e) = Ok st ->
     CountEpisodes.num_actions st = 0 /\
     CountEpisodes.classify rewards
     = Ok (CountEpisodes.outcome st, CountEpisodes.final_reward st)).
Proof.
  intros l rewards. subst l. repeat split.
  - intros w. unfold Summary.process_line, try_except, Summary.try_body,
      bind, lift. simpl. rewrite Htraj. simpl. rewrite Hact. reflexivity.
  - intros w. unfold RepeatedActions.process_line, try_except,
      RepeatedActions.try_body, bind, lift. simpl. rewrite Htraj. simpl.
    rewrite Hact. reflexivity.
  - intros w. unfold FindShortLosses.process_line, try_except,
      FindShortLosses.try_body, bind, lift. simpl. rewrite Htraj. simpl.
    rewrite Hact. reflexivity.
  - intros w. unfold CheckEarlyTerminations.process_line, try_except,
      CheckEarlyTerminations.try_body, bind, lift. simpl. rewrite Htraj.
    simpl. rewrite Hact. reflexivity.
  - intros s out. unfold CountEpisodes.process_line, try_except,
      CountEpisodes.try_body, CountEpisodes.handler, bind, lift, modify,
      print, ret. simpl.
    destruct (CountEpisodes.analyze_episode py_str (JDict e)) as [st |];
      simpl; [| reflexivity || (destruct e0; reflexivity)].
    destruct (py_hashable (CountEpisodes.agent_name st)); simpl;
      [| destruct e0; reflexivity].
    destruct (py_hashable (CountEpisodes.agent_role st)); simpl;
      [| destruct e0; reflexivity].
    destruct (py_truthy (CountEpisodes.final_action st)); simpl;
      [| reflexivity].
    destruct (py_hashable (CountEpisodes.final_action st)); simpl;
      [reflexivity | destruct e0; reflexivity].
  - revert H. unfold CountEpisodes.analyze_episode, rbind. simpl.
    rewrite Htraj. simpl. rewrite Hact. simpl.
    repeat match goal with
           | |- context [match ?x with Ok _ => _ | Raise _ => _ end] =>
               destruct x; try discriminate
           end.
    intros [= <-]. reflexivity.
  - revert H. subst rewards.
    unfold CountEpisodes.analyze_episode, rbind. simpl.
    rewrite Htraj. simpl. rewrite Hact. simpl.
    repeat match goal with
           | |- context [match ?x with Ok _ => _ | Raise _ => _ end] =>
               destruct x; try discriminate
           end.
    intros [= <-]. simpl. now rewrite <- surjective_pairing.
Qed.

Lemma empty_actions_episode_witness :
  Summary.process_line 100 "episodes.jsonl"
    (Parsed (JDict [("trajectory",
                     JDict [("actions", JList []); ("rewards", JList [])])]))
    (Summary.empty_state, [])
  = ((Summary.empty_state, []), Ok tt).
Proof.
  exact (proj1 (empty_actions_episode
                  (fun _ => "None")
                  [("trajectory",
                    JDict [("actions", JList []); ("rewards", JList [])])]
                  [("actions", JList []); ("rewards", JList [])]
                  "episodes.jsonl" 1 100 eq_refl eq_refl)
               (Summary.empty_state, [])).
Defined.

(** C5 fails as stated: count_episodes.py counts both episodes of this
    file, neither of which has an action: the one without rewards under
    'no_action', the one with the single reward 0 under 'loss'. *)
Lemma count_episodes_keeps_empty_actions :
  let s :=
    fst (fst (run
      (CountEpisodes.analyze_jsonl_files (fun _ => "None")
         (fun _ => Some (mk_file 0
            [Parsed (JDict [("trajectory",
               JDict [("actions", JList []); ("rewards", JList [])])]);
             Parsed (JDict [("trajectory",
               JDict [("actions", JList []); ("rewards", JList [JInt 0])])])]))
         ["episodes.jsonl"])
      CountEpisodes.empty_state)) in
  CountEpisodes.total_episodes s = 2 /\
  CountEpisodes.by_outcome s = [(PStr "no_action", 1); (PStr "loss", 1)] /\
  map (fun d => CountEpisodes.outcome (CountEpisodes.stats d))
      (CountEpisodes.episode_details s) = ["no_action"; "loss"].
Proof. repeat split; reflexivity. Qed.

(** C8 fails on count_episodes.py: the line {"trajectory": null} parses,
    is counted in the file's and the total episode counts, and then
    fails in analyze_episode; the error is reported and the counts stay
    incremented, with no episode recorded. *)
Theorem count_episodes_failed_line_counted :
  run (CountEpisodes.analyze_jsonl_files (fun _ => "None")
         (fun _ => Some (mk_file 21 [Parsed (JDict [("trajectory", JNone)])]))
         ["episodes.jsonl"])
      CountEpisodes.empty_state
  = ((CountEpisodes.mk_state 1
        [("episodes.jsonl", CountEpisodes.mk_file_stats 1 0 0 (NInt 0) 21)]
        [] [] [] [] [] []
        (CountEpisodes.mk_file_stats 1 0 0 (NInt 0) 21),
      [Printed "Error processing line {line_num} in {filepath}: {e}"
             [AInt 1; AStr "episodes.jsonl"; AExn AttributeError]]),
     Ok tt).
Proof. reflexivity. Qed.

End EmptyActions.

(** ** Invariants of the results *)

Section LoopInvariants.
Import Py Run.

Lemma for_each_invariant {S A : Type} (P : S * list output -> Prop)
  (body : A -> M S unit) (l : list A) :
  (forall x w, P w -> P (fst (body x w))) ->
  forall w, P w -> P (fst (for_each l body w)).
Proof.
  intros Hbody. induction l as [| x rest IH]; intros w Hw; simpl; auto.
  unfold bind. specialize (Hbody x w Hw).
  destruct (body x w) as [w' [[] | e]]; simpl in *; auto.
Qed.

Lemma try_except_invariant {S : Type} (P : S * list output -> Prop)
  (body : M S unit) (handler : exn -> M S unit) :
  (forall w, P w -> P (fst (body w))) ->
  (forall e w, P w -> P (fst (handler e w))) ->
  forall w, P w -> P (fst (try_except body handler w)).
Proof.
  intros Hbody Hhandler w Hw. unfold try_except.
  specialize (Hbody w Hw). destruct (body w) as [w' [[] | e]]; simpl in *; auto.
Qed.

Lemma open_invariant {S A : Type} (P : S * list output -> Prop)
  (fs : filesystem) (filepath : string) (k : text_file -> M S A) :
  (forall f w, P w -> P (fst (k f w))) ->
  forall w, P w -> P (fst (bind (open fs filepath) k w)).
Proof.
  intros Hk w Hw. unfold bind, open.
  destruct (fs filepath) as [f |]; simpl; auto.
Qed.

End LoopInvariants.

Section RepetitionInvariant.
Import Py Run RepeatedActions Spec.

Lemma count_repetitions_consistent items :
  total_repetitions (count_repetitions items)
  = total_actions (count_repetitions items)
    - unique_actions (count_repetitions items).
Proof.
  unfold count_repetitions. simpl.
  destruct (count_actions_invariant items) as [Hsum Hpos].
  rewrite extra_occurrences by exact Hpos.
  rewrite Hsum. unfold counter_values. now rewrite length_map.
Qed.

Lemma try_body_details filepath n l w :
  Forall counts_consistent (episode_details (fst w)) ->
  Forall counts_consistent
    (episode_details (fst (fst (try_body filepath n l w)))).
Proof.
  intros H. unfold try_body, bind, lift, ret, modify.
  repeat match goal with
         | |- context [match ?x with Ok _ => _ | Raise _ => _ end] =>
             destruct x; simpl; auto
         | |- context [if ?c then _ else _] => destruct c; simpl; auto
         end;
    apply Forall_app; (split; [exact H |]);
    repeat constructor; apply count_repetitions_consistent.
Qed.

Lemma process_line_details filepath nl w :
  Forall counts_consistent (episode_details (fst w)) ->
  Forall counts_consistent
    (episode_details (fst (fst (process_line filepath nl w)))).
Proof.
  unfold process_line. destruct (snd nl); auto;
    apply (try_except_invariant
             (fun w => Forall counts_consistent (episode_details (fst w))));
    auto using try_body_details; intros e w' Hw'; destruct e; exact Hw'.
Qed.

Lemma analyze_repeated_actions_details fs filepaths w :
  Forall counts_consistent (episode_details (fst w)) ->
  Forall counts_consistent
    (episode_details (fst (fst (analyze_repeated_actions fs filepaths w)))).
Proof.
  unfold analyze_repeated_actions.
  apply (for_each_invariant
           (fun w => Forall counts_consistent (episode_details (fst w)))).
  intros filepath.
  apply (open_invariant
           (fun w => Forall counts_consistent (episode_details (fst w)))).
  intros f.
  apply (for_each_invariant
           (fun w => Forall counts_consistent (episode_details (fst w)))).
  intros nl. apply process_line_details.
Qed.

End RepetitionInvariant.

Section LossInvariant.
Import Py Run Summary Spec.

Lemma nth_error_update_nth_other r f l x :
  x <> r -> nth_error (update_nth r f l) x = nth_error l x.
Proof.
  revert r x. induction l as [| d rest IH]; intros [| r] [| x] Hne;
    simpl; auto; try congruence.
Qed.

Lemma nth_error_update_nth_same r f l d :
  nth_error l r = Some d -> nth_error (update_nth r f l) r = Some (f d).
Proof.
  revert r. induction l as [| d' rest IH]; intros [| r]; simpl;
    try discriminate; auto.
  now intros [= ->].
Qed.

Lemma nth_error_new (l : list episode_data) d :
  nth_error (l ++ [d]) (List.length l) = Some d.
Proof.
  rewrite nth_error_app2 by apply Nat.le_refl. now rewrite Nat.sub_diag.
Qed.

Lemma nth_error_old (l : list episode_data) d0 x d :
  nth_error l x = Some d -> nth_error (l ++ [d0]) x = Some d.
Proof.
  intros H. rewrite nth_error_app1; auto.
  apply nth_error_Some. congruence.
Qed.

Lemma nth_error_old_updated (l : list episode_data) d0 f x d :
  nth_error l x = Some d ->
  nth_error (update_nth (List.length l) f (l ++ [d0])) x = Some d.
Proof.
  intros H. rewrite nth_error_update_nth_other.
  - now apply nth_error_old.
  - assert (x < List.length l)%nat by (apply nth_error_Some; congruence).
    lia.
Qed.

Lemma loss_refs_bounded limit s x :
  losses_partitioned limit s ->
  In x (loss_episodes s) \/ In x (loss_step_limit s) \/
  In x (loss_invalid_actions s) ->
  (x < List.length (objects s))%nat.
Proof.
  intros [Hc [Hsub _]] Hin.
  assert (Hl : In x (loss_episodes s)) by (destruct Hin; auto).
  destruct (Hc x Hl) as [d [Hd _]]. apply nth_error_Some. congruence.
Qed.

Lemma loss_step_preserves limit s s' :
  losses_partitioned limit s -> loss_step limit s s' ->
  losses_partitioned limit s'.
Proof.
  intros Hinv [Hobj Hstep].
  pose proof (loss_refs_bounded limit s) as Hb.
  destruct Hinv as [Hc [Hsub Hlen]].
  assert (Hold : forall x, In x (loss_episodes s) ->
            exists d, nth_error (objects s') x = Some d /\
                      outcome d = Some "loss" /\
                      ((loss_type d = Some "step_limit" /\
                        limit <= num_actions d /\
                        In x (loss_step_limit s) /\
                        ~ In x (loss_invalid_actions s)) \/
                       (loss_type d = Some "invalid_actions" /\
                        num_actions d < limit /\
                        In x (loss_invalid_actions s) /\
                        ~ In x (loss_step_limit s)))).
  { intros x Hx. destruct (Hc x Hx) as [d [Hd Hrest]]. exists d. auto. }
  assert (Hfresh : forall x,
            In x (loss_episodes s) \/ In x (loss_step_limit s) \/
            In x (loss_invalid_actions s) -> x <> List.length (objects s)).
  { intros x Hx. specialize (Hb x (conj Hc (conj Hsub Hlen)) Hx). lia. }
  destruct Hstep as [[El [Es Ei]] | [d [Hd [Ho [El Hcase]]]]].
  - unfold losses_partitioned, classified_loss. rewrite El, Es, Ei.
    repeat split; auto.
  - set (r := List.length (objects s)) in *.
    destruct Hcase as [[Ht [Hn [Es Ei]]] | [Ht [Hn [Ei Es]]]];
      unfold losses_partitioned, classified_loss; rewrite El, Es, Ei;
      repeat split.
    + intros x Hx. apply in_app_or in Hx as [Hx | [<- | []]].
      * destruct (Hold x Hx) as [d' [Hd' [Ho' Hc']]]. exists d'.
        repeat split; auto.
        destruct Hc' as [[? [? [? ?]]] | [? [? [? ?]]]]; [left | right];
          repeat split; auto using in_or_app.
        intros Hin. apply in_app_or in Hin as [Hin | [<- | []]]; auto.
        now apply (Hfresh r); auto.
      * exists d. repeat split; auto. left. repeat split; auto.
        -- apply in_or_app. right. now left.
        -- intros Hin. now apply (Hfresh r); auto.
    + intros x [Hx | Hx].
      * apply in_app_or in Hx as [Hx | [<- | []]]; apply in_or_app; auto.
        right. now left.
      * apply in_or_app. auto.
    + rewrite !length_app. simpl. lia.
    + intros x Hx. apply in_app_or in Hx as [Hx | [<- | []]].
      * destruct (Hold x Hx) as [d' [Hd' [Ho' Hc']]]. exists d'.
        repeat split; auto.
        destruct Hc' as [[? [? [? ?]]] | [? [? [? ?]]]]; [left | right];
          repeat split; auto using in_or_app.
        intros Hin. apply in_app_or in Hin as [Hin | [<- | []]]; auto.
        now apply (Hfresh r); auto.
      * exists d. repeat split; auto. right. repeat split; auto.
        -- apply in_or_app. right. now left.
        -- intros Hin. now apply (Hfresh r); auto.
    + intros x [Hx | Hx].
      * apply in_or_app. auto.
      * apply in_app_or in Hx as [Hx | [<- | []]]; apply in_or_app; auto.
        right. now left.
    + rewrite !length_app. simpl. lia.
Qed.

End LossInvariant.

Section LossClassification.
Import Py Run Summary Spec.

Lemma try_body_loss_step limit l s out :
  loss_step limit s (fst (fst (try_body limit l (s, out)))).
Proof.
  unfold try_body, bind, lift, ret, new_object, update_object,
    append_win_episodes, append_loss_episodes, append_loss_step_limit,
    append_loss_invalid_actions, append_all_episodes, modify.
  repeat match goal with
         | |- context [match ?x with Ok _ => _ | Raise _ => _ end] =>
             destruct x eqn:?; simpl
         | |- context [if ?c then _ else _] => destruct c eqn:?; simpl
         end.
  all: split;
    [ intros x d Hd; simpl;
      assert (x <> List.length (objects s))
        by (assert (x < List.length (objects s))%nat
              by (apply nth_error_Some; congruence); lia);
      repeat rewrite nth_error_update_nth_other by assumption;
      solve [assumption | now apply nth_error_old]
    | first
        [ left; repeat split; reflexivity
        | right; eexists; simpl; split;
          [ apply nth_error_update_nth_same, nth_error_update_nth_same,
              nth_error_new
          | split; [reflexivity |]; split; [reflexivity |];
            first
              [ left; repeat split; try reflexivity; simpl;
                apply Z.leb_le; assumption
              | right; repeat split; try reflexivity; simpl;
                apply Z.leb_gt; assumption ] ] ] ].
Qed.

Lemma process_line_partitioned limit filepath l w :
  losses_partitioned limit (fst w) ->
  losses_partitioned limit (fst (fst (process_line limit filepath l w))).
Proof.
  intros H. unfold process_line.
  destruct l; auto;
    apply (try_except_invariant
             (fun w => losses_partitioned limit (fst w))); auto;
    try (intros e w' Hw'; destruct e; exact Hw');
    intros [s out] Hs; eapply loss_step_preserves;
      [exact Hs | apply try_body_loss_step].
Qed.

Lemma analyze_episodes_partitioned fs filepaths limit w :
  losses_partitioned limit (fst w) ->
  losses_partitioned limit
    (fst (fst (analyze_episodes fs filepaths limit w))).
Proof.
  unfold analyze_episodes.
  apply (for_each_invariant (fun w => losses_partitioned limit (fst w))).
  intros filepath.
  apply (open_invariant (fun w => losses_partitioned limit (fst w))).
  intros f.
  apply (for_each_invariant (fun w => losses_partitioned limit (fst w))).
  intros l. apply process_line_partitioned.
Qed.

(** C10: every episode recorded by repeated_actions.py has
    total_repetitions = total_actions - unique_actions; every loss
    recorded by summary.py carries exactly one of the loss types
    'step_limit' (its number of actions is at least the threshold) and
    'invalid_actions' (otherwise) and is in the list of that type only,
    so that the two lists partition the losses. *)
Theorem repetition_and_loss_invariants
  (fs : filesystem) (filepaths : list string) (limit : Z) :
  let r :=
    fst (fst (run (RepeatedActions.analyze_repeated_actions fs filepaths)
                  RepeatedActions.empty_results)) in
  let s :=
    fst (fst (run (analyze_episodes fs filepaths limit) empty_state)) in
  (forall info,
     In info (RepeatedActions.episode_details r) ->
     RepeatedActions.total_repetitions (RepeatedActions.counts info)
     = RepeatedActions.total_actions (RepeatedActions.counts info)
       - RepeatedActions.unique_actions (RepeatedActions.counts info)) /\
  (forall x, In x (loss_episodes s) -> classified_loss limit s x) /\
  (forall x, In x (loss_step_limit s) \/ In x (loss_invalid_actions s) ->
             In x (loss_episodes s)) /\
  List.length (loss_episodes s)
  = (List.length (loss_step_limit s)
     + List.length (loss_invalid_actions s))%nat.
Proof.
  intros r s. split.
  - intros info Hin.
    assert (H : Forall counts_consistent (RepeatedActions.episode_details r)).
    { subst r. unfold run.
      apply analyze_repeated_actions_details. constructor. }
    rewrite Forall_forall in H. exact (H info Hin).
  - subst s. unfold run.
    apply (analyze_episodes_partitioned fs filepaths limit (empty_state, [])).
    unfold losses_partitioned. simpl. repeat split; tauto.
Qed.

End LossClassification.

(** ** A line that fails *)

Section FailingLine.
Import Py Run.

(** In repeated_actions.py every statement that can raise comes before
    the first append: a line whose processing raises leaves the results
    and the output as they were, and the handler then reports it. *)
Lemma repeated_actions_failed_line filepath n l w e :
  snd (RepeatedActions.try_body filepath n l w) = Raise e ->
  fst (RepeatedActions.try_body filepath n l w) = w.
Proof.
  unfold RepeatedActions.try_body, bind, lift, ret, modify.
  repeat match goal with
         | |- context [match ?x with Ok _ => _ | Raise _ => _ end] =>
             destruct x; simpl; auto
         | |- context [if ?c then _ else _] => destruct c; simpl; auto
         end; discriminate.
Qed.

(** X4: A non-empty line of repeated_actions.py whose processing raises
    leaves every list of the results as it was and adds one line to the
    output, the report of the exception with the line number and the
    path; the loop then goes on. *)
Lemma repeated_actions_failed_line_reported filepath n l s out e :
  l <> Blank ->
  snd (RepeatedActions.try_body filepath n l (s, out)) = Raise e ->
  exists report,
    RepeatedActions.process_line filepath (n, l) (s, out)
    = ((s, out ++ [report]), Ok tt) /\
    args report = [AInt n; AStr filepath; AExn e].
Proof.
  intros Hl H. pose proof (repeated_actions_failed_line _ _ _ _ _ H) as Hw.
  unfold RepeatedActions.process_line, try_except.
  destruct l as [| msg | v]; [congruence | |]; simpl.
  - simpl in H. injection H as <-. eexists. split; reflexivity.
  - destruct (RepeatedActions.try_body filepath n (Parsed v) (s, out))
      as [w' r].
    simpl in *. subst. destruct e; simpl; eexists; split; reflexivity.
Qed.

(** X8: A line of summary.py whose processing raises leaves the five
    lists as they were: nothing is recorded for it. *)
Lemma summary_failed_line limit l s out e :
  snd (Summary.try_body limit l (s, out)) = Raise e ->
  let s' := fst (fst (Summary.try_body limit l (s, out))) in
  Summary.all_episodes s' = Summary.all_episodes s /\
  Summary.win_episodes s' = Summary.win_episodes s /\
  Summary.loss_episodes s' = Summary.loss_episodes s /\
  Summary.loss_step_limit s' = Summary.loss_step_limit s /\
  Summary.loss_invalid_actions s' = Summary.loss_invalid_actions s.
Proof.
  unfold Summary.try_body, bind, lift, ret, Summary.new_object,
    Summary.update_object, Summary.append_win_episodes,
    Summary.append_loss_episodes, Summary.append_loss_step_limit,
    Summary.append_loss_invalid_actions, Summary.append_all_episodes, modify.
  repeat match goal with
         | |- context [match ?x with Ok _ => _ | Raise _ => _ end] =>
             destruct x; simpl; auto
         | |- context [if ?c then _ else _] => destruct c; simpl; auto
         end; try discriminate; intros _; repeat split; reflexivity.
Qed.

(** When a line of repeated_actions.py holds a non-empty list of actions
    and its outcome can be computed, the episode recorded for it carries
    the counts of [count_repetitions] on these actions. *)
Lemma repeated_actions_records_counts
  filepath n (e t : list (string * json)) a actions win s out :
  dict_get "trajectory" e = Some (JDict t) ->
  dict_get "actions" t = Some (JList (a :: actions)) ->
  RepeatedActions.win_expression
    (match dict_get "rewards" t with Some v => v | None => JList [] end)
  = Ok win ->
  exists info,
    RepeatedActions.episode_details
      (fst (fst (RepeatedActions.process_line filepath (n, Parsed (JDict e))
                   (s, out))))
    = RepeatedActions.episode_details s ++ [info] /\
    RepeatedActions.counts info
    = RepeatedActions.count_repetitions (a :: actions) /\
    RepeatedActions.is_win info = win.
Proof.
  intros Htraj Hact Hwin.
  unfold RepeatedActions.process_line, try_except,
    RepeatedActions.try_body, bind, lift, ret, modify. simpl.
  rewrite Htraj. simpl. rewrite Hact. simpl. rewrite Hwin. simpl.
  destruct (py_truthy win); simpl; eexists; repeat split; reflexivity.
Qed.

End FailingLine.

(** ** From the classification to the results *)

Section Outcomes.
Import Py Run.

(** count_episodes.py: the outcome and the final reward of an analysed
    episode are those of [classify] on its rewards. *)
Lemma count_episodes_outcome py_str (e : list (string * json)) st :
  CountEpisodes.analyze_episode py_str (JDict e) = Ok st ->
  exists trajectory rewards,
    py_get (JDict e) "trajectory" (JDict []) = Ok trajectory /\
    py_get trajectory "rewards" (JList []) = Ok rewards /\
    CountEpisodes.classify rewards
    = Ok (CountEpisodes.outcome st, CountEpisodes.final_reward st).
Proof.
  unfold CountEpisodes.analyze_episode, rbind.
  repeat match goal with
         | |- context [match ?x with Ok _ => _ | Raise _ => _ end] =>
             destruct x eqn:?; try discriminate
         end.
  intros [= <-]. simpl. do 2 eexists. repeat split; eauto.
  now rewrite <- surjective_pairing.
Qed.

(** summary.py: a line that is processed to its end adds one object,
    whose outcome is 'win' exactly when [is_win] holds of its rewards,
    to the list of all episodes and to the list of its outcome. *)
Lemma summary_outcome_recorded limit filepath
  (e t : list (string * json)) a actions rewards s out :
  dict_get "trajectory" e = Some (JDict t) ->
  dict_get "actions" t = Some (JList (a :: actions)) ->
  dict_get "rewards" t = Some rewards ->
  snd (Summary.try_body limit (Parsed (JDict e)) (s, out)) = Ok tt ->
  let s' :=
    fst (fst (Summary.process_line limit filepath (Parsed (JDict e))
                (s, out))) in
  let r := List.length (Summary.objects s) in
  exists win d,
    Summary.is_win rewards = Ok win /\
    nth_error (Summary.objects s') r = Some d /\
    Summary.outcome d = Some (if win then "win" else "loss") /\
    Summary.all_episodes s' = Summary.all_episodes s ++ [r] /\
    Summary.win_episodes s'
    = Summary.win_episodes s ++ (if win then [r] else []) /\
    Summary.loss_episodes s'
    = Summary.loss_episodes s ++ (if win then [] else [r]).
Proof.
  intros Htraj Hact Hrew.
  unfold Summary.process_line, try_except.
  unfold Summary.try_body, bind, lift, ret, Summary.new_object,
    Summary.update_object, Summary.append_win_episodes,
    Summary.append_loss_episodes, Summary.append_loss_step_limit,
    Summary.append_loss_invalid_actions, Summary.append_all_episodes, modify.
  simpl. rewrite Htraj. simpl. rewrite Hact, Hrew. simpl.
  repeat match goal with
         | |- context [match ?x with Ok _ => _ | Raise _ => _ end] =>
             destruct x eqn:?; simpl; try discriminate
         | |- context [if ?c then _ else _] => destruct c eqn:?; simpl;
             try discriminate
         end;
    intros _; do 2 eexists;
    (split; [reflexivity |]);
    (split; [ first [ apply nth_error_update_nth_same, nth_error_new
                    | apply nth_error_update_nth_same,
                        nth_error_update_nth_same, nth_error_new ] |]);
    repeat split; simpl; rewrite ?app_nil_r; reflexivity.
Qed.

End Outcomes.

(** ** Sample runs *)

Section SampleRuns.
Import Py Run.

(** {"b": 2, "a": [1, {"y": null}]} has the canonical key
    (("a", (1, (("y", None),))), ("b", 2)). *)
Example make_hashable_nested :
  RepeatedActions.make_hashable
    (JDict [("b", JInt 2); ("a", JList [JInt 1; JDict [("y", JNone)]])])
  = KTuple [KTuple [KPrim (PStr "a");
                    KTuple [KPrim (PInt 1);
                            KTuple [KTuple [KPrim (PStr "y"); KPrim PNone]]]];
            KTuple [KPrim (PStr "b"); KPrim (PInt 2)]].
Proof. reflexivity. Qed.

(** True, 1 and 1.0 are one key, as they are one dict key in Python. *)
Example numbers_share_a_key :
  RepeatedActions.count_actions [JBool true; JInt 1; JFloat 1; JStr "1"]
  = [(KPrim (PBool true), 3); (KPrim (PStr "1"), 1)].
Proof. reflexivity. Qed.

Example summary_sample_run :
  let s := fst (fst (run (Summary.analyze_episodes
                            (fun _ => Some Samples.sample_file) ["a.jsonl"] 2)
                         Summary.empty_state)) in
  Summary.all_episodes s = [0%nat; 1%nat] /\
  Summary.win_episodes s = [0%nat] /\
  Summary.loss_episodes s = [1%nat] /\
  Summary.loss_step_limit s = [1%nat] /\
  Summary.loss_invalid_actions s = [] /\
  map Summary.outcome (Summary.objects s) = [Some "win"; Some "loss"].
Proof. repeat split; reflexivity. Qed.

Example repeated_actions_sample_run :
  let r := fst (fst (run (RepeatedActions.analyze_repeated_actions
                            (fun _ => Some Samples.sample_file) ["a.jsonl"])
                         RepeatedActions.empty_results)) in
  map RepeatedActions.counts (RepeatedActions.episode_details r)
  = [RepeatedActions.mk_counts 3 2 1 1; RepeatedActions.mk_counts 2 2 0 0] /\
  RepeatedActions.win_episodes r = [1] /\
  RepeatedActions.loss_episodes r = [0].
Proof. repeat split; reflexivity. Qed.

Example count_episodes_sample_run :
  let s := fst (fst (run (CountEpisodes.analyze_jsonl_files
                            (fun _ => "None") (fun _ => Some Samples.sample_file)
                            ["a.jsonl"])
                         CountEpisodes.empty_state)) in
  CountEpisodes.total_episodes s = 3 /\
  CountEpisodes.by_outcome s
  = [(PStr "win", 1); (PStr "loss", 1); (PStr "no_action", 1)].
Proof. repeat split; reflexivity. Qed.

End SampleRuns.

(** * Further properties of the scripts *)

(** ** Canonical keys and repetition counts *)

Section KeysAndCounts.
Import Py Run RepeatedActions Spec.

(** X1: The canonical keys of two lists are equal exactly when the lists
    have the same length and equal canonical keys position by position:
    the order of the elements counts, and exchanging two neighbours with
    different keys changes the key of the list. *)
Theorem make_hashable_list_order (l1 l2 : list json) (x y : json) :
  (py_eq (make_hashable (JList l1)) (make_hashable (JList l2)) = true <->
   Forall2 (fun a b => py_eq (make_hashable a) (make_hashable b) = true)
           l1 l2) /\
  (py_eq (make_hashable x) (make_hashable y) = false ->
   py_eq (make_hashable (JList (x :: y :: l1)))
         (make_hashable (JList (y :: x :: l1))) = false).
Proof.
  split.
  - simpl make_hashable. rewrite py_eq_tuple, tuple_eq_Forall2.
    revert l2. induction l1 as [| a r IH]; intros [| b r2]; simpl;
      split; intros H; inversion H; subst; constructor; auto;
      now apply IH.
  - intros H. simpl. now rewrite H.
Qed.

Lemma py_len_iter obj n items :
  py_len obj = Ok n -> py_iter obj = Ok items ->
  n = Z.of_nat (List.length items).
Proof.
  destruct obj as [[| b | z | q | s] | l | d]; simpl; try discriminate.
  - intros [= <-] [= <-]. f_equal.
    induction s as [| c s IH]; simpl; auto.
  - now intros [= <-] [= <-].
  - intros [= <-] [= <-]. now rewrite length_map.
Qed.

Lemma counter_incr_nonempty k c : counter_incr k c <> [].
Proof.
  destruct c as [| [k' n] c']; simpl; [discriminate |].
  destruct (py_eq k' k); discriminate.
Qed.

Lemma count_actions_nonempty a items : count_actions (a :: items) <> [].
Proof.
  unfold count_actions. simpl.
  assert (H : forall l c, c <> [] ->
            fold_left (fun c action =>
                         counter_incr (action_to_hashable action) c) l c
            <> []).
  { induction l as [| b r IH]; intros c Hc; simpl; auto.
    apply IH, counter_incr_nonempty. }
  apply H. discriminate.
Qed.

Lemma repeated_values_bounds vs :
  Forall (fun n => 1 <= n) vs ->
  0 <= zsum (map (fun _ : Z => 1) (filter (fun c => 1 <? c) vs))
    <= zsum (map (fun c => c - 1) (filter (fun c => 1 <? c) vs)) /\
  zsum (map (fun _ : Z => 1) (filter (fun c => 1 <? c) vs))
    <= Z.of_nat (List.length vs).
Proof.
  induction 1 as [| n r Hn _ IH]; simpl; [unfold zsum; simpl; lia |].
  destruct (Z.ltb_spec 1 n); simpl; rewrite ?zsum_cons; lia.
Qed.

(** X2: For a non-empty sequence of actions: there is at least one distinct
    action and no more than there are actions; the number of repeated
    actions is at most the number of distinct ones and at most the total
    of repetitions, which is less than the number of actions and is zero
    exactly when every action is distinct. *)
Theorem repetition_counts_bounds (a : json) (items : list json) :
  let c := count_repetitions (a :: items) in
  1 <= unique_actions c <= total_actions c /\
  0 <= num_repeated_actions c <= total_repetitions c /\
  num_repeated_actions c <= unique_actions c /\
  total_repetitions c <= total_actions c - 1 /\
  (total_repetitions c = 0 <-> unique_actions c = total_actions c).
Proof.
  intros c.
  pose proof (count_repetitions_consistent (a :: items)) as Hc. fold c in Hc.
  destruct (count_actions_invariant (a :: items)) as [Hsum Hpos].
  destruct (repeated_values_bounds _ Hpos) as [Hrep Hle].
  assert (Hu : 1 <= unique_actions c).
  { subst c. unfold count_repetitions. simpl unique_actions.
    pose proof (count_actions_nonempty a items).
    destruct (count_actions (a :: items)); [congruence |].
    simpl List.length. lia. }
  assert (Hr : num_repeated_actions c
               = zsum (map (fun _ : Z => 1)
                         (filter (fun n => 1 <? n)
                            (counter_values (count_actions (a :: items))))))
    by reflexivity.
  assert (Ht : total_repetitions c
               = zsum (map (fun n => n - 1)
                         (filter (fun n => 1 <? n)
                            (counter_values (count_actions (a :: items))))))
    by reflexivity.
  assert (Hn : unique_actions c
               = Z.of_nat (List.length
                             (counter_values (count_actions (a :: items))))).
  { subst c. unfold count_repetitions, counter_values. simpl.
    now rewrite length_map. }
  rewrite Hr, Ht, Hn in *. rewrite <- Ht in *. lia.
Qed.

End KeysAndCounts.

(** ** The lists of repeated_actions.py *)

Section RepeatedActionsLists.
Import Py Run RepeatedActions Invariants.

Lemma try_body_aligned filepath n l s out :
  aligned s -> aligned (fst (fst (try_body filepath n l (s, out)))).
Proof.
  intros H. unfold try_body, bind, lift, ret, modify.
  destruct (json_loads l) as [episode |]; simpl; auto.
  destruct (py_get episode "trajectory" (JDict [])) as [trajectory |];
    simpl; auto.
  destruct (py_get trajectory "actions" (JList [])) as [actions |];
    simpl; auto.
  destruct (py_get trajectory "rewards" (JList [])) as [rewards |];
    simpl; auto.
  destruct (py_len actions) as [len |] eqn:Hlen; simpl; auto.
  destruct (Z.eqb_spec len 0) as [| Hne]; simpl; auto.
  destruct (py_iter actions) as [items |] eqn:Hiter; simpl; auto.
  destruct (win_expression rewards) as [win |]; simpl; auto.
  assert (Htotal : 1 <= Z.of_nat (List.length items))
    by (pose proof (py_len_iter _ _ _ Hlen Hiter); lia).
  assert (Hpos : (0 <? Z.of_nat (List.length items)) = true)
    by (apply Z.ltb_lt; lia).
  simpl total_actions. rewrite Hpos.
  destruct H as (H1 & H2 & H3 & H4 & H5 & H6 & H7 & H8 & H9 & H10).
  destruct (py_truthy win) eqn:Hwin; simpl; unfold aligned; simpl;
    rewrite !filter_app, !map_app; simpl; rewrite Hwin; simpl;
    rewrite ?map_app, ?app_nil_r; simpl;
    rewrite H1, H2, H3, H4, H5, H6, H7, H8, H9;
    repeat split; try reflexivity;
    apply Forall_app; split; auto; repeat constructor; simpl; lia.
Qed.

Lemma process_line_aligned filepath nl w :
  aligned (fst w) -> aligned (fst (fst (process_line filepath nl w))).
Proof.
  unfold process_line. destruct (snd nl); auto;
    apply (try_except_invariant (fun w => aligned (fst w)));
    try (intros e w' Hw'; destruct e; exact Hw');
    intros [s out]; apply try_body_aligned.
Qed.

(** X3: Whatever the files hold, the lists returned by
    analyze_repeated_actions agree with its episode details: the three
    overall lists have one entry per recorded episode, in order, the win
    lists the entries of the episodes whose is_win is true and the loss
    lists those of the others, so that wins and losses add up to all
    episodes; every recorded episode has at least one action. *)
Theorem repeated_actions_lists_aligned
  (fs : filesystem) (filepaths : list string) :
  let r := fst (fst (run (analyze_repeated_actions fs filepaths)
                         empty_results)) in
  aligned r /\
  List.length (all_episodes r) = List.length (episode_details r) /\
  (List.length (win_episodes r) + List.length (loss_episodes r))%nat
  = List.length (all_episodes r).
Proof.
  intros r.
  assert (H : aligned r).
  { subst r. unfold run, analyze_repeated_actions.
    apply (for_each_invariant (fun w => aligned (fst w))).
    - intros filepath.
      apply (open_invariant (fun w => aligned (fst w))). intros f.
      apply (for_each_invariant (fun w => aligned (fst w))).
      intros nl. apply process_line_aligned.
    - unfold aligned. simpl. repeat split; constructor. }
  split; [exact H |].
  destruct H as (H1 & _ & _ & H4 & _ & _ & H7 & _).
  rewrite H1, H4, H7, !length_map. split; [reflexivity |].
  apply (filter_length (fun i => py_truthy (is_win i))).
Qed.

End RepeatedActionsLists.

(** ** Wins and losses of summary.py *)

Section SummaryOutcomes.
Import Py Run Summary SummaryInvariants.

Lemma py_len_nonneg obj n : py_len obj = Ok n -> 0 <= n.
Proof.
  destruct obj as [[| b | z | q | s] | l | d]; simpl; try discriminate;
    intros [= <-]; lia.
Qed.

Lemma recorded_bounded o s x :
  recorded o s x -> (x < List.length (objects s))%nat.
Proof. intros [d [Hd _]]. apply nth_error_Some. congruence. Qed.

Lemma recorded_stable o s s' x :
  (forall x d, nth_error (objects s) x = Some d ->
               nth_error (objects s') x = Some d) ->
  recorded o s x -> recorded o s' x.
Proof. intros H [d [Hd Hrest]]. exists d. auto. Qed.

Lemma outcome_step_preserves s s' :
  outcomes_partitioned s -> outcome_step s s' -> outcomes_partitioned s'.
Proof.
  intros (Hnd & Hall & Hwin & Hloss & Hlen) [Hobj Hstep].
  assert (Hfresh : forall x, In x (all_episodes s) ->
                             x <> List.length (objects s)).
  { intros x Hx. apply Hall in Hx as [Hx | Hx];
      [apply Hwin in Hx | apply Hloss in Hx];
      destruct Hx as [Hx _]; apply recorded_bounded in Hx; lia. }
  assert (Hwin' : forall x, In x (win_episodes s) -> recorded "win" s' x).
  { intros x Hx. apply Hwin in Hx as [Hx _]. eauto using recorded_stable. }
  assert (Hloss' : forall x, In x (loss_episodes s) -> recorded "loss" s' x).
  { intros x Hx. apply Hloss in Hx as [Hx _]. eauto using recorded_stable. }
  destruct Hstep as [(Ea & Ew & El) | [d (Hd & Hn & Ea & Hcase)]].
  - unfold outcomes_partitioned. rewrite Ea, Ew, El.
    split; [exact Hnd |]. split; [exact Hall |].
    split; [| split; [| exact Hlen]].
    + intros x Hx. split; [auto | now apply Hwin].
    + intros x Hx. split; [auto | now apply Hloss].
  - set (r := List.length (objects s)) in *.
    assert (Hr : ~ In r (all_episodes s))
      by (intros Hin; now apply (Hfresh r)).
    assert (Hrw : ~ In r (win_episodes s))
      by (intros Hin; apply Hr, Hall; auto).
    assert (Hrl : ~ In r (loss_episodes s))
      by (intros Hin; apply Hr, Hall; auto).
    assert (Hnd' : NoDup (all_episodes s ++ [r])).
    { apply NoDup_app; repeat split; auto.
      - repeat constructor. intros [].
      - intros x Hx [<- | []]. contradiction. }
    destruct Hcase as [(Ho & Ew & El) | (Ho & El & Ew)];
      unfold outcomes_partitioned; rewrite Ea, Ew, El;
      (split; [exact Hnd' |]); (split; [| split; [| split]]).
    + intros x. rewrite !in_app_iff, Hall. simpl. tauto.
    + intros x Hx. apply in_app_or in Hx as [Hx | [<- | []]].
      * split; [auto | now apply Hwin].
      * split; [exists d; auto | exact Hrl].
    + intros x Hx. split; [auto |].
      intros Hin. apply in_app_or in Hin as [Hin | [<- | []]]; auto.
      now apply (Hloss x).
    + rewrite !length_app. simpl. lia.
    + intros x. rewrite !in_app_iff, Hall. simpl. tauto.
    + intros x Hx. split; [auto |].
      intros Hin. apply in_app_or in Hin as [Hin | [<- | []]]; auto.
      now apply (Hwin x).
    + intros x Hx. apply in_app_or in Hx as [Hx | [<- | []]].
      * split; [auto | now apply Hloss].
      * split; [exists d; auto | exact Hrw].
    + rewrite !length_app. simpl. lia.
Qed.

Lemma try_body_outcome_step limit l s out :
  outcome_step s (fst (fst (try_body limit l (s, out)))).
Proof.
  unfold try_body, bind, lift, ret, new_object, update_object,
    append_win_episodes, append_loss_episodes, append_loss_step_limit,
    append_loss_invalid_actions, append_all_episodes, modify.
  repeat match goal with
         | |- context [match ?x with Ok _ => _ | Raise _ => _ end] =>
             destruct x eqn:?; simpl
         | |- context [if ?c then _ else _] => destruct c eqn:?; simpl
         end.
  all: split;
    [ intros x d Hd; simpl;
      assert (x <> List.length (objects s))
        by (assert (x < List.length (objects s))%nat
              by (apply nth_error_Some; congruence); lia);
      repeat rewrite nth_error_update_nth_other by assumption;
      solve [assumption | now apply nth_error_old]
    | first
        [ left; repeat split; reflexivity
        | right; eexists; simpl; split;
          [ first [ apply nth_error_update_nth_same,
                      nth_error_update_nth_same, nth_error_new
                  | apply nth_error_update_nth_same, nth_error_new ]
          | split;
            [ simpl;
              match goal with
              | H : py_len _ = Ok ?n, E : (?n =? 0) = false |- _ =>
                  apply py_len_nonneg in H; apply Z.eqb_neq in E; lia
              end
            | split; [reflexivity |];
              first [ left; repeat split; reflexivity
                    | right; repeat split; reflexivity ] ] ] ] ].
Qed.

(** X7: Whatever the files hold, the lists returned by analyze_episodes
    split the recorded episodes by outcome: every episode in the list of
    all episodes is there once and is in exactly one of the win and loss
    lists, whose object carries that outcome and at least one action; so
    wins and losses add up to the number of episodes. *)
Theorem summary_outcomes_partitioned
  (fs : filesystem) (filepaths : list string) (limit : Z) :
  outcomes_partitioned
    (fst (fst (run (analyze_episodes fs filepaths limit) empty_state))).
Proof.
  unfold run, analyze_episodes.
  apply (for_each_invariant (fun w => outcomes_partitioned (fst w))).
  - intros filepath.
    apply (open_invariant (fun w => outcomes_partitioned (fst w))).
    intros f.
    apply (for_each_invariant (fun w => outcomes_partitioned (fst w))).
    intros l w Hw. unfold process_line.
    destruct l; auto;
      apply (try_except_invariant
               (fun w => outcomes_partitioned (fst w))); auto;
      try (intros e w' Hw'; destruct e; exact Hw');
      intros [s out] Hs; eapply outcome_step_preserves;
        [exact Hs | apply try_body_outcome_step].
  - unfold outcomes_partitioned. simpl.
    repeat split; try constructor; try tauto; intros [].
Qed.

End SummaryOutcomes.

(** ** Which exceptions leave the analysis functions *)

Section Escapes.
Import Py Run.

Lemma for_each_ok {S A : Type} (body : A -> M S unit) (l : list A) :
  (forall x w, snd (body x w) = Ok tt) ->
  forall w, snd (for_each l body w) = Ok tt.
Proof.
  intros H. induction l as [| x rest IH]; intros w; simpl; auto.
  unfold bind. specialize (H x w).
  destruct (body x w) as [w' r]. simpl in H. subst. apply IH.
Qed.

Lemma try_except_ok {S : Type} (body : M S unit) (handler : exn -> M S unit) :
  (forall e w, snd (handler e w) = Ok tt) ->
  forall w, snd (try_except body handler w) = Ok tt.
Proof.
  intros H w. unfold try_except.
  destruct (body w) as [w' [[] | e]]; simpl; auto.
Qed.






Lemma insert_by_actions_perm x l :
  Permutation (CheckEarlyTerminations.insert_by_actions x l) (x :: l).
Proof.
  induction l as [| y r IH]; simpl; [reflexivity |].
  destruct (_ <? _); [reflexivity |].
  rewrite IH. apply perm_swap.
Qed.

Lemma sort_by_actions_perm l :
  Permutation (CheckEarlyTerminations.sort_by_actions l) l.
Proof.
  unfold CheckEarlyTerminations.sort_by_actions.
  enough (H : forall acc,
             Permutation
               (fold_left
                  (fun acc x => CheckEarlyTerminations.insert_by_actions x acc)
                  l acc)
               (acc ++ l)) by apply (H []).
  induction l as [| x r IH]; intros acc; simpl.
  - now rewrite app_nil_r.
  - rewrite IH, insert_by_actions_perm. apply Permutation_middle.
Qed.





End Escapes.

(** ** The counters of count_episodes.py *)

Section CountEpisodesCounters.
Import Py Run CountEpisodes CountInvariants.

Lemma dd_incr_tally k d : tally (dd_incr k d) = tally d + 1.
Proof.
  unfold tally. induction d as [| [k' n] r IH]; simpl; [reflexivity |].
  destruct (prim_eq k' k); simpl; rewrite !zsum_cons; simpl; lia.
Qed.

Lemma dd_incr_keys (P : prim -> Prop) k d :
  P k -> Forall (fun kv => P (fst kv)) d ->
  Forall (fun kv => P (fst kv)) (dd_incr k d).
Proof.
  intros Hk. induction d as [| [k' n] r IH]; simpl; intros H.
  - repeat constructor. exact Hk.
  - inversion H as [| ? ? Hx Hr]; subst.
    destruct (prim_eq k' k); constructor; auto.
Qed.

Lemma classify_outcomes rewards o f :
  classify rewards = Ok (o, f) ->
  In (PStr o) [PStr "win"; PStr "loss"; PStr "no_action"].
Proof.
  unfold classify, rbind. destruct (py_truthy rewards).
  - destruct (py_index rewards (-1)); try discriminate.
    destruct (py_ge a 50) as [[] |]; try discriminate;
      intros [= <- _]; simpl; auto.
  - intros [= <- _]. simpl. auto.
Qed.

Lemma analyze_episode_outcomes py_str ep st :
  analyze_episode py_str ep = Ok st ->
  In (PStr (outcome st)) [PStr "win"; PStr "loss"; PStr "no_action"].
Proof.
  unfold analyze_episode, rbind.
  repeat match goal with
         | |- context [match ?x with Ok _ => _ | Raise _ => _ end] =>
             destruct x eqn:?; try discriminate
         end.
  intros [= <-]. simpl.
  match goal with
  | H : classify _ = Ok ?v |- _ =>
      destruct v as [o f]; exact (classify_outcomes _ _ _ H)
  end.
Qed.

Lemma try_body_counters py_str filepath n l s out :
  counters_ordered s ->
  counters_ordered (fst (fst (try_body py_str filepath n l (s, out)))).
Proof.
  intros (H1 & H2 & H3 & H4 & H5 & H6 & H7).
  unfold try_body, bind, lift, ret, modify.
  destruct (json_loads l) as [ep |]; simpl;
    [| unfold counters_ordered; auto 10].
  destruct (analyze_episode py_str ep) as [e |] eqn:He; simpl;
    [| unfold counters_ordered; simpl; repeat split; auto; lia].
  pose proof (analyze_episode_outcomes _ _ _ He) as Ho.
  destruct (py_hashable (agent_name e)); simpl;
    [| unfold counters_ordered; simpl; repeat split; auto; lia].
  destruct (py_hashable (agent_role e)); simpl;
    [| unfold counters_ordered; simpl; rewrite ?dd_incr_tally;
       repeat split; auto; lia].
  destruct (py_truthy (final_action e)); simpl.
  - destruct (py_hashable (final_action e)); simpl;
      unfold counters_ordered; simpl; rewrite ?dd_incr_tally, ?length_app;
      simpl; repeat split; auto using dd_incr_keys; try lia;
      now apply (dd_incr_keys
                   (fun k => In k [PStr "win"; PStr "loss"; PStr "no_action"])).
  - unfold counters_ordered; simpl; rewrite ?dd_incr_tally, ?length_app;
      simpl; repeat split; auto using dd_incr_keys; try lia;
      now apply (dd_incr_keys
                   (fun k => In k [PStr "win"; PStr "loss"; PStr "no_action"])).
Qed.

Lemma process_line_counters py_str filepath nl w :
  counters_ordered (fst w) ->
  counters_ordered (fst (fst (process_line py_str filepath nl w))).
Proof.
  unfold process_line. destruct (snd nl); auto;
    apply (try_except_invariant (fun w => counters_ordered (fst w)));
    try (intros e w' Hw'; destruct e; exact Hw');
    intros [s out]; apply try_body_counters.
Qed.

(** X11: Whatever the files hold, the counters returned by
    analyze_jsonl_files are ordered as the loop body updates them: the
    episode details are no more than the outcome count, which equals the
    end-reason count and is at most the role count, which is at most the
    agent count, which is at most the total of episodes; the final-action
    count is at most the outcome count; and the outcomes counted are
    'win', 'loss' and 'no_action' only. *)
Theorem count_episodes_counters_ordered
  (py_str : json -> string) (fs : filesystem) (filepaths : list string) :
  counters_ordered
    (fst (fst (run (analyze_jsonl_files py_str fs filepaths) empty_state))).
Proof.
  unfold run, analyze_jsonl_files.
  apply (for_each_invariant (fun w => counters_ordered (fst w))).
  - intros p w Hw. unfold process_file.
    destruct (fs p) as [f |]; [| exact Hw].
    unfold bind at 1. simpl. unfold bind at 1.
    set (w0 := (set_current _ (fst w), snd w)).
    assert (H0 : counters_ordered (fst w0)) by exact Hw.
    pose proof (for_each_invariant (fun w => counters_ordered (fst w))
                  (process_line py_str p) (enumerate 1 (lines f))
                  (fun nl w => process_line_counters py_str p nl w)
                  w0 H0) as H.
    destruct (for_each (enumerate 1 (lines f)) (process_line py_str p) w0)
      as [w1 [[] | e]]; simpl in *; exact H.
  - unfold counters_ordered, tally, RepeatedActions.zsum. simpl.
    repeat split; try lia. constructor.
Qed.

End CountEpisodesCounters.

(** ** The file entries of count_episodes.py *)

Section CountEpisodesFiles.
Import Py Run CountEpisodes CountInvariants.

Lemma process_line_ok py_str p nl w :
  snd (process_line py_str p nl w) = Ok tt.
Proof.
  unfold process_line. destruct (snd nl); auto; apply try_except_ok;
    intros e w'; destruct e; reflexivity.
Qed.

Lemma process_line_counts py_str p n l s out :
  let s' := fst (fst (process_line py_str p (n, l) (s, out))) in
  let counted := parsed_lines (mk_file 0 [l]) in
  total_episodes s' = total_episodes s + counted /\
  episodes (current s') = episodes (current s) + counted /\
  size_bytes (current s') = size_bytes (current s) /\
  files s' = files s.
Proof.
  unfold process_line, try_except, try_body, handler, bind, lift, ret,
    modify, print, parsed_lines.
  destruct l as [| msg | v]; simpl; [repeat split; lia.. |].
  repeat match goal with
         | |- context [match ?x with Ok _ => _ | Raise _ => _ end] =>
             destruct x; simpl
         | |- context [if ?c then _ else _] => destruct c; simpl
         | |- context [match ?e with AttributeError => _ | _ => _ end] =>
             destruct e; simpl
         end; repeat split; lia.
Qed.

Lemma lines_counts py_str p (ls : list line) : forall start s out,
  let s' := fst (fst (for_each (enumerate start ls)
                        (process_line py_str p) (s, out))) in
  total_episodes s' = total_episodes s + parsed_lines (mk_file 0 ls) /\
  episodes (current s') = episodes (current s) + parsed_lines (mk_file 0 ls) /\
  size_bytes (current s') = size_bytes (current s) /\
  files s' = files s.
Proof.
  induction ls as [| l rest IH]; intros start s out; simpl.
  - unfold parsed_lines. simpl. repeat split; lia.
  - unfold bind.
    pose proof (process_line_counts py_str p start l s out) as H.
    pose proof (process_line_ok py_str p (start, l) (s, out)) as Hok.
    destruct (process_line py_str p (start, l) (s, out)) as [[s1 out1] r].
    simpl in H, Hok. subst r. destruct H as (H1 & H2 & H3 & H4).
    specialize (IH (start + 1) s1 out1). simpl in IH.
    destruct IH as (I1 & I2 & I3 & I4).
    rewrite I1, I2, I3, I4, H1, H2, H3, H4.
    unfold parsed_lines in *. simpl.
    destruct l; simpl; repeat split; lia.
Qed.

(** X12: For a path that names a file, the entry stored in results['files']
    has as its number of episodes the number of lines of the file that
    json.loads accepts, and the file's size; the total of episodes grows
    by the same number. *)
Theorem count_episodes_file_entry
  (py_str : json -> string) (fs : filesystem) (p : string) (f : text_file)
  (s : state) (out : list output) (Hf : fs p = Some f) :
  let s' := fst (fst (process_file py_str fs p (s, out))) in
  total_episodes s' = total_episodes s + parsed_lines f /\
  exists entry,
    files s' = dict_set p entry (files s) /\
    episodes entry = parsed_lines f /\
    size_bytes entry = st_size f.
Proof.
  unfold process_file. rewrite Hf.
  unfold bind, get, modify. simpl.
  match goal with
  | |- context [for_each _ _ (?s0, out)] =>
      pose proof (lines_counts py_str p (lines f) 1 s0 out) as H;
      pose proof (for_each_ok (process_line py_str p)
                    (enumerate 1 (lines f))
                    (process_line_ok py_str p) (s0, out)) as Hok
  end.
  destruct (for_each (enumerate 1 (lines f)) (process_line py_str p) _)
    as [[s1 out1] r].
  simpl in H, Hok. subst r. destruct H as (H1 & H2 & H3 & H4). simpl.
  assert (E : parsed_lines (mk_file 0 (lines f)) = parsed_lines f)
    by reflexivity.
  rewrite E in *. split; [exact H1 |].
  exists (current s1). rewrite H4. repeat split.
  - rewrite H2. lia.
  - exact H3.
Qed.

Lemma count_episodes_file_entry_witness :
  let s' :=
    fst (fst (process_file (fun _ => "None")
                (fun _ => Some Samples.sample_file) "a.jsonl"
                (empty_state, []))) in
  total_episodes s' = total_episodes empty_state
                      + parsed_lines Samples.sample_file /\
  exists entry,
    files s' = dict_set "a.jsonl" entry (files empty_state) /\
    episodes entry = parsed_lines Samples.sample_file /\
    size_bytes entry = st_size Samples.sample_file.
Proof.
  exact (count_episodes_file_entry (fun _ => "None")
           (fun _ => Some Samples.sample_file) "a.jsonl" Samples.sample_file
           empty_state [] eq_refl).
Defined.

End CountEpisodesFiles.

(** ** The three lists of check_all_early_terminations.py *)

Section EarlyTerminations.
Import Py Run CheckEarlyTerminations EarlyInvariants.

Lemma try_body_sorted_out limit filepath n l s out :
  sorted_out limit s ->
  sorted_out limit (fst (fst (try_body limit filepath n l (s, out)))).
Proof.
  intros (Hw & He & Hl).
  unfold try_body, bind, lift, ret, modify.
  repeat match goal with
         | |- context [match ?x with Ok _ => _ | Raise _ => _ end] =>
             destruct x eqn:?; simpl
         | |- context [if ?c then _ else _] => destruct c eqn:?; simpl
         end;
    try (repeat split; assumption);
    unfold sorted_out; simpl; repeat split; auto;
    apply Forall_app; split; auto; repeat constructor; simpl; auto;
    repeat match goal with
           | H : py_len _ = Ok _ |- _ => apply py_len_nonneg in H
           | H : (_ =? 0) = false |- _ => apply Z.eqb_neq in H
           | H : (_ <? _) = true |- _ => apply Z.ltb_lt in H
           | H : (_ <? _) = false |- _ => apply Z.ltb_ge in H
           | H : negb _ && _ = _ |- _ => simpl in H
           end; try lia.
Qed.

Lemma bind_invariant {S A B : Type} (P : S * list output -> Prop)
  (c : M S A) (k : A -> M S B) :
  (forall w, P w -> P (fst (c w))) ->
  (forall a w, P w -> P (fst (k a w))) ->
  forall w, P w -> P (fst (bind c k w)).
Proof.
  intros Hc Hk w Hw. unfold bind. specialize (Hc w Hw).
  destruct (c w) as [w' [a | e]]; simpl in *; auto.
Qed.

Lemma report_sorted_out limit step_threshold w :
  sorted_out limit (fst w) ->
  sorted_out limit (fst (fst (report step_threshold w))).
Proof.
  set (P := fun w : state * list output => sorted_out limit (fst w)).
  change (P w -> P (fst (report step_threshold w))).
  revert w. unfold report.
  repeat (apply (bind_invariant P); [now intros ? ? | intros ?]).
  match goal with
  | |- context [if ?c then _ else _] => destruct c
  end; [| now intros ? ?].
  unfold report_early, print_distribution.
  assert (Hdetails : forall ep w, P w -> P (fst (print_details ep w))).
  { intros ep. unfold print_details.
    repeat (apply (bind_invariant P); [now intros ? ? | intros ?]).
    now intros ? ?. }
  assert (Hsort : forall w, P w ->
            P (fst (modify (fun s => mk_state (sort_by_actions (all_early s))
                                       (all_losses s) (all_wins s)) w))).
  { intros w (Hw & He & Hl). unfold P, sorted_out. simpl.
    repeat split; auto. now rewrite sort_by_actions_perm. }
  repeat first
    [ apply (bind_invariant P); [now intros ? ? | intros ?]
    | apply (bind_invariant P); [exact Hsort | intros ?]
    | apply (bind_invariant P);
      [apply (for_each_invariant P); assumption | intros ?]
    | apply (bind_invariant P);
      [apply (for_each_invariant P); now intros ? ? ? | intros ?] ].
  apply (for_each_invariant P). now intros ? ? ?.
Qed.

(** X14: Whatever the files hold: every episode listed as a win has a final
    reward of at least 50; every episode listed as an early termination
    is not a win and has fewer actions than the threshold; every episode
    listed as a normal loss is not a win and has at least as many actions
    as the threshold; and every listed episode has at least one
    action. *)
Theorem early_terminations_sorted_out
  (fs : filesystem) (filepaths : list string) (step_threshold : Z) :
  sorted_out step_threshold
    (fst (fst (run (check_early_terminations fs filepaths step_threshold)
                   empty_state))).
Proof.
  unfold run, check_early_terminations.
  apply (bind_invariant (fun w => sorted_out step_threshold (fst w)));
    [| intros _ w; apply report_sorted_out
     | unfold sorted_out; simpl; repeat split; constructor ].
  intros w0. unfold read_files.
  apply (for_each_invariant (fun w => sorted_out step_threshold (fst w))).
  intros p w Hw. unfold bind at 1. simpl. unfold bind at 1. simpl.
  apply (open_invariant (fun w => sorted_out step_threshold (fst w)));
    [| exact Hw].
  intros f.
  apply (for_each_invariant (fun w => sorted_out step_threshold (fst w))).
  intros nl w' Hw'. unfold process_line.
  destruct (snd nl); auto;
    apply (try_except_invariant
             (fun w => sorted_out step_threshold (fst w))); auto;
    try (intros e w'' Hw''; destruct e; exact Hw'');
    intros [s out]; apply try_body_sorted_out.
Qed.

End EarlyTerminations.

(** ** The reports of find_short_losses.py *)

Section ShortLosses.
Import Py Run FindShortLosses.

Lemma for_each_extends {S A : Type} (body : A -> M S unit) (l : list A) :
  (forall x w, exists more, snd (fst (body x w)) = snd w ++ more) ->
  forall w, exists more, snd (fst (for_each l body w)) = snd w ++ more.
Proof.
  intros H. induction l as [| x rest IH]; intros w; simpl.
  - exists []. now rewrite app_nil_r.
  - unfold bind. destruct (H x w) as [m1 H1].
    destruct (body x w) as [w1 [[] | e]]; simpl in *.
    + destruct (IH w1) as [m2 H2]. exists (m1 ++ m2).
      now rewrite H2, H1, app_assoc.
    + now exists m1.
Qed.

Lemma print_action_extends rewards ia w :
  exists more, snd (fst (print_action rewards ia w)) = snd w ++ more.
Proof.
  unfold print_action, bind, lift, ret, print.
  repeat match goal with
         | |- context [match ?x with Ok _ => _ | Raise _ => _ end] =>
             destruct x; simpl
         | |- context [if ?c then _ else _] => destruct c; simpl
         end; eexists; try reflexivity; now rewrite app_nil_r.
Qed.

Lemma print_report_head p n episode actions rewards states num final w :
  exists more,
    snd (fst (print_report p n episode actions rewards states num final w))
    = snd w ++ [Printed "\n{'='*80}" [];
                Printed "File: {filepath}" [AStr p];
                Printed "Line: {line_num}" [AInt n];
                Printed "{'='*80}" [];
                Printed "Number of actions: {num_actions}" [AInt num];
                Printed "Final reward: {final_reward}" [AJson final]]
            ++ more.
Proof.
  unfold print_report, bind, lift, ret, print. simpl.
  destruct (py_sum rewards); simpl;
    [| eexists; rewrite <- !app_assoc; simpl; reflexivity].
  destruct (py_get episode "end_reason" JNone); simpl;
    [| eexists; rewrite <- !app_assoc; simpl; reflexivity].
  destruct (py_last_slice actions 5); simpl;
    [| eexists; rewrite <- !app_assoc; simpl; reflexivity].
  destruct (py_len actions); simpl;
    [| eexists; rewrite <- !app_assoc; simpl; reflexivity].
  match goal with
  | |- context [for_each ?l ?b ?w0] =>
      destruct (for_each_extends b l (print_action_extends rewards) w0)
        as [m Hm];
      destruct (for_each l b w0) as [[u o] r]
  end.
  simpl in Hm. subst o.
  destruct r as [[] | err]; simpl;
    [| eexists; rewrite <- !app_assoc; simpl; reflexivity].
  repeat match goal with
         | |- context [match ?x with Ok _ => _ | Raise _ => _ end] =>
             destruct x; simpl
         | |- context [if ?c then _ else _] => destruct c; simpl
         end; eexists; rewrite <- !app_assoc; simpl; reflexivity.
Qed.

Lemma try_body_decides
  (max_steps n : Z) (p : string) (e t : list (string * json))
  (a : json) (rest : list json) (rewards final : json) (loss : bool)
  (w : unit * list output) :
  dict_get "trajectory" e = Some (JDict t) ->
  dict_get "actions" t = Some (JList (a :: rest)) ->
  py_get (JDict t) "rewards" (JList []) = Ok rewards ->
  (if py_truthy rewards then py_index rewards (-1) else Ok JNone)
  = Ok final ->
  is_loss final = Ok loss ->
  try_body max_steps p n (Parsed (JDict e)) w
  = if loss && (Z.of_nat (List.length (a :: rest)) <=? max_steps)
    then print_report p n (JDict e) (JList (a :: rest)) rewards
           (match dict_get "states" t with
            | Some v => v
            | None => JList []
            end)
           (Z.of_nat (List.length (a :: rest))) final w
    else (w, Ok tt).
Proof.
  intros Htraj Hact Hrew Hfinal Hloss.
  unfold try_body, bind, lift, ret. simpl. rewrite Htraj. simpl.
  rewrite Hact. simpl in Hrew. injection Hrew as Hrew. rewrite Hrew. simpl.
  destruct (py_truthy rewards).
  - rewrite Hfinal. simpl. rewrite Hloss. simpl.
    now destruct (loss && _).
  - injection Hfinal as <-. simpl in Hloss. injection Hloss as <-.
    reflexivity.
Qed.

(** X15: For an episode with at least one action whose final reward can be
    compared with 50: the line prints nothing and changes nothing unless
    the episode is a loss of at most max_steps actions; for such a loss
    the output continues with the head of the report, which names the
    file, the line, the number of actions and the final reward. *)
Theorem find_short_losses_reports
  (max_steps n : Z) (p : string) (e t : list (string * json))
  (a : json) (rest : list json) (rewards final : json) (loss : bool)
  (w : unit * list output)
  (Htraj : dict_get "trajectory" e = Some (JDict t))
  (Hact : dict_get "actions" t = Some (JList (a :: rest)))
  (Hrew : py_get (JDict t) "rewards" (JList []) = Ok rewards)
  (Hfinal : (if py_truthy rewards then py_index rewards (-1) else Ok JNone)
            = Ok final)
  (Hloss : is_loss final = Ok loss) :
  let len := Z.of_nat (List.length (a :: rest)) in
  let result := process_line max_steps p (n, Parsed (JDict e)) w in
  (loss && (len <=? max_steps) = false -> result = (w, Ok tt)) /\
  (loss && (len <=? max_steps) = true ->
   exists more,
     snd (fst result)
     = snd w ++ [Printed "\n{'='*80}" [];
                 Printed "File: {filepath}" [AStr p];
                 Printed "Line: {line_num}" [AInt n];
                 Printed "{'='*80}" [];
                 Printed "Number of actions: {num_actions}" [AInt len];
                 Printed "Final reward: {final_reward}" [AJson final]]
             ++ more).
Proof.
  intros len result. subst result len.
  unfold process_line, try_except, try_body.
  set (report := print_report p n).
  unfold bind, lift, ret. simpl. rewrite Htraj. simpl. rewrite Hact.
  simpl in Hrew. injection Hrew as Hrew. rewrite Hrew. simpl.
  destruct (py_truthy rewards).
  - rewrite Hfinal. simpl. rewrite Hloss. simpl.
    split; intros Hshort; simpl in Hshort; rewrite Hshort; [reflexivity |].
    match goal with
    | |- context [print_report p n ?ep ?ac ?rw ?st ?nu ?fi ?w0] =>
        destruct (print_report_head p n ep ac rw st nu fi w0) as [m Hm];
        destruct (print_report p n ep ac rw st nu fi w0) as [[u o] r]
    end.
    simpl in Hm. subst o.
    destruct r as [[] | err]; simpl;
      [ eexists; reflexivity
      | destruct err; simpl; eexists; rewrite <- !app_assoc; simpl;
        reflexivity ].
  - injection Hfinal as <-. simpl in Hloss. injection Hloss as <-.
    simpl. split; [reflexivity | discriminate].
Qed.

Lemma find_short_losses_reports_witness :
  exists more,
    snd (fst (process_line 50 "a.jsonl"
                (3, Parsed (JDict [("trajectory",
                     JDict [("actions",
                             JList [JDict [("action_type", JStr "Scan")]]);
                            ("rewards", JList [JInt (-1)])])]))
                (tt, [])))
    = [] ++ [Printed "\n{'='*80}" [];
             Printed "File: {filepath}" [AStr "a.jsonl"];
             Printed "Line: {line_num}" [AInt 3];
             Printed "{'='*80}" [];
             Printed "Number of actions: {num_actions}" [AInt 1];
             Printed "Final reward: {final_reward}" [AJson (JInt (-1))]]
          ++ more.
Proof.
  exact (proj2 (find_short_losses_reports 50 3 "a.jsonl"
                  [("trajectory",
                    JDict [("actions",
                            JList [JDict [("action_type", JStr "Scan")]]);
                           ("rewards", JList [JInt (-1)])])]
                  [("actions", JList [JDict [("action_type", JStr "Scan")]]);
                   ("rewards", JList [JInt (-1)])]
                  (JDict [("action_type", JStr "Scan")]) []
                  (JList [JInt (-1)]) (JInt (-1)) true (tt, [])
                  eq_refl eq_refl eq_refl eq_refl eq_refl) eq_refl).
Defined.





End ShortLosses.

(** ** analyze_jsonl.py: types, paths and counters *)

Section Schema.
Import Py Run AnalyzeJsonl SchemaInvariants.

(** X19: The type of a list is read off its first five elements: the
    elements after the fifth have no influence on it. *)
Theorem get_type_info_first_five (l : list json) :
  get_type_info (JList l) = get_type_info (JList (firstn 5 l)).
Proof.
  destruct l as [| a1 [| a2 [| a3 [| a4 [| a5 r]]]]]; try reflexivity.
  destruct r; reflexivity.
Qed.

Lemma analyze_structure_dict items path :
  analyze_structure (JDict items) path = fold_left (step path) items [].
Proof. reflexivity. Qed.

Lemma add_string_new x s : In x (add_string x s).
Proof.
  unfold add_string. destruct (existsb (String.eqb x) s) eqn:H.
  - apply existsb_exists in H. destruct H as (y & Hy & Heq).
    apply String.eqb_eq in Heq. now subst.
  - apply in_or_app. right. now left.
Qed.

Lemma add_string_old x y s : In y s -> In y (add_string x s).
Proof.
  unfold add_string. destruct (existsb (String.eqb x) s); auto.
  intros H. apply in_or_app. now left.
Qed.

Lemma structure_add_new p t st : listed p t (structure_add p t st).
Proof.
  induction st as [| [q types] rest IH]; simpl.
  - exists [t]. split; now left.
  - destruct (String.eqb_spec q p) as [-> | Hne].
    + exists (add_string t types). split; [now left | apply add_string_new].
    + destruct IH as (ts & Hin & Ht). exists ts. split; [now right | exact Ht].
Qed.

Lemma structure_add_old p t q u st :
  listed q u st -> listed q u (structure_add p t st).
Proof.
  intros (ts & Hin & Hu).
  induction st as [| [q' types] rest IH]; simpl; [destruct Hin |].
  destruct Hin as [Heq | Hin].
  - injection Heq as -> ->. destruct (String.eqb q p).
    + exists (add_string t ts). split; [now left | now apply add_string_old].
    + exists ts. split; [now left | exact Hu].
  - destruct (IH Hin) as (ts' & Hin' & Hu').
    destruct (String.eqb q' p).
    + exists ts. split; [now right | exact Hu].
    + exists ts'. split; [now right | exact Hu'].
Qed.

Lemma add_types_old p types q u : forall st,
  listed q u st ->
  listed q u (fold_left (fun acc t => structure_add p t acc) types st).
Proof.
  induction types as [| t r IH]; simpl; intros st H; auto.
  apply IH. now apply structure_add_old.
Qed.

Lemma add_types_new p types t : forall st,
  In t types ->
  listed p t (fold_left (fun acc t => structure_add p t acc) types st).
Proof.
  induction types as [| t' r IH]; simpl; intros st H; [destruct H |].
  destruct H as [-> | H].
  - apply add_types_old. apply structure_add_new.
  - now apply IH.
Qed.

Lemma structure_update_old nested q u : forall st,
  listed q u st -> listed q u (structure_update nested st).
Proof.
  unfold structure_update.
  induction nested as [| [p types] r IH]; simpl; intros st H; auto.
  apply IH. now apply add_types_old.
Qed.

Lemma structure_update_new nested q u : forall st,
  listed q u nested -> listed q u (structure_update nested st).
Proof.
  unfold structure_update. intros st (ts & Hin & Hu). revert st.
  induction nested as [| [p types] r IH]; simpl; intros st;
    [destruct Hin |].
  destruct Hin as [Heq | Hin].
  - injection Heq as -> ->.
    apply (structure_update_old r q u). now apply add_types_new.
  - now apply IH.
Qed.

Lemma items3_old path q u : forall l n acc,
  listed q u acc -> listed q u (items3 path n l acc).
Proof.
  induction l as [| item l IH]; intros [| n] acc H; simpl; auto.
  apply IH. destruct (is_dict item); auto.
  now apply structure_update_old.
Qed.

Lemma items3_new path q u inner : forall l n i acc,
  (i < n)%nat ->
  nth_error l i = Some (JDict inner) ->
  listed q u (analyze_structure (JDict inner) path) ->
  listed q u (items3 path n l acc).
Proof.
  induction l as [| item l IH]; intros n i acc Hi Hnth H.
  - destruct i; discriminate.
  - destruct n as [| n]; [lia |]. destruct i as [| i]; simpl in *.
    + injection Hnth as ->. simpl. apply items3_old.
      now apply structure_update_new.
    + apply (IH n i); auto. lia.
Qed.

Lemma step_old path q u st kv :
  listed q u st -> listed q u (step path st kv).
Proof.
  intros H. unfold step.
  pose proof (structure_add_old (extend path (fst kv))
                (get_type_info (snd kv)) q u st H) as H1.
  destruct (snd kv) as [p | [| first rest] | d]; auto.
  - destruct (is_dict first); auto. now apply items3_old.
  - now apply structure_update_old.
Qed.

Lemma step_new path st kv :
  listed (extend path (fst kv)) (get_type_info (snd kv)) (step path st kv).
Proof.
  unfold step.
  pose proof (structure_add_new (extend path (fst kv))
                (get_type_info (snd kv)) st) as H1.
  destruct (snd kv) as [p | [| first rest] | d]; auto.
  - destruct (is_dict first); auto. now apply items3_old.
  - now apply structure_update_old.
Qed.

Lemma fold_step_old path q u items : forall st,
  listed q u st -> listed q u (fold_left (step path) items st).
Proof.
  induction items as [| kv r IH]; simpl; intros st H; auto.
  apply IH. now apply step_old.
Qed.

Lemma fold_step_in path q u items kv : forall st,
  In kv items ->
  (forall st', listed q u (step path st' kv)) ->
  listed q u (fold_left (step path) items st).
Proof.
  induction items as [| kv' r IH]; simpl; intros st Hin H; [destruct Hin |].
  destruct Hin as [-> | Hin].
  - apply fold_step_old. apply H.
  - now apply IH.
Qed.

(** X20: Every value that analyze_structure visits is listed in the
    structure it returns, under the path made of the keys that lead to
    it and with the type get_type_info gives it. *)
Theorem analyze_structure_lists_reachable
  (obj v : json) (ks : list string) (H : reach obj ks v) :
  listed (fold_left extend ks EmptyString) (get_type_info v)
         (analyze_structure obj EmptyString).
Proof.
  enough (G : forall path,
             listed (fold_left extend ks path) (get_type_info v)
                    (analyze_structure obj path)) by apply G.
  revert H.
  induction 1 as [items k v Hin
                 | items k inner ks v Hin _ IH
                 | items k first rest i inner ks v Hin Hd Hi Hnth _ IH];
    intros path; rewrite analyze_structure_dict.
  - apply (fold_step_in path _ _ items (k, v)); [exact Hin |].
    intros st'. apply (step_new path st' (k, v)).
  - apply (fold_step_in path _ _ items (k, JDict inner)); [exact Hin |].
    intros st'. unfold step. simpl snd. simpl fst. cbv iota.
    apply structure_update_new. apply IH.
  - apply (fold_step_in path _ _ items (k, JList (first :: rest)));
      [exact Hin |].
    intros st'. unfold step. simpl snd. simpl fst. cbv iota.
    rewrite Hd.
    apply (items3_new _ _ _ inner _ 3%nat i); [exact Hi | exact Hnth |].
    apply IH.
Qed.

Lemma analyze_structure_lists_reachable_witness :
  listed "trajectory.actions.action_type" "string"
    (analyze_structure
       (JDict [("trajectory",
                JDict [("actions",
                        JList [JDict [("action_type", JStr "Scan")];
                               JDict [("action_type", JStr "Find")]])])])
       EmptyString).
Proof.
  apply (analyze_structure_lists_reachable _ (JStr "Find")
           ["trajectory"; "actions"; "action_type"]).
  eapply reach_object; [now left |].
  eapply (reach_list _ _ _ _ 1%nat); [now left | reflexivity | lia
                                      | reflexivity |].
  apply reach_key. now left.
Defined.

End Schema.

Section SchemaCounters.
Import Py Run AnalyzeJsonl SchemaInvariants.

Lemma try_json_bounded max_lines n l s out base errors :
  l <> Blank ->
  line_count s < max_lines ->
  out = base ++ errors ->
  bounded max_lines s errors ->
  exists errors',
    snd (fst (try_json (try_body l) n (s, out))) = base ++ errors' /\
    bounded max_lines (fst (fst (try_json (try_body l) n (s, out)))) errors'.
Proof.
  intros Hl Hlt -> (Hc & Hs & He & Hn & Hall).
  destruct l as [| msg | v]; [congruence | |].
  - unfold try_json, try_body, bind, lift, modify, get, print, ret. simpl.
    destruct (Z.leb_spec (error_count s + 1) 5); simpl.
    + exists (errors ++ [Printed "Error on line {line_num}: {e}"
                          [AInt n; AExn (JSONDecodeError msg)]]).
      rewrite app_assoc. split; [reflexivity |].
      unfold bounded. simpl. rewrite length_app. simpl.
      repeat split; try lia.
      apply Forall_app. split; [exact Hall | now repeat constructor].
    + exists errors. split; [reflexivity |].
      unfold bounded. simpl. repeat split; try lia. exact Hall.
  - exists errors.
    unfold try_json, try_body, bind, lift, modify, get, print, ret. simpl.
    destruct (Z.ltb_spec (Z.of_nat (List.length (sample_records s))) 3);
      simpl; unfold analyze; destruct v; simpl;
      (split; [reflexivity |]); unfold bounded; simpl;
      rewrite ?length_app; simpl; repeat split; try lia; exact Hall.
Qed.

Lemma read_lines_cons max_lines n l rest s out :
  read_lines max_lines ((n, l) :: rest) (s, out)
  = if max_lines <=? line_count s then ((s, out), Ok tt)
    else match match l with
               | Blank => ((s, out), Ok tt)
               | _ => try_json (try_body l) n (s, out)
               end with
         | (w', Ok _) => read_lines max_lines rest w'
         | (w', Raise e) => (w', Raise e)
         end.
Proof.
  simpl. unfold bind, get, ret. simpl.
  destruct (max_lines <=? line_count s); [reflexivity |].
  destruct l; reflexivity.
Qed.

Lemma read_lines_bounded max_lines base : forall numbered s out errors,
  out = base ++ errors ->
  bounded max_lines s errors ->
  exists errors',
    snd (fst (read_lines max_lines numbered (s, out))) = base ++ errors' /\
    bounded max_lines (fst (fst (read_lines max_lines numbered (s, out))))
            errors'.
Proof.
  induction numbered as [| [n l] rest IH]; intros s out errors Hout Hb.
  - exists errors. simpl. auto.
  - rewrite read_lines_cons.
    destruct (Z.leb_spec max_lines (line_count s)) as [| Hlt].
    + exists errors. simpl. auto.
    + destruct l as [| msg | v].
      * now apply (IH s out errors).
      * destruct (try_json_bounded max_lines n (Malformed msg) s out base
                    errors ltac:(discriminate) Hlt Hout Hb)
          as (errors' & Hout' & Hb').
        simpl fst in *.
        destruct (try_json (try_body (Malformed msg)) n (s, out))
          as [[s' out'] [[] | e]]; simpl in *.
        -- now apply (IH s' out' errors').
        -- exists errors'. auto.
      * destruct (try_json_bounded max_lines n (Parsed v) s out base
                    errors ltac:(discriminate) Hlt Hout Hb)
          as (errors' & Hout' & Hb').
        simpl fst in *.
        destruct (try_json (try_body (Parsed v)) n (s, out))
          as [[s' out'] [[] | e]]; simpl in *.
        -- now apply (IH s' out' errors').
        -- exists errors'. auto.
Qed.

(** X21: Whatever the file holds and whatever the state before:
    analyze_jsonl_file prints its header and after it nothing but error
    messages, at most five and one per parse error up to the fifth; it
    counts at most max_lines parsed lines; and it keeps as samples the
    first three of them, or all when there are fewer. *)
Theorem analyze_jsonl_file_bounded
  (fs : filesystem) (filepath : string) (max_lines : Z)
  (w : state * list output) :
  let r := analyze_jsonl_file fs filepath max_lines w in
  exists errors,
    snd (fst r) = snd w ++ header filepath ++ errors /\
    bounded max_lines (fst (fst r)) errors.
Proof.
  intros r. subst r. destruct w as [s out].
  unfold analyze_jsonl_file.
  unfold bind at 1. unfold print at 1. simpl fst. simpl snd.
  unfold bind at 1. unfold print at 1. simpl fst. simpl snd.
  unfold bind at 1. unfold print at 1. simpl fst. simpl snd.
  unfold bind at 1. unfold modify at 1. simpl fst. simpl snd.
  assert (Hempty : bounded max_lines empty_state []).
  { unfold bounded. simpl. repeat split; try lia. constructor. }
  unfold bind, open. destruct (fs filepath) as [f |]; simpl.
  - destruct (read_lines_bounded max_lines (out ++ header filepath)
                (enumerate 1 (lines f)) empty_state
                (((out ++ [Printed "\n{'='*80}" []])
                  ++ [Printed "Analyzing: {filepath}" [AStr filepath]])
                 ++ [Printed "{'='*80}\n" []]) [])
      as (errors & Hout & Hb); auto.
    { unfold header. rewrite app_nil_r, <- !app_assoc. reflexivity. }
    exists errors. split; [| exact Hb].
    rewrite Hout. now rewrite <- app_assoc.
  - exists []. split; [| exact Hempty].
    unfold header. rewrite <- !app_assoc. reflexivity.
Qed.

End SchemaCounters.

(** ** investigate_end_condition.py: reading and choosing episodes *)

Section Investigate.
Import Py Run InvestigateEndCondition InvestigateSelection.

Lemma read_lines_result : forall (ls : list line) (episodes : list json)
                                 (out : list output),
  for_each ls read_line (episodes, out)
  = ((episodes ++ parsed_before ls, out),
     match first_malformed ls with
     | Some msg => Raise (JSONDecodeError msg)
     | None => Ok tt
     end).
Proof.
  induction ls as [| l rest IH]; intros episodes out; simpl.
  - now rewrite app_nil_r.
  - unfold bind. destruct l as [| msg | v]; simpl.
    + apply IH.
    + now rewrite app_nil_r.
    + unfold read_line, bind, lift, modify. simpl.
      rewrite IH. now rewrite <- app_assoc.
Qed.

(** X17: Reading a text file in investigate_end_condition.py, each
    non-empty line of which json.loads accepts or rejects with
    JSONDecodeError: when it accepts them all, the episodes are the
    parsed lines in the order of the file and their number is printed;
    when it rejects one, the run ends with the JSONDecodeError of the
    first rejected line, having kept the episodes before it and printed
    nothing. *)
Theorem read_episodes_result
  (fs : filesystem) (path : string) (f : text_file)
  (episodes : list json) (out : list output)
  (Hfile : fs path = Some f) :
  read_episodes fs path (episodes, out)
  = match first_malformed (lines f) with
    | Some msg =>
        ((episodes ++ parsed_before (lines f), out),
         Raise (JSONDecodeError msg))
    | None =>
        ((episodes ++ parsed_before (lines f),
          out ++ [Printed "Total episodes in file: {len(episodes)}"
                    [AInt (Z.of_nat (List.length
                                       (episodes
                                        ++ parsed_before (lines f))))]]),
         Ok tt)
    end.
Proof.
  unfold read_episodes, bind, open. rewrite Hfile. unfold ret at 1.
  rewrite read_lines_result.
  destruct (first_malformed (lines f)); reflexivity.
Qed.

Lemma read_episodes_result_witness :
  read_episodes
    (fun _ => Some (mk_file 0 [Parsed (JDict []); Blank; Parsed (JList [])]))
    "episodes.jsonl" ([], [])
  = ((([] ++ [JDict []; JList []]),
      [] ++ [Printed "Total episodes in file: {len(episodes)}" [AInt 2]]),
     Ok tt).
Proof.
  exact (read_episodes_result
           (fun _ => Some (mk_file 0 [Parsed (JDict []); Blank;
                                      Parsed (JList [])]))
           "episodes.jsonl"
           (mk_file 0 [Parsed (JDict []); Blank; Parsed (JList [])])
           [] [] eq_refl).
Defined.

Lemma py_index_in_range (l : list json) (i : Z) :
  0 <= i < Z.of_nat (List.length l) ->
  exists ep,
    nth_error l (Z.to_nat i) = Some ep /\ py_index (JList l) i = Ok ep.
Proof.
  intros H. unfold py_index.
  replace (i <? 0) with false by (symmetry; apply Z.ltb_ge; lia).
  replace (0 <=? i) with true by (symmetry; apply Z.leb_le; lia).
  replace (i <? Z.of_nat (List.length l)) with true
    by (symmetry; apply Z.ltb_lt; lia).
  simpl.
  destruct (nth_error l (Z.to_nat i)) as [ep |] eqn:Hnth.
  - now exists ep.
  - apply nth_error_None in Hnth. lia.
Qed.

Lemma first_index_in_range test : forall episodes i idxs,
  first_index test i episodes = Ok idxs ->
  Forall (fun idx => i <= idx < i + Z.of_nat (List.length episodes)) idxs.
Proof.
  induction episodes as [| ep rest IH]; intros i idxs; simpl.
  - intros [= <-]. constructor.
  - destruct (test ep) as [[|] |]; simpl; try discriminate.
    + intros [= <-]. repeat constructor; lia.
    + intros H. apply IH in H.
      eapply Forall_impl; [| exact H]. simpl. intros idx. lia.
Qed.

(** X18: Whatever the options and the episodes, every index that main passes
    to episodes[idx] is one of an episode of the list, counted from the
    front: the numbers given with --episodes that name no episode are
    dropped, so that the lookup raises no IndexError and a number below
    one never selects an episode from the end. *)
Theorem episode_indices_in_range
  (sum_positive sum_negative : num -> bool) (all : bool)
  (numbers idxs : list Z) (episodes : list json)
  (H : episode_indices sum_positive sum_negative all numbers episodes
       = Ok idxs) :
  Forall (fun idx =>
            0 <= idx /\
            exists ep,
              nth_error episodes (Z.to_nat idx) = Some ep /\
              py_index (JList episodes) idx = Ok ep)
         idxs.
Proof.
  assert (Hrange : Forall (fun idx =>
                             0 <= idx < Z.of_nat (List.length episodes))
                          idxs).
  { unfold episode_indices in H. destruct all.
    - injection H as <-. apply Forall_forall. intros idx Hin.
      apply in_map_iff in Hin. destruct Hin as (n & <- & Hn).
      apply in_seq in Hn. lia.
    - destruct numbers as [| n ns].
      + unfold rbind in H.
        destruct (first_index (rewards_test sum_positive) 0 episodes)
          as [a |] eqn:Ha; try discriminate.
        destruct (first_index (rewards_test sum_negative) 0 episodes)
          as [b |] eqn:Hb; try discriminate.
        destruct (first_index no_actions 0 episodes)
          as [c |] eqn:Hc; try discriminate.
        injection H as <-.
        apply first_index_in_range in Ha, Hb, Hc.
        repeat (apply Forall_app; split); assumption.
      + set (nums := n :: ns) in H. clearbody nums.
        injection H as <-. apply Forall_forall. intros idx Hin.
        apply in_map_iff in Hin. destruct Hin as (i & <- & Hi).
        apply filter_In in Hi. destruct Hi as [_ Hi].
        apply andb_true_iff in Hi. destruct Hi as [H1 H2].
        apply Z.leb_le in H1, H2. lia. }
  eapply Forall_impl; [| exact Hrange]. simpl.
  intros idx Hidx. split; [lia |]. now apply py_index_in_range.
Qed.

Lemma episode_indices_in_range_witness :
  Forall (fun idx =>
            0 <= idx /\
            exists ep,
              nth_error [JDict []; JDict []] (Z.to_nat idx) = Some ep /\
              py_index (JList [JDict []; JDict []]) idx = Ok ep)
         [1; 0].
Proof.
  exact (episode_indices_in_range (fun _ => false) (fun _ => false) false
           [2; 0; 1; 3; -1] [1; 0] [JDict []; JDict []] eq_refl).
Defined.

End Investigate.

(** ** count_episodes.py: the size of a file *)

Section FileSize.
Import CountEpisodesReport.

Lemma Qle_bool_false (x y : Q) : Qle_bool x y = false -> (y < x)%Q.
Proof.
  intros H. apply Qnot_le_lt. intros Hle.
  apply Qle_bool_iff in Hle. congruence.
Qed.

(** X13: For a size from 0 to 2^53, format_bytes divides by 1024 as often as
    the unit it names says; with every unit but TB the number shown is
    below 1024, and with every unit but B it is at least 1. *)
Theorem format_bytes_scaled (n : Z) (H : 0 <= n < 2 ^ 53) :
  exists k : nat,
    nth_error ["B"; "KB"; "MB"; "GB"; "TB"] k = Some (snd (format_bytes n)) /\
    (fst (format_bytes n) * inject_Z (1024 ^ Z.of_nat k) == inject_Z n)%Q /\
    (k = 0%nat \/ (1 <= fst (format_bytes n))%Q) /\
    ((k < 4)%nat -> (fst (format_bytes n) < 1024)%Q).
Proof.
  unfold format_bytes, scale.
  destruct (Qle_bool 1024 (inject_Z n)) eqn:E0; simpl negb; cbv iota.
  2:{ apply Qle_bool_false in E0. exists 0%nat. simpl.
      repeat split; auto. unfold Qeq. simpl. lia. }
  apply Qle_bool_iff in E0.
  destruct (Qle_bool 1024 (inject_Z n / 1024)) eqn:E1; simpl negb; cbv iota.
  2:{ apply Qle_bool_false in E1. exists 1%nat. simpl.
      repeat split; auto.
      - unfold Qeq. simpl. lia.
      - right. unfold Qle in *. simpl in *. lia. }
  apply Qle_bool_iff in E1.
  destruct (Qle_bool 1024 (inject_Z n / 1024 / 1024)) eqn:E2;
    simpl negb; cbv iota.
  2:{ apply Qle_bool_false in E2. exists 2%nat. simpl.
      repeat split; auto.
      - unfold Qeq. simpl. lia.
      - right. unfold Qle in *. simpl in *. lia. }
  apply Qle_bool_iff in E2.
  destruct (Qle_bool 1024 (inject_Z n / 1024 / 1024 / 1024)) eqn:E3;
    simpl negb; cbv iota.
  2:{ apply Qle_bool_false in E3. exists 3%nat. simpl.
      repeat split; auto.
      - unfold Qeq. simpl. lia.
      - right. unfold Qle in *. simpl in *. lia. }
  apply Qle_bool_iff in E3.
  exists 4%nat. simpl. repeat split.
  - unfold Qeq. simpl. lia.
  - right. unfold Qle in *. simpl in *. lia.
  - lia.
Qed.

Lemma format_bytes_scaled_witness :
  exists k : nat,
    nth_error ["B"; "KB"; "MB"; "GB"; "TB"] k
    = Some (snd (format_bytes 1536)) /\
    (fst (format_bytes 1536) * inject_Z (1024 ^ Z.of_nat k)
     == inject_Z 1536)%Q /\
    (k = 0%nat \/ (1 <= fst (format_bytes 1536))%Q) /\
    ((k < 4)%nat -> (fst (format_bytes 1536) < 1024)%Q).
Proof.
  apply (format_bytes_scaled 1536). lia.
Defined.

End FileSize.

(** ** repeated_actions.py: the report and the CSV file *)

Section RepeatedActionsOutput.
Import Py Run Invariants RepeatedActionsReport.

Lemma analyze_repeated_actions_aligned fs filepaths :
  aligned (fst (fst (run (RepeatedActions.analyze_repeated_actions
                            fs filepaths)
                         RepeatedActions.empty_results))).
Proof.
  unfold run, RepeatedActions.analyze_repeated_actions.
  apply (for_each_invariant (fun w => aligned (fst w))).
  - intros filepath.
    apply (open_invariant (fun w => aligned (fst w))). intros f.
    apply (for_each_invariant (fun w => aligned (fst w))).
    intros nl. apply process_line_aligned.
  - unfold aligned. simpl. repeat split; constructor.
Qed.

Lemma statistics_if_ok {A : Type} (f g : A -> Z) (h : A -> num)
  (l : list A) :
  exists lines,
    statistics_if (map f l) (map g l) (map h l) = inr lines.
Proof.
  unfold statistics_if. destruct l as [| a l]; simpl; [now eexists |].
  eexists. reflexivity.
Qed.

(** X5: The report of repeated_actions.py never fails on the lists that
    analyze_repeated_actions returns: every average, minimum and maximum
    is taken of a list that has an entry when the list tested before it
    has one, so that print_summary raises neither ZeroDivisionError nor
    ValueError and prints all its sections. *)
Theorem print_summary_never_fails
  (fs : filesystem) (filepaths : list string) :
  snd (print_summary
         (fst (fst (run (RepeatedActions.analyze_repeated_actions
                           fs filepaths)
                        RepeatedActions.empty_results))))
  = inr tt.
Proof.
  destruct (analyze_repeated_actions_aligned fs filepaths)
    as (H1 & H2 & H3 & H4 & H5 & H6 & H7 & H8 & H9 & _).
  unfold print_summary. rewrite H1, H2, H3, H4, H5, H6, H7, H8, H9.
  match goal with
  | |- context [statistics_if (map ?f ?l) (map ?g ?l) (map ?h ?l)] =>
      destruct (statistics_if_ok f g h l) as [o ->]
  end.
  match goal with
  | |- context [statistics_if (map ?f ?l) (map ?g ?l) (map ?h ?l)] =>
      destruct (statistics_if_ok f g h l) as [w ->]
  end.
  match goal with
  | |- context [statistics_if (map ?f ?l) (map ?g ?l) (map ?h ?l)] =>
      destruct (statistics_if_ok f g h l) as [x ->]
  end.
  reflexivity.
Qed.

Lemma enumerate_fst {A : Type} (l : list A) : forall start,
  map fst (enumerate start l)
  = map (fun i => start + Z.of_nat i) (seq 0 (List.length l)).
Proof.
  induction l as [| x r IH]; intros start; simpl; [reflexivity |].
  f_equal; [lia |]. rewrite IH, <- seq_shift, map_map.
  apply map_ext. intros i. lia.
Qed.

Lemma filter_outcome (o : string) (p : RepeatedActions.episode_info -> bool)
  (row_of : Z * RepeatedActions.episode_info -> row)
  (Hrow : forall iep,
      String.eqb (outcome (row_of iep)) o = p (snd iep))
  (l : list RepeatedActions.episode_info) : forall start,
  List.length (filter (fun r => String.eqb (outcome r) o)
                      (map row_of (enumerate start l)))
  = List.length (filter p l).
Proof.
  induction l as [| ep r IH]; intros start; simpl; [reflexivity |].
  rewrite Hrow. simpl. destruct (p ep); simpl; now rewrite IH.
Qed.

(** X6: The CSV file of repeated_actions.py has one row for each episode of
    the results, numbered from 1 in the order of the episodes; its rows
    marked win are as many as the entries of the win lists and its rows
    marked loss as many as those of the loss lists, and no row is marked
    otherwise. *)
Theorem export_csv_rows (fs : filesystem) (filepaths : list string) :
  let r := fst (fst (run (RepeatedActions.analyze_repeated_actions
                            fs filepaths)
                         RepeatedActions.empty_results)) in
  let rows := export_csv r in
  map episode rows
  = map (fun i => 1 + Z.of_nat i)
        (seq 0 (List.length (RepeatedActions.all_episodes r))) /\
  List.length (filter (fun x => String.eqb (outcome x) "win") rows)
  = List.length (RepeatedActions.win_episodes r) /\
  List.length (filter (fun x => String.eqb (outcome x) "loss") rows)
  = List.length (RepeatedActions.loss_episodes r) /\
  Forall (fun x => outcome x = "win" \/ outcome x = "loss") rows.
Proof.
  intros r rows.
  destruct (analyze_repeated_actions_aligned fs filepaths)
    as (H1 & _ & _ & H4 & _ & _ & H7 & _).
  fold r in H1, H4, H7. rewrite H1, H4, H7, !length_map.
  subst rows. unfold export_csv.
  split; [| split; [| split]].
  - rewrite map_map. simpl. apply enumerate_fst.
  - apply filter_outcome. intros iep. simpl.
    now destruct (py_truthy (RepeatedActions.is_win (snd iep))).
  - apply filter_outcome. intros iep. simpl.
    now destruct (py_truthy (RepeatedActions.is_win (snd iep))).
  - apply Forall_forall. intros x Hx. apply in_map_iff in Hx.
    destruct Hx as (iep & <- & _). simpl.
    destruct (py_truthy (RepeatedActions.is_win (snd iep))); auto.
Qed.

End RepeatedActionsOutput.

(** ** json_to_csv.py: the rows written *)

Section CsvRows.
Import Py Run JsonToCsv.

Lemma key_le_spec a b :
  key_le a b <->
  row_network a < row_network b \/
  (row_network a = row_network b /\
   (episode_value (row_episode a) <= episode_value (row_episode b))%Q).
Proof.
  unfold key_le, key_lt.
  destruct (Z.eqb_spec (row_network b) (row_network a)) as [Heq | Hne].
  - rewrite negb_false_iff, Qle_bool_iff. split.
    + intros H. right. split; [now symmetry | exact H].
    + intros [H | [_ H]]; [lia | exact H].
  - rewrite Z.ltb_ge. split.
    + intros H. left. lia.
    + intros [H | [H _]]; [lia | congruence].
Qed.

Lemma key_le_trans a b c : key_le a b -> key_le b c -> key_le a c.
Proof.
  rewrite !key_le_spec. intros [H1 | [H1 H1']] [H2 | [H2 H2']];
    try (left; lia).
  right. split; [lia |]. eapply Qle_trans; eassumption.
Qed.

Lemma key_lt_le a b : key_lt a b = true -> key_le a b.
Proof.
  intros H. apply key_le_spec. unfold key_lt in H.
  destruct (Z.eqb_spec (row_network a) (row_network b)) as [Heq | Hne].
  - right. split; [exact Heq |].
    apply negb_true_iff in H. apply Qlt_le_weak, Qnot_le_lt.
    intros Hle. apply Qle_bool_iff in Hle. congruence.
  - left. now apply Z.ltb_lt.
Qed.

Lemma insert_row_perm x l : Permutation (insert_row x l) (x :: l).
Proof.
  induction l as [| y r IH]; simpl; [reflexivity |].
  destruct (key_lt x y); [reflexivity |].
  rewrite IH. apply perm_swap.
Qed.

Lemma insert_row_sorted x l :
  StronglySorted key_le l -> StronglySorted key_le (insert_row x l).
Proof.
  induction 1 as [| y r Hr IH Hy]; simpl.
  - repeat constructor.
  - destruct (key_lt x y) eqn:Hlt.
    + constructor; [now constructor |].
      constructor; [now apply key_lt_le |].
      eapply Forall_impl; [| exact Hy].
      intros z Hz. apply key_le_trans with y; [now apply key_lt_le | exact Hz].
    + constructor; [exact IH |].
      rewrite insert_row_perm.
      constructor; [exact Hlt | exact Hy].
Qed.

Lemma sort_rows_from acc l :
  StronglySorted key_le acc ->
  StronglySorted key_le (fold_left (fun acc x => insert_row x acc) l acc) /\
  Permutation (fold_left (fun acc x => insert_row x acc) l acc) (acc ++ l).
Proof.
  revert acc. induction l as [| x r IH]; intros acc H; simpl.
  - split; [exact H | now rewrite app_nil_r].
  - destruct (IH (insert_row x acc) (insert_row_sorted x acc H)) as [Hs Hp].
    split; [exact Hs |].
    rewrite Hp, insert_row_perm. apply Permutation_middle.
Qed.

Lemma for_each_steps {S A : Type} (P : S * list output -> Prop)
  (body : A -> M S unit) :
  (forall x w w', body x w = (w', Ok tt) -> P w -> P w') ->
  forall l w w', for_each l body w = (w', Ok tt) -> P w -> P w'.
Proof.
  intros Hbody. induction l as [| x r IH]; intros w w'; simpl.
  - intros [= <-]. auto.
  - unfold bind. destruct (body x w) as [w1 [[] | e]] eqn:Hx;
      [| discriminate].
    intros Hr Hw. apply (IH w1 w' Hr). now apply (Hbody x w w1).
Qed.

Lemma add_rows_result float_add network offset : forall items rows out w',
  for_each items (add_row float_add network offset) (rows, out)
  = (w', Ok tt) ->
  exists added,
    w' = (rows ++ added, out) /\
    List.length added = List.length items /\
    Forall (fun r => row_outcome r = "win" \/ row_outcome r = "fail") added.
Proof.
  induction items as [| ep r IH]; intros rows out w'; simpl.
  - intros [= <-]. exists []. now rewrite app_nil_r.
  - unfold bind at 1. unfold add_row at 1. unfold bind, lift, modify.
    simpl.
    destruct (py_item ep "episode") as [number |]; simpl;
      [| discriminate].
    destruct (py_add_int float_add number offset) as [episode |]; simpl;
      [| discriminate].
    destruct (py_item ep "end_reason") as [reason |]; simpl;
      [| discriminate].
    intros H. apply IH in H. destruct H as (added & -> & Hlen & Hall).
    exists (mk_row network episode (outcome reason) :: added).
    rewrite <- app_assoc. simpl. repeat split; auto.
    constructor; [| exact Hall]. simpl. unfold outcome.
    destruct (json_eq reason (JStr "AgentStatus.Success")); auto.
Qed.

Lemma load_loaded float_add fs plan w w' :
  load float_add fs plan w = (w', Ok tt) -> loaded w -> loaded w'.
Proof.
  destruct w as [rows out]. unfold load.
  destruct (fs (snd (fst plan))) as [content |]; [| now intros [= <-]].
  unfold bind at 1. unfold lift at 1.
  destruct content as [data |]; [| discriminate].
  unfold bind at 1. unfold lift at 1.
  destruct (py_iter data) as [items |] eqn:Hiter; [| discriminate].
  unfold bind at 1.
  destruct (for_each items (add_row float_add (fst (fst plan)) (snd plan))
              (rows, out)) as [w1 [[] | e]] eqn:Hrows; [| discriminate].
  apply add_rows_result in Hrows.
  destruct Hrows as (added & -> & Hlen & Hall).
  unfold bind, lift, print.
  destruct (py_len data) as [n |] eqn:Hn; [| discriminate].
  intros [= <-]. intros [Hsum Hrs]. unfold loaded. simpl in *.
  rewrite map_app, zsum_app, Hsum, length_app, Hlen. simpl.
  rewrite (py_len_iter _ _ _ Hn Hiter). split.
  - unfold RepeatedActions.zsum, reported. simpl. lia.
  - apply Forall_app. now split.
Qed.

(** X22: When json_to_csv.py runs to its end, the rows it writes are in the
    order of their networks and, within a network, of their episode
    numbers; every row is marked win or fail; and the numbers of
    episodes it reports as loaded, file by file, add up to the number
    of rows it reports as written, which is the number of rows of the
    file. *)
Theorem json_to_csv_rows
  (float_add : Q -> Z -> Q) (fs : json_files)
  (rows : list row) (out : list output)
  (H : run (main float_add fs) [] = ((rows, out), Ok tt)) :
  StronglySorted key_le rows /\
  Forall (fun r => row_outcome r = "win" \/ row_outcome r = "fail") rows /\
  exists loads,
    out = loads ++ [Printed "\nWrote {len(rows)} rows to {OUTPUT_CSV}"
                      [AInt (Z.of_nat (List.length rows))]] /\
    RepeatedActions.zsum (map reported loads)
    = Z.of_nat (List.length rows).
Proof.
  unfold run, main in H.
  unfold bind at 1 in H. unfold modify at 1 in H. simpl fst in H.
  simpl snd in H. unfold bind at 1 in H.
  destruct (for_each FILE_PLAN (load float_add fs) ([], []))
    as [[rows0 out0] [[] | e]] eqn:Hload; [| discriminate].
  unfold bind, modify, get, print in H. simpl in H.
  injection H as <- <-.
  assert (Hl : loaded (rows0, out0)).
  { apply (for_each_steps loaded (load float_add fs)
             (load_loaded float_add fs) FILE_PLAN ([], []) _ Hload).
    split; [reflexivity | constructor]. }
  destruct Hl as [Hsum Hall]. simpl in Hsum, Hall.
  destruct (sort_rows_from [] rows0 (SSorted_nil _)) as [Hs Hp].
  fold (sort_rows rows0) in Hs, Hp. simpl in Hp.
  split; [exact Hs |]. split.
  - now rewrite Hp.
  - exists out0. split; [reflexivity |].
    now rewrite (Permutation_length Hp).
Qed.

Lemma json_to_csv_rows_witness :
  StronglySorted key_le
    [mk_row 1 (PInt 1) "win"; mk_row 1 (PInt 2) "fail";
     mk_row 2 (PInt 101) "fail"] /\
  Forall (fun r => row_outcome r = "win" \/ row_outcome r = "fail")
    [mk_row 1 (PInt 1) "win"; mk_row 1 (PInt 2) "fail";
     mk_row 2 (PInt 101) "fail"] /\
  exists loads,
    [Printed "Loaded {len(data):>3} episodes from {filename} (network {network}, offset {offset})"
       [AInt 2; AStr "episode_data_new_ips_1.json"; AInt 1; AInt 0];
     Printed "Loaded {len(data):>3} episodes from {filename} (network {network}, offset {offset})"
       [AInt 1; AStr "episode_data_new_ips_2b.json"; AInt 2; AInt 100];
     Printed "\nWrote {len(rows)} rows to {OUTPUT_CSV}" [AInt 3]]
    = loads ++ [Printed "\nWrote {len(rows)} rows to {OUTPUT_CSV}"
                  [AInt (Z.of_nat (List.length
                     [mk_row 1 (PInt 1) "win"; mk_row 1 (PInt 2) "fail";
                      mk_row 2 (PInt 101) "fail"]))]] /\
    RepeatedActions.zsum (map reported loads)
    = Z.of_nat (List.length
                  [mk_row 1 (PInt 1) "win"; mk_row 1 (PInt 2) "fail";
                   mk_row 2 (PInt 101) "fail"]).
Proof.
  exact (json_to_csv_rows (fun q n => (q + inject_Z n)%Q)
           (fun name =>
              if String.eqb name "episode_data_new_ips_1.json"
              then Some (Ok (JList
                     [JDict [("episode", JInt 2);
                             ("end_reason", JStr "AgentStatus.TimeoutReached")];
                      JDict [("episode", JInt 1);
                             ("end_reason", JStr "AgentStatus.Success")]]))
              else if String.eqb name "episode_data_new_ips_2b.json"
              then Some (Ok (JList
                     [JDict [("episode", JInt 1);
                             ("end_reason", JNone)]]))
              else None)
           _ _ eq_refl).
Defined.

End CsvRows.

(** ** Lines that fail: examples *)

Section FailingLineExamples.
Import Py Run.

Lemma repeated_actions_failed_line_reported_witness :
  exists report,
    RepeatedActions.process_line "a.jsonl" (1, Parsed (JList []))
      (RepeatedActions.empty_results, [])
    = ((RepeatedActions.empty_results, [] ++ [report]), Ok tt) /\
    args report = [AInt 1; AStr "a.jsonl"; AExn AttributeError].
Proof.
  apply (repeated_actions_failed_line_reported "a.jsonl" 1
           (Parsed (JList [])) RepeatedActions.empty_results []
           AttributeError);
    [discriminate | reflexivity].
Defined.

Lemma summary_failed_line_witness :
  let s' := fst (fst (Summary.try_body 100
                        (Parsed (JDict [("trajectory",
                           JDict [("actions", JList [JDict []]);
                                  ("rewards", JList [JStr "high"])])]))
                        (Summary.empty_state, []))) in
  Summary.all_episodes s' = Summary.all_episodes Summary.empty_state /\
  Summary.win_episodes s' = Summary.win_episodes Summary.empty_state /\
  Summary.loss_episodes s' = Summary.loss_episodes Summary.empty_state /\
  Summary.loss_step_limit s' = Summary.loss_step_limit Summary.empty_state /\
  Summary.loss_invalid_actions s'
  = Summary.loss_invalid_actions Summary.empty_state.
Proof.
  apply (summary_failed_line 100
           (Parsed (JDict [("trajectory",
              JDict [("actions", JList [JDict []]);
                     ("rewards", JList [JStr "high"])])]))
           Summary.empty_state [] TypeError).
  reflexivity.
Defined.

End FailingLineExamples.

(** ** The boundary between win and loss, in what the scripts record *)

Section WinLossBoundary.
Import Py Run.

Lemma summary_is_win_last (init : list json) (last : prim) (q : Q) :
  num_val last = Some q ->
  Summary.is_win (JList (init ++ [JPrim last]))
  = Ok (Qle_bool (inject_Z 50) q).
Proof.
  intros H. unfold Summary.is_win.
  rewrite py_truthy_nonempty, py_index_last. unfold py_ge. now rewrite H.
Qed.

Lemma win_expression_last (init : list json) (last : prim) (q : Q) :
  num_val last = Some q ->
  RepeatedActions.win_expression (JList (init ++ [JPrim last]))
  = Ok (JBool (Qle_bool (inject_Z 50) q)).
Proof.
  intros H. unfold RepeatedActions.win_expression.
  rewrite py_truthy_nonempty, py_index_last. unfold py_ge. now rewrite H.
Qed.

Lemma classify_last (init : list json) (last : prim) (q : Q) :
  num_val last = Some q ->
  CountEpisodes.classify (JList (init ++ [JPrim last]))
  = Ok (if Qle_bool (inject_Z 50) q then "win" else "loss", JPrim last).
Proof.
  intros H. unfold CountEpisodes.classify, rbind.
  rewrite py_truthy_nonempty, py_index_last. unfold py_ge. now rewrite H.
Qed.

Lemma early_is_win_last (last : prim) (q : Q) :
  num_val last = Some q ->
  CheckEarlyTerminations.is_win (JPrim last)
  = Ok (Qle_bool (inject_Z 50) q).
Proof.
  intros H. unfold CheckEarlyTerminations.is_win, py_ge. rewrite H.
  destruct last; try reflexivity. discriminate.
Qed.

Lemma short_is_loss_last (last : prim) (q : Q) :
  num_val last = Some q ->
  FindShortLosses.is_loss (JPrim last)
  = Ok (negb (Qle_bool (inject_Z 50) q)).
Proof.
  intros H. unfold FindShortLosses.is_loss, py_lt. rewrite H.
  destruct last; try reflexivity. discriminate.
Qed.

(** C4, as the code has it: for a record whose rewards are a non-empty
    list ending in a number, each script that records the episode
    records it as a win exactly when that last reward is at least 50, so
    that 50 is a win and 49.9 a loss.  summary.py and
    check_all_early_terminations.py do so for a record with at least one
    action that they process without an exception, repeated_actions.py
    for every record with at least one action, count_episodes.py for
    every record it processes without an exception, with or without
    actions; find_short_losses.py prints nothing for a win and starts its
    report for a loss of at most max_steps actions. *)
Theorem win_loss_boundary
  (e t : list (string * json)) (init : list json) (last : prim) (q : Q)
  (Htraj : dict_get "trajectory" e = Some (JDict t))
  (Hrew : dict_get "rewards" t = Some (JList (init ++ [JPrim last])))
  (Hnum : num_val last = Some q) :
  let win := Qle_bool (inject_Z 50) q in
  let label := if win then "win" else "loss" in
  let record := Parsed (JDict e) in
  ((q == inject_Z 50)%Q -> win = true) /\
  ((q < inject_Z 50)%Q -> win = false) /\
  (forall a actions limit filepath s out,
     dict_get "actions" t = Some (JList (a :: actions)) ->
     snd (Summary.try_body limit record (s, out)) = Ok tt ->
     let s' := fst (fst (Summary.process_line limit filepath record
                           (s, out))) in
     let r := List.length (Summary.objects s) in
     exists d,
       nth_error (Summary.objects s') r = Some d /\
       Summary.outcome d = Some label /\
       Summary.final_reward d = JPrim last /\
       Summary.all_episodes s' = Summary.all_episodes s ++ [r] /\
       Summary.win_episodes s'
       = Summary.win_episodes s ++ (if win then [r] else []) /\
       Summary.loss_episodes s'
       = Summary.loss_episodes s ++ (if win then [] else [r])) /\
  (forall a actions filepath n s out,
     dict_get "actions" t = Some (JList (a :: actions)) ->
     let s' := fst (fst (RepeatedActions.process_line filepath (n, record)
                           (s, out))) in
     let repeated :=
       RepeatedActions.num_repeated_actions
         (RepeatedActions.count_repetitions (a :: actions)) in
     exists info,
       RepeatedActions.episode_details s'
       = RepeatedActions.episode_details s ++ [info] /\
       RepeatedActions.is_win info = JBool win /\
       RepeatedActions.all_episodes s'
       = RepeatedActions.all_episodes s ++ [repeated] /\
       RepeatedActions.win_episodes s'
       = RepeatedActions.win_episodes s ++ (if win then [repeated] else []) /\
       RepeatedActions.loss_episodes s'
       = RepeatedActions.loss_episodes s
         ++ (if win then [] else [repeated])) /\
  (forall py_str filepath n s out,
     snd (CountEpisodes.try_body py_str filepath n record (s, out)) = Ok tt ->
     let s' := fst (fst (CountEpisodes.process_line py_str filepath
                           (n, record) (s, out))) in
     CountEpisodes.by_outcome s'
     = dd_incr (PStr label) (CountEpisodes.by_outcome s) /\
     exists detail,
       CountEpisodes.episode_details s'
       = CountEpisodes.episode_details s ++ [detail] /\
       CountEpisodes.outcome (CountEpisodes.stats detail) = label /\
       CountEpisodes.final_reward (CountEpisodes.stats detail)
       = JPrim last) /\
  (forall a actions threshold filepath n s out,
     dict_get "actions" t = Some (JList (a :: actions)) ->
     snd (CheckEarlyTerminations.try_body threshold filepath n record
            (s, out)) = Ok tt ->
     let s' := fst (fst (CheckEarlyTerminations.process_line threshold
                           filepath (n, record) (s, out))) in
     let early := Z.of_nat (List.length (a :: actions)) <? threshold in
     exists info,
       CheckEarlyTerminations.final_reward info = JPrim last /\
       CheckEarlyTerminations.all_wins s'
       = CheckEarlyTerminations.all_wins s ++ (if win then [info] else []) /\
       CheckEarlyTerminations.all_early s'
       = CheckEarlyTerminations.all_early s
         ++ (if negb win && early then [info] else []) /\
       CheckEarlyTerminations.all_losses s'
       = CheckEarlyTerminations.all_losses s
         ++ (if negb win && negb early then [info] else [])) /\
  (forall a actions max_steps filepath n w,
     dict_get "actions" t = Some (JList (a :: actions)) ->
     let len := Z.of_nat (List.length (a :: actions)) in
     let result :=
       FindShortLosses.process_line max_steps filepath (n, record) w in
     (win = true -> result = (w, Ok tt)) /\
     (win = false -> len <= max_steps ->
      exists more,
        snd (fst result)
        = snd w ++ [Printed "\n{'='*80}" [];
                    Printed "File: {filepath}" [AStr filepath];
                    Printed "Line: {line_num}" [AInt n];
                    Printed "{'='*80}" [];
                    Printed "Number of actions: {num_actions}" [AInt len];
                    Printed "Final reward: {final_reward}"
                            [AJson (JPrim last)]]
                ++ more)).
Proof.
  intros win label record. subst record.
  split; [| split; [| split; [| split; [| split; [| split]]]]].
  - intros H. apply Qle_bool_iff. rewrite H. apply Qle_refl.
  - intros H. destruct win eqn:E; auto.
    apply Qle_bool_iff in E. exfalso. now apply (Qlt_not_le _ _ H).
  - intros a actions limit filepath s out Hact.
    pose proof (summary_is_win_last init last q Hnum) as Hw.
    pose proof (py_truthy_nonempty init (JPrim last)) as Ht.
    pose proof (py_index_last init (JPrim last)) as Hi.
    fold win in Hw.
    remember (JList (init ++ [JPrim last])) as rewards eqn:Er. clear Er.
    unfold Summary.process_line, try_except.
    unfold Summary.try_body, bind, lift, ret, Summary.new_object,
      Summary.update_object, Summary.append_win_episodes,
      Summary.append_loss_episodes, Summary.append_loss_step_limit,
      Summary.append_loss_invalid_actions, Summary.append_all_episodes,
      modify.
    simpl. rewrite Htraj. simpl. rewrite Hact, Hrew. simpl.
    rewrite Ht, Hi, Hw. unfold label. clearbody win.
    repeat match goal with
           | |- context [match ?x with Ok _ => _ | Raise _ => _ end] =>
               destruct x eqn:?; simpl; try discriminate
           | |- context [if ?c then _ else _] => destruct c eqn:?; simpl;
               try discriminate
           end;
      intros _; eexists;
      (split; [ first [ apply nth_error_update_nth_same, nth_error_new
                      | apply nth_error_update_nth_same,
                          nth_error_update_nth_same, nth_error_new ] |]);
      repeat split; simpl; rewrite ?app_nil_r; reflexivity.
  - intros a actions filepath n s out Hact.
    pose proof (win_expression_last init last q Hnum) as Hw.
    fold win in Hw.
    remember (JList (init ++ [JPrim last])) as rewards eqn:Er. clear Er.
    unfold RepeatedActions.process_line, try_except,
      RepeatedActions.try_body, bind, lift, ret, modify.
    simpl. rewrite Htraj. simpl. rewrite Hact, Hrew. simpl.
    rewrite Hw. simpl. clearbody win.
    destruct win; simpl; eexists; repeat split; simpl;
      rewrite ?app_nil_r; reflexivity.
  - intros py_str filepath n s out.
    pose proof (classify_last init last q Hnum) as Hc.
    fold win in Hc. fold label in Hc.
    remember (JList (init ++ [JPrim last])) as rewards eqn:Er. clear Er.
    unfold CountEpisodes.process_line, try_except. simpl snd. simpl fst.
    cbv iota.
    unfold CountEpisodes.try_body, bind, lift, ret, modify.
    simpl json_loads. cbv beta iota.
    destruct (CountEpisodes.analyze_episode py_str (JDict e)) as [st |] eqn:Ha;
      [| discriminate].
    destruct (count_episodes_outcome py_str e st Ha)
      as (tr & rw & Htr & Hrw & Hcl).
    simpl in Htr. rewrite Htraj in Htr. injection Htr as <-.
    simpl in Hrw. rewrite Hrew in Hrw. injection Hrw as <-.
    rewrite Hc in Hcl. injection Hcl as Hout Hfin.
    simpl.
    repeat match goal with
           | |- context [match ?x with Ok _ => _ | Raise _ => _ end] =>
               destruct x eqn:?; simpl; try discriminate
           | |- context [if ?c then _ else _] => destruct c eqn:?; simpl;
               try discriminate
           end;
      intros _; rewrite <- Hout; (split; [reflexivity |]);
      eexists; (split; [reflexivity |]); simpl; split; congruence.
  - intros a actions threshold filepath n s out Hact.
    pose proof (early_is_win_last last q Hnum) as Hw.
    pose proof (py_truthy_nonempty init (JPrim last)) as Ht.
    pose proof (py_index_last init (JPrim last)) as Hi.
    fold win in Hw.
    remember (JList (init ++ [JPrim last])) as rewards eqn:Er. clear Er.
    unfold CheckEarlyTerminations.process_line, try_except.
    unfold CheckEarlyTerminations.try_body, bind, lift, ret, modify.
    simpl. rewrite Htraj. simpl. rewrite Hact, Hrew. simpl.
    rewrite Ht, Hi. cbv beta iota. simpl fst. simpl snd. cbv beta iota.
    rewrite Hnum. fold win. clear Hw. clearbody win.
    destruct last as [| b | z | f | str];
      [discriminate Hnum | | | | discriminate Hnum]; cbv iota;
    repeat match goal with
           | |- context [match ?x with Ok _ => _ | Raise _ => _ end] =>
               destruct x eqn:?; simpl; try discriminate
           | |- context [if ?c then _ else _] => destruct c eqn:?; simpl;
               try discriminate
           end;
      intros _; eexists; repeat split; simpl; rewrite ?app_nil_r;
      reflexivity.
  - intros a actions max_steps filepath n w Hact len result.
    subst result.
    change (FindShortLosses.process_line max_steps filepath
              (n, Parsed (JDict e)))
      with (try_except
              (FindShortLosses.try_body max_steps filepath n
                 (Parsed (JDict e)))
              (FindShortLosses.handler filepath n)).
    unfold try_except.
    rewrite (try_body_decides max_steps n filepath e t a actions
               (JList (init ++ [JPrim last])) (JPrim last) (negb win) w
               Htraj Hact);
      [| simpl; now rewrite Hrew
       | now rewrite py_truthy_nonempty, py_index_last
       | now apply short_is_loss_last ].
    fold len. split.
    + intros ->. reflexivity.
    + intros -> Hlen.
      replace (len <=? max_steps) with true
        by (symmetry; apply Z.leb_le; exact Hlen).
      cbv beta iota. simpl negb. simpl andb. cbv iota.
      match goal with
      | |- context [FindShortLosses.print_report ?p0 ?n0 ?ep ?ac ?rw ?st
                      ?nu ?fi ?w0] =>
          destruct (print_report_head p0 n0 ep ac rw st nu fi w0)
            as [m Hm];
          destruct (FindShortLosses.print_report p0 n0 ep ac rw st nu fi w0)
            as [[u o] r]
      end.
      simpl in Hm. subst o.
      destruct r as [[] | err]; simpl;
        [ eexists; reflexivity
        | destruct err; simpl; eexists; rewrite <- !app_assoc; simpl;
          reflexivity ].
Qed.

Lemma win_loss_boundary_witness :
  (exists d,
     nth_error
       (Summary.objects
          (fst (fst (Summary.process_line 100 "a.jsonl"
                       (Parsed (JDict [("trajectory",
                          JDict [("actions", JList [JDict []]);
                                 ("rewards", JList [JInt (-1); JInt 50])])]))
                       (Summary.empty_state, []))))) 0
     = Some d /\
     Summary.outcome d = Some "win") /\
  (exists info,
     RepeatedActions.episode_details
       (fst (fst (RepeatedActions.process_line "a.jsonl"
                    (1, Parsed (JDict [("trajectory",
                          JDict [("actions", JList [JDict []]);
                                 ("rewards", JList [JInt (-1); JInt 50])])]))
                    (RepeatedActions.empty_results, []))))
     = [] ++ [info] /\
     RepeatedActions.is_win info = JBool true) /\
  CountEpisodes.by_outcome
    (fst (fst (CountEpisodes.process_line (fun _ => "None") "a.jsonl"
                 (1, Parsed (JDict [("trajectory",
                       JDict [("actions", JList [JDict []]);
                              ("rewards", JList [JInt (-1); JInt 50])])]))
                 (CountEpisodes.empty_state, []))))
  = dd_incr (PStr "win") [] /\
  (exists info,
     CheckEarlyTerminations.final_reward info = JInt 50 /\
     CheckEarlyTerminations.all_wins
       (fst (fst (CheckEarlyTerminations.process_line 95 "a.jsonl"
                    (1, Parsed (JDict [("trajectory",
                          JDict [("actions", JList [JDict []]);
                                 ("rewards", JList [JInt (-1); JInt 50])])]))
                    (CheckEarlyTerminations.empty_state, []))))
     = [] ++ [info]) /\
  FindShortLosses.process_line 50 "a.jsonl"
    (1, Parsed (JDict [("trajectory",
          JDict [("actions", JList [JDict []]);
                 ("rewards", JList [JInt (-1); JInt 50])])]))
    (tt, [])
  = ((tt, []), Ok tt) /\
  (exists d,
     nth_error
       (Summary.objects
          (fst (fst (Summary.process_line 100 "a.jsonl"
                       (Parsed (JDict [("trajectory",
                          JDict [("actions", JList [JDict []]);
                                 ("rewards",
                                  JList [JInt (-1);
                                         JFloat (7022800668930867
                                                 # 140737488355328)])])]))
                       (Summary.empty_state, []))))) 0
     = Some d /\
     Summary.outcome d = Some "loss").
Proof.
  destruct (win_loss_boundary
              [("trajectory",
                JDict [("actions", JList [JDict []]);
                       ("rewards", JList [JInt (-1); JInt 50])])]
              [("actions", JList [JDict []]);
               ("rewards", JList [JInt (-1); JInt 50])]
              [JInt (-1)] (PInt 50) (inject_Z 50)
              eq_refl eq_refl eq_refl)
    as (_ & _ & Hs & Hr & Hc & Hk & Hf).
  destruct (win_loss_boundary
              [("trajectory",
                JDict [("actions", JList [JDict []]);
                       ("rewards",
                        JList [JInt (-1);
                               JFloat (7022800668930867
                                       # 140737488355328)])])]
              [("actions", JList [JDict []]);
               ("rewards",
                JList [JInt (-1);
                       JFloat (7022800668930867 # 140737488355328)])]
              [JInt (-1)]
              (PFloat (7022800668930867 # 140737488355328))
              (7022800668930867 # 140737488355328)
              eq_refl eq_refl eq_refl)
    as (_ & _ & Hs' & _).
  split; [| split; [| split; [| split; [| split]]]].
  - destruct (Hs (JDict []) [] 100 "a.jsonl" Summary.empty_state []
                eq_refl eq_refl) as (d & Hd & Ho & _).
    exists d. split; [exact Hd | exact Ho].
  - destruct (Hr (JDict []) [] "a.jsonl" 1 RepeatedActions.empty_results []
                eq_refl) as (info & Hd & Hw & _).
    exists info. split; [exact Hd | exact Hw].
  - exact (proj1 (Hc (fun _ => "None") "a.jsonl" 1
                    CountEpisodes.empty_state [] eq_refl)).
  - destruct (Hk (JDict []) [] 95 "a.jsonl" 1
                CheckEarlyTerminations.empty_state [] eq_refl eq_refl)
      as (info & Hfin & Hw & _).
    exists info. split; [exact Hfin | exact Hw].
  - exact (proj1 (Hf (JDict []) [] 50 "a.jsonl" 1 (tt, []) eq_refl)
             eq_refl).
  - destruct (Hs' (JDict []) [] 100 "a.jsonl" Summary.empty_state []
                eq_refl eq_refl) as (d & Hd & Ho & _).
    exists d. split; [exact Hd | exact Ho].
Defined.

(** C4 fails as stated: a record whose rewards end in 50 is not a win in
    every script.  Without actions it is skipped by summary.py, which
    records nothing for it, while count_episodes.py counts it as a win;
    and with a reward that is not a number before the 50 it is a win in
    repeated_actions.py, while summary.py fails on the sum of the rewards
    and records nothing but the error. *)
Lemma last_reward_50_not_recorded :
  Summary.process_line 100 "a.jsonl"
    (Parsed (JDict [("trajectory",
                     JDict [("actions", JList []);
                            ("rewards", JList [JInt 50])])]))
    (Summary.empty_state, [])
  = ((Summary.empty_state, []), Ok tt) /\
  CountEpisodes.by_outcome
    (fst (fst (CountEpisodes.process_line (fun _ => "None") "a.jsonl"
                 (1, Parsed (JDict [("trajectory",
                                     JDict [("actions", JList []);
                                            ("rewards", JList [JInt 50])])]))
                 (CountEpisodes.empty_state, []))))
  = [(PStr "win", 1)] /\
  Summary.process_line 100 "a.jsonl"
    (Parsed (JDict [("trajectory",
                     JDict [("actions", JList [JDict []]);
                            ("rewards", JList [JStr "x"; JInt 50])])]))
    (Summary.empty_state, [])
  = ((Summary.empty_state,
      [Printed "Error processing line in {filepath}: {e}"
         [AStr "a.jsonl"; AExn TypeError]]),
     Ok tt) /\
  RepeatedActions.win_episodes
    (fst (fst (RepeatedActions.process_line "a.jsonl"
                 (1, Parsed (JDict [("trajectory",
                                     JDict [("actions", JList [JDict []]);
                                            ("rewards",
                                             JList [JStr "x"; JInt 50])])]))
                 (RepeatedActions.empty_results, []))))
  = [0].
Proof. repeat split. Qed.

End WinLossBoundary.
